(** * Studly backend: request handlers over a relational store

    A shallow embedding of the Hono route handlers of the Studly backend
    (classes, matieres, lecons, souslecons, exercices, options-qcm, users)
    together with the part of the Prisma schema and of the SQL migration
    that decides what a query or a write returns.

    Conventions of the embedding.
    - A handler is a computation in the monad [M]: it threads the database
      and a schedule of storage failures, and it may throw; [try_catch] is
      the handler's own [try { ... } catch (error) { ... }].
    - Every [await prisma.<model>.<op>(...)] is one [prisma] step; it is the
      place where the storage layer may fail.
    - Payloads are the values [c.req.valid("json")] / [c.req.valid("query")]
      hands to the handler, i.e. after the zod schema accepted the request.
    - The client validates a query before it is sent: an enum argument must
      be a member of the schema's enumeration, an [include] must name
      relation fields of the model, [skip] must not be negative, and, the
      datasource being sqlite, a string filter must not carry [mode].  A
      refused query throws.  [equals] without [mode] is exact equality;
      the comparison modulo letter case that [mode: "insensitive"] stands
      for on other connectors is kept in the filters, behind the check
      that refuses it.
    - Dates are milliseconds since the epoch.  In the lists and in the
      answers to writes, nested relation objects asked for through
      [include] are not rendered in response bodies; relation counts
      ([_count]) and [select] lists are.  The handlers that read one record
      render the relations they include and have the [include] checked
      against the schema. *)

From Stdlib Require Import String Ascii List ZArith Lia Bool Arith DecimalString
  Permutation.
Import ListNotations.
Open Scope string_scope.

Set Implicit Arguments.
Set Warnings "-register-all".

(** ** Strings as the handlers use them *)

Module Str.

(** JavaScript truthiness of a string: only the empty string is falsy. *)
Definition truthy (s : string) : bool := negb (s =? "").

Definition lower_ascii (c : ascii) : ascii :=
  let n := nat_of_ascii c in
  if (65 <=? n)%nat && (n <=? 90)%nat then ascii_of_nat (n + 32) else c.

Fixpoint lower (s : string) : string :=
  match s with
  | EmptyString => EmptyString
  | String c r => String (lower_ascii c) (lower r)
  end.

(** [equals: x, mode: "insensitive"] *)
Definition equals_insensitive (field x : string) : bool :=
  lower field =? lower x.

(** [Array.prototype.includes] on a string: substring containment. *)
Fixpoint includes (needle hay : string) : bool :=
  if prefix needle hay then true
  else match hay with
       | EmptyString => false
       | String _ r => includes needle r
       end.

(** [contains: x, mode: "insensitive"] *)
Definition contains_insensitive (field x : string) : bool :=
  includes (lower x) (lower field).

(** [contains] on a nullable column: a NULL never matches. *)
Definition contains_insensitive_opt (field : option string) (x : string) : bool :=
  match field with
  | Some f => contains_insensitive f x
  | None => false
  end.

End Str.

(** Template literals: [`${n}`] for a non-negative integer. *)
Definition show_nat (n : nat) : string := NilZero.string_of_uint (Nat.to_uint n).

(** Optional payload fields ([undefined] when absent) under [if (x)]. *)
Definition truthy_opt (o : option string) : bool :=
  match o with
  | Some s => Str.truthy s
  | None => false
  end.

(** [a || b] on an optional string and a string. *)
Definition or_else (o : option string) (d : string) : string :=
  match o with
  | Some s => if Str.truthy s then s else d
  | None => d
  end.

(** ** JSON values built by [c.json] *)

Inductive Json : Type :=
| JNull
| JBool (b : bool)
| JNum (z : Z)
| JStr (s : string)
| JArr (items : list Json)
| JObj (fields : list (string * Json)).

Module J.

Fixpoint assoc (k : string) (fs : list (string * Json)) : option Json :=
  match fs with
  | [] => None
  | (k', v) :: r => if k' =? k then Some v else assoc k r
  end.

(** Property access [o.k]; [None] stands for [undefined]. *)
Definition get (k : string) (j : Json) : option Json :=
  match j with
  | JObj fs => assoc k fs
  | _ => None
  end.

Fixpoint path (ks : list string) (j : Json) : option Json :=
  match ks with
  | [] => Some j
  | k :: r => match get k j with
              | Some v => path r v
              | None => None
              end
  end.

Definition items (j : Json) : option (list Json) :=
  match j with
  | JArr l => Some l
  | _ => None
  end.

Definition opt_str (o : option string) : Json :=
  match o with Some s => JStr s | None => JNull end.

Definition opt_num (o : option Z) : Json :=
  match o with Some z => JNum z | None => JNull end.

End J.

(** ** The data model (prisma/schema.prisma) *)

Inductive TypesExercice : Type := QCM | Numerique.

Inductive TypesUtilisateur : Type := ADMIN | ELEVE | MODERATOR.

(** Enum members by name, as the Prisma client validates an enum argument. *)
Definition TypesExercice_of_string (s : string) : option TypesExercice :=
  if s =? "QCM" then Some QCM
  else if s =? "Numerique" then Some Numerique
  else None.

Definition TypesUtilisateur_of_string (s : string) : option TypesUtilisateur :=
  if s =? "ADMIN" then Some ADMIN
  else if s =? "ELEVE" then Some ELEVE
  else if s =? "MODERATOR" then Some MODERATOR
  else None.

Definition string_of_TypesExercice (t : TypesExercice) : string :=
  match t with QCM => "QCM" | Numerique => "Numerique" end.

Definition string_of_TypesUtilisateur (t : TypesUtilisateur) : string :=
  match t with ADMIN => "ADMIN" | ELEVE => "ELEVE" | MODERATOR => "MODERATOR" end.

(** [@default(ELEVE)] on [User.typesUtilisateur]. *)
Definition default_TypesUtilisateur : TypesUtilisateur := ELEVE.

Module User.
Record t : Type := mk {
  id : string;
  email : string;
  nom : option string;
  prenom : option string;
  password : string;
  dataInscription : option string;
  derniereConnexion : option Z;
  typesUtilisateur : TypesUtilisateur;
  createdAt : Z;
  updatedAt : Z;
  classesId : option string
}.
End User.

Module Classes.
Record t : Type := mk {
  id : string;
  nom : string;
  createdAt : Z;
  updatedAt : Z
}.
Definition to_json (c : t) : Json :=
  JObj [("id", JStr (id c)); ("nom", JStr (nom c));
        ("createdAt", JNum (createdAt c)); ("updatedAt", JNum (updatedAt c))].
End Classes.

Module Matieres.
Record t : Type := mk {
  id : string;
  nom : string;
  description : option string;
  classesId : string;
  pointsTotalMatiere : option Z;
  pointsSeuilMatiere : option Z;
  createdAt : Z;
  updatedAt : Z
}.
Definition to_json (m : t) : Json :=
  JObj [("id", JStr (id m)); ("nom", JStr (nom m));
        ("description", J.opt_str (description m));
        ("classesId", JStr (classesId m));
        ("pointsTotalMatiere", J.opt_num (pointsTotalMatiere m));
        ("pointsSeuilMatiere", J.opt_num (pointsSeuilMatiere m));
        ("createdAt", JNum (createdAt m)); ("updatedAt", JNum (updatedAt m))].
End Matieres.

Module Lecons.
Record t : Type := mk {
  id : string;
  nom : string;
  description : option string;
  matieresId : string;
  createdAt : Z;
  updatedAt : Z
}.
Definition to_json (l : t) : Json :=
  JObj [("id", JStr (id l)); ("nom", JStr (nom l));
        ("description", J.opt_str (description l));
        ("matieresId", JStr (matieresId l));
        ("createdAt", JNum (createdAt l)); ("updatedAt", JNum (updatedAt l))].
End Lecons.

Module SousLecons.
Record t : Type := mk {
  id : string;
  nom : string;
  description : option string;
  leconsId : string;
  createdAt : Z;
  updatedAt : Z
}.
Definition to_json (s : t) : Json :=
  JObj [("id", JStr (id s)); ("nom", JStr (nom s));
        ("description", J.opt_str (description s));
        ("leconsId", JStr (leconsId s));
        ("createdAt", JNum (createdAt s)); ("updatedAt", JNum (updatedAt s))].
End SousLecons.

Module Exercices.
Record t : Type := mk {
  id : string;
  nom : string;
  description : option string;
  matieresId : string;
  sousLeconsId : option string;
  leconId : option string;
  typesExercice : TypesExercice;
  createdAt : Z;
  updatedAt : Z
}.
Definition to_json (e : t) : Json :=
  JObj [("id", JStr (id e)); ("nom", JStr (nom e));
        ("description", J.opt_str (description e));
        ("matieresId", JStr (matieresId e));
        ("sousLeconsId", J.opt_str (sousLeconsId e));
        ("leconId", J.opt_str (leconId e));
        ("typesExercice", JStr (string_of_TypesExercice (typesExercice e)));
        ("createdAt", JNum (createdAt e)); ("updatedAt", JNum (updatedAt e))].
End Exercices.

Module OptionsQCM.
Record t : Type := mk {
  id : string;
  nom : string;
  description : option string;
  exercicesId : string;
  points : option Z;
  isCorrect : bool;
  isSelected : bool;
  createdAt : Z;
  updatedAt : Z
}.
Definition to_json (o : t) : Json :=
  JObj [("id", JStr (id o)); ("nom", JStr (nom o));
        ("description", J.opt_str (description o));
        ("exercicesId", JStr (exercicesId o));
        ("points", J.opt_num (points o));
        ("isCorrect", JBool (isCorrect o));
        ("isSelected", JBool (isSelected o));
        ("createdAt", JNum (createdAt o)); ("updatedAt", JNum (updatedAt o))].
End OptionsQCM.

Module LeconsUtilisateur.
Record t : Type := mk {
  id : string;
  leconsId : string;
  userId : string;
  createdAt : Z;
  updatedAt : Z
}.
End LeconsUtilisateur.

Module Reponses.
Record t : Type := mk {
  id : string;
  nom : string;
  description : option string;
  exercicesId : string;
  createdAt : Z;
  updatedAt : Z
}.
End Reponses.

Module ReponsesUtilisateur.
Record t : Type := mk {
  id : string;
  reponsesId : string;
  userId : string;
  createdAt : Z;
  updatedAt : Z
}.
End ReponsesUtilisateur.

(** The database: one list of rows per table, in insertion order. *)
Record Store : Type := mkStore {
  users : list User.t;
  classes : list Classes.t;
  matieres : list Matieres.t;
  lecons : list Lecons.t;
  sousLecons : list SousLecons.t;
  exercices : list Exercices.t;
  optionsQCM : list OptionsQCM.t;
  leconsUtilisateur : list LeconsUtilisateur.t;
  reponses : list Reponses.t;
  reponsesUtilisateur : list ReponsesUtilisateur.t
}.

Definition empty_store : Store := mkStore [] [] [] [] [] [] [] [] [] [].

(** ** Handler computations *)

(** What a storage call or the runtime may throw. *)
Inductive Exn : Type :=
| UniqueConstraintFailed      (* Prisma P2002 *)
| ForeignKeyConstraintFailed  (* Prisma P2003 *)
| RecordNotFound              (* Prisma P2025 *)
| InvalidArgument             (* PrismaClientValidationError *)
| StorageFailure              (* the engine or the binding failed *)
| ReferenceError.             (* JavaScript: an unbound identifier *)

Inductive Outcome (A : Type) : Type :=
| Ok (a : A)
| Throw (e : Exn).

Arguments Ok {A} a.
Arguments Throw {A} e.

Record JWTPayload : Type := mkPayload {
  userId : string;
  payload_email : string;
  exp : Z
}.

(** The platform around a handler: bindings and library primitives. *)
Record Env : Type := mkEnv {
  JWT_SECRET : string;
  cuid : nat -> string;                        (* Prisma's [cuid()] *)
  digest_SHA256 : list Byte.byte -> list Byte.byte; (* crypto.subtle.digest *)
  sign : JWTPayload -> string -> string        (* hono/jwt *)
}.

(** [faults] schedules the outcome of the coming storage calls: [true]
    makes the call throw; past the end of the list every call goes through.
    [clock] is [Date.now()]; [drawn] counts identifiers taken from [cuid]. *)
Record World : Type := mkWorld {
  db : Store;
  faults : list bool;
  clock : Z;
  drawn : nat;
  env : Env
}.

Definition M (A : Type) : Type := World -> Outcome A * World.

Definition ret {A} (a : A) : M A := fun w => (Ok a, w).

Definition bind {A B} (m : M A) (k : A -> M B) : M B :=
  fun w =>
    match m w with
    | (Ok a, w') => k a w'
    | (Throw e, w') => (Throw e, w')
    end.

Definition throw {A} (e : Exn) : M A := fun w => (Throw e, w).

Definition try_catch {A} (body : M A) (handler : Exn -> M A) : M A :=
  fun w =>
    match body w with
    | (Ok a, w') => (Ok a, w')
    | (Throw e, w') => handler e w'
    end.

(** [try { body } ... finally { cleanup }]: the cleanup runs on every exit
    and its own exception replaces the result. *)
Definition finally_ {A} (body : M A) (cleanup : M unit) : M A :=
  fun w =>
    let '(o, w') := body w in
    match cleanup w' with
    | (Ok _, w'') => (o, w'')
    | (Throw e, w'') => (Throw e, w'')
    end.

Declare Scope handler_scope.
Delimit Scope handler_scope with handler.
Notation "x <- m ;; k" := (bind m (fun x => k))
  (at level 61, m at next level, right associativity) : handler_scope.
Notation "m ;;; k" := (bind m (fun _ => k))
  (at level 61, right associativity) : handler_scope.
Open Scope handler_scope.

Definition now : M Z := fun w => (Ok (clock w), w).
Definition ask : M Env := fun w => (Ok (env w), w).

(** One identifier from the client-side generator. *)
Definition draw_cuid : M string :=
  fun w => (Ok (cuid (env w) (drawn w)),
            mkWorld (db w) (faults w) (clock w) (S (drawn w)) (env w)).

Fixpoint draw_cuids (n : nat) : M (list string) :=
  match n with
  | O => ret []
  | S k => i <- draw_cuid ;; r <- draw_cuids k ;; ret (i :: r)
  end.

(** A storage operation on the database proper. *)
Definition Op (A : Type) : Type := Store -> Outcome A * Store.

Definition read {A} (f : Store -> A) : Op A := fun st => (Ok (f st), st).

(** [await prisma. ...]: one round trip to the storage layer. *)
Definition prisma {A} (q : Op A) : M A :=
  fun w =>
    if hd false (faults w)
    then (Throw StorageFailure,
          mkWorld (db w) (tl (faults w)) (clock w) (drawn w) (env w))
    else let '(o, d) := q (db w) in
         (o, mkWorld d (tl (faults w)) (clock w) (drawn w) (env w)).

(** [prisma.$disconnect()] *)
Definition disconnect : M unit := prisma (read (fun _ => tt)).

(** ** Responses *)

Record Response : Type := mkResponse {
  status : nat;
  body : Json
}.

(** [c.json(object, status)]; the status defaults to 200. *)
Definition c_json (object : Json) (st : nat) : M Response :=
  ret (mkResponse st object).

Definition c_json_ok (object : Json) : M Response := c_json object 200.

(** Hono's default error handler answers an exception that escapes the
    route handler with 500 "Internal Server Error". *)
Definition serve (h : M Response) (w : World) : Response * World :=
  match h w with
  | (Ok r, w') => (r, w')
  | (Throw _, w') => (mkResponse 500 (JStr "Internal Server Error"), w')
  end.

Definition failure (msg : string) : Json :=
  JObj [("success", JBool false); ("error", JStr msg)].

Definition success_with (data : Json) (msg : string) : Json :=
  JObj [("success", JBool true); ("data", data); ("message", JStr msg)].

Definition success_message (msg : string) : Json :=
  JObj [("success", JBool true); ("message", JStr msg)].

(** ** The storage layer: tables, keys and referential actions *)

Section Table.
Variable R : Type.
Variable key : R -> string.

(** [findUnique({ where: { id } })] *)
Definition find_id (i : string) (t : list R) : option R :=
  find (fun r => key r =? i) t.

Definition has_id (i : string) (t : list R) : bool :=
  existsb (fun r => key r =? i) t.

Definition remove_id (i : string) (t : list R) : list R :=
  filter (fun r => negb (key r =? i)) t.

Definition amend_id (i : string) (f : R -> R) (t : list R) : list R :=
  map (fun r => if key r =? i then f r else r) t.

(** Stable insertion sort, for [orderBy]. *)
Variable le : R -> R -> bool.

Fixpoint insert_sorted (x : R) (l : list R) : list R :=
  match l with
  | [] => [x]
  | y :: r => if le x y then x :: y :: r else y :: insert_sorted x r
  end.

Fixpoint sort_by (l : list R) : list R :=
  match l with
  | [] => []
  | x :: r => insert_sorted x (sort_by r)
  end.
End Table.

(** [take] and [skip] of [findMany]. *)
Definition rows_page {R} (take skip : nat) (rows : list R) : list R :=
  firstn take (skipn skip rows).

Definition opt_is (o : option string) (i : string) : bool :=
  match o with Some x => x =? i | None => false end.

Module DB.

Definition set_users t st :=
  mkStore t (classes st) (matieres st) (lecons st) (sousLecons st)
          (exercices st) (optionsQCM st) (leconsUtilisateur st) (reponses st)
          (reponsesUtilisateur st).
Definition set_classes t st :=
  mkStore (users st) t (matieres st) (lecons st) (sousLecons st)
          (exercices st) (optionsQCM st) (leconsUtilisateur st) (reponses st)
          (reponsesUtilisateur st).
Definition set_matieres t st :=
  mkStore (users st) (classes st) t (lecons st) (sousLecons st)
          (exercices st) (optionsQCM st) (leconsUtilisateur st) (reponses st)
          (reponsesUtilisateur st).
Definition set_lecons t st :=
  mkStore (users st) (classes st) (matieres st) t (sousLecons st)
          (exercices st) (optionsQCM st) (leconsUtilisateur st) (reponses st)
          (reponsesUtilisateur st).
Definition set_sousLecons t st :=
  mkStore (users st) (classes st) (matieres st) (lecons st) t
          (exercices st) (optionsQCM st) (leconsUtilisateur st) (reponses st)
          (reponsesUtilisateur st).
Definition set_exercices t st :=
  mkStore (users st) (classes st) (matieres st) (lecons st) (sousLecons st)
          t (optionsQCM st) (leconsUtilisateur st) (reponses st)
          (reponsesUtilisateur st).
Definition set_optionsQCM t st :=
  mkStore (users st) (classes st) (matieres st) (lecons st) (sousLecons st)
          (exercices st) t (leconsUtilisateur st) (reponses st)
          (reponsesUtilisateur st).

(** *** Inserts: primary key, unique index, foreign keys *)

Definition insert_user (u : User.t) : Op User.t := fun st =>
  if has_id User.id (User.id u) (users st)
     || existsb (fun x => User.email x =? User.email u) (users st)
  then (Throw UniqueConstraintFailed, st)
  else match User.classesId u with
       | Some c =>
           if has_id Classes.id c (classes st)
           then (Ok u, set_users (users st ++ [u]) st)
           else (Throw ForeignKeyConstraintFailed, st)
       | None => (Ok u, set_users (users st ++ [u]) st)
       end.

Definition insert_classes (c : Classes.t) : Op Classes.t := fun st =>
  if has_id Classes.id (Classes.id c) (classes st)
  then (Throw UniqueConstraintFailed, st)
  else (Ok c, set_classes (classes st ++ [c]) st).

Definition insert_matieres (m : Matieres.t) : Op Matieres.t := fun st =>
  if has_id Matieres.id (Matieres.id m) (matieres st)
  then (Throw UniqueConstraintFailed, st)
  else if has_id Classes.id (Matieres.classesId m) (classes st)
  then (Ok m, set_matieres (matieres st ++ [m]) st)
  else (Throw ForeignKeyConstraintFailed, st).

Definition insert_lecons (l : Lecons.t) : Op Lecons.t := fun st =>
  if has_id Lecons.id (Lecons.id l) (lecons st)
  then (Throw UniqueConstraintFailed, st)
  else if has_id Matieres.id (Lecons.matieresId l) (matieres st)
  then (Ok l, set_lecons (lecons st ++ [l]) st)
  else (Throw ForeignKeyConstraintFailed, st).

Definition insert_sousLecons (s : SousLecons.t) : Op SousLecons.t := fun st =>
  if has_id SousLecons.id (SousLecons.id s) (sousLecons st)
  then (Throw UniqueConstraintFailed, st)
  else if has_id Lecons.id (SousLecons.leconsId s) (lecons st)
  then (Ok s, set_sousLecons (sousLecons st ++ [s]) st)
  else (Throw ForeignKeyConstraintFailed, st).

Definition opt_ref_ok {R} (key : R -> string) (o : option string) (t : list R) : bool :=
  match o with
  | Some i => has_id key i t
  | None => true
  end.

Definition exercice_refs_ok (e : Exercices.t) (st : Store) : bool :=
  has_id Matieres.id (Exercices.matieresId e) (matieres st)
  && opt_ref_ok SousLecons.id (Exercices.sousLeconsId e) (sousLecons st)
  && opt_ref_ok Lecons.id (Exercices.leconId e) (lecons st).

Definition insert_exercices (e : Exercices.t) : Op Exercices.t := fun st =>
  if has_id Exercices.id (Exercices.id e) (exercices st)
  then (Throw UniqueConstraintFailed, st)
  else if exercice_refs_ok e st
  then (Ok e, set_exercices (exercices st ++ [e]) st)
  else (Throw ForeignKeyConstraintFailed, st).

Definition insert_optionsQCM (o : OptionsQCM.t) : Op OptionsQCM.t := fun st =>
  if has_id OptionsQCM.id (OptionsQCM.id o) (optionsQCM st)
  then (Throw UniqueConstraintFailed, st)
  else if has_id Exercices.id (OptionsQCM.exercicesId o) (exercices st)
  then (Ok o, set_optionsQCM (optionsQCM st ++ [o]) st)
  else (Throw ForeignKeyConstraintFailed, st).

(** [prisma.user.create]: the client checks an enum argument against the
    schema before anything is sent; an absent one takes the default. *)
Definition create_user (i email : string) (nom prenom : option string)
    (password : string) (dataInscription typesUtilisateur : option string)
    (t : Z) : Op User.t := fun st =>
  match typesUtilisateur with
  | None =>
      insert_user (User.mk i email nom prenom password dataInscription None
                           default_TypesUtilisateur t t None) st
  | Some s =>
      match TypesUtilisateur_of_string s with
      | Some role =>
          insert_user (User.mk i email nom prenom password dataInscription None
                               role t t None) st
      | None => (Throw InvalidArgument, st)
      end
  end.

(** [prisma.exercices.create], with the same check on [typesExercice]. *)
Definition create_exercice (i nom : string) (description : option string)
    (matieresId : string) (sousLeconsId leconId : option string)
    (typesExercice : string) (t : Z) : Op Exercices.t := fun st =>
  match TypesExercice_of_string typesExercice with
  | Some ty =>
      insert_exercices (Exercices.mk i nom description matieresId sousLeconsId
                                     leconId ty t t) st
  | None => (Throw InvalidArgument, st)
  end.

(** *** Updates: the row must exist; a changed foreign key must resolve *)

Definition update_user (i : string) (f : User.t -> User.t) : Op User.t := fun st =>
  match find_id User.id i (users st) with
  | None => (Throw RecordNotFound, st)
  | Some u =>
      let u' := f u in
      if negb (User.email u' =? User.email u)
         && existsb (fun x => User.email x =? User.email u') (users st)
      then (Throw UniqueConstraintFailed, st)
      else (Ok u', set_users (amend_id User.id i f (users st)) st)
  end.

Definition update_classes (i : string) (f : Classes.t -> Classes.t) : Op Classes.t :=
  fun st =>
    match find_id Classes.id i (classes st) with
    | None => (Throw RecordNotFound, st)
    | Some c => (Ok (f c), set_classes (amend_id Classes.id i f (classes st)) st)
    end.

Definition update_matieres (i : string) (f : Matieres.t -> Matieres.t) : Op Matieres.t :=
  fun st =>
    match find_id Matieres.id i (matieres st) with
    | None => (Throw RecordNotFound, st)
    | Some m =>
        let m' := f m in
        if (Matieres.classesId m' =? Matieres.classesId m)
           || has_id Classes.id (Matieres.classesId m') (classes st)
        then (Ok m', set_matieres (amend_id Matieres.id i f (matieres st)) st)
        else (Throw ForeignKeyConstraintFailed, st)
    end.

Definition update_lecons (i : string) (f : Lecons.t -> Lecons.t) : Op Lecons.t :=
  fun st =>
    match find_id Lecons.id i (lecons st) with
    | None => (Throw RecordNotFound, st)
    | Some l =>
        let l' := f l in
        if (Lecons.matieresId l' =? Lecons.matieresId l)
           || has_id Matieres.id (Lecons.matieresId l') (matieres st)
        then (Ok l', set_lecons (amend_id Lecons.id i f (lecons st)) st)
        else (Throw ForeignKeyConstraintFailed, st)
    end.

Definition update_sousLecons (i : string) (f : SousLecons.t -> SousLecons.t)
  : Op SousLecons.t :=
  fun st =>
    match find_id SousLecons.id i (sousLecons st) with
    | None => (Throw RecordNotFound, st)
    | Some s =>
        let s' := f s in
        if (SousLecons.leconsId s' =? SousLecons.leconsId s)
           || has_id Lecons.id (SousLecons.leconsId s') (lecons st)
        then (Ok s', set_sousLecons (amend_id SousLecons.id i f (sousLecons st)) st)
        else (Throw ForeignKeyConstraintFailed, st)
    end.

Definition update_exercices (i : string) (f : Exercices.t -> Exercices.t)
  : Op Exercices.t :=
  fun st =>
    match find_id Exercices.id i (exercices st) with
    | None => (Throw RecordNotFound, st)
    | Some e =>
        let e' := f e in
        if exercice_refs_ok e' st
        then (Ok e', set_exercices (amend_id Exercices.id i f (exercices st)) st)
        else (Throw ForeignKeyConstraintFailed, st)
    end.

(** *** Deletes: ON DELETE RESTRICT refuses, ON DELETE SET NULL detaches *)

Definition detach_user_classe (i : string) (u : User.t) : User.t :=
  if opt_is (User.classesId u) i
  then User.mk (User.id u) (User.email u) (User.nom u) (User.prenom u)
               (User.password u) (User.dataInscription u)
               (User.derniereConnexion u) (User.typesUtilisateur u)
               (User.createdAt u) (User.updatedAt u) None
  else u.

Definition detach_exercice_lecon (i : string) (e : Exercices.t) : Exercices.t :=
  if opt_is (Exercices.leconId e) i
  then Exercices.mk (Exercices.id e) (Exercices.nom e) (Exercices.description e)
                    (Exercices.matieresId e) (Exercices.sousLeconsId e) None
                    (Exercices.typesExercice e) (Exercices.createdAt e)
                    (Exercices.updatedAt e)
  else e.

Definition detach_exercice_sousLecon (i : string) (e : Exercices.t) : Exercices.t :=
  if opt_is (Exercices.sousLeconsId e) i
  then Exercices.mk (Exercices.id e) (Exercices.nom e) (Exercices.description e)
                    (Exercices.matieresId e) None (Exercices.leconId e)
                    (Exercices.typesExercice e) (Exercices.createdAt e)
                    (Exercices.updatedAt e)
  else e.

(** Matieres.classesId: RESTRICT; User.classesId (optional): SET NULL. *)
Definition delete_classes (i : string) : Op unit := fun st =>
  if negb (has_id Classes.id i (classes st)) then (Throw RecordNotFound, st)
  else if existsb (fun m => Matieres.classesId m =? i) (matieres st)
  then (Throw ForeignKeyConstraintFailed, st)
  else (Ok tt,
        set_users (map (detach_user_classe i) (users st))
          (set_classes (remove_id Classes.id i (classes st)) st)).

(** Lecons.matieresId and Exercices.matieresId: RESTRICT. *)
Definition delete_matieres (i : string) : Op unit := fun st =>
  if negb (has_id Matieres.id i (matieres st)) then (Throw RecordNotFound, st)
  else if existsb (fun l => Lecons.matieresId l =? i) (lecons st)
          || existsb (fun e => Exercices.matieresId e =? i) (exercices st)
  then (Throw ForeignKeyConstraintFailed, st)
  else (Ok tt, set_matieres (remove_id Matieres.id i (matieres st)) st).

(** SousLecons.leconsId and LeconsUtilisateur.leconsId: RESTRICT;
    Exercices.leconId: SET NULL. *)
Definition delete_lecons (i : string) : Op unit := fun st =>
  if negb (has_id Lecons.id i (lecons st)) then (Throw RecordNotFound, st)
  else if existsb (fun s => SousLecons.leconsId s =? i) (sousLecons st)
          || existsb (fun x => LeconsUtilisateur.leconsId x =? i) (leconsUtilisateur st)
  then (Throw ForeignKeyConstraintFailed, st)
  else (Ok tt,
        set_exercices (map (detach_exercice_lecon i) (exercices st))
          (set_lecons (remove_id Lecons.id i (lecons st)) st)).

(** Exercices.sousLeconsId: SET NULL. *)
Definition delete_sousLecons (i : string) : Op unit := fun st =>
  if negb (has_id SousLecons.id i (sousLecons st)) then (Throw RecordNotFound, st)
  else (Ok tt,
        set_exercices (map (detach_exercice_sousLecon i) (exercices st))
          (set_sousLecons (remove_id SousLecons.id i (sousLecons st)) st)).

(** OptionsQCM.exercicesId and Reponses.exercicesId: RESTRICT. *)
Definition delete_exercices (i : string) : Op unit := fun st =>
  if negb (has_id Exercices.id i (exercices st)) then (Throw RecordNotFound, st)
  else if existsb (fun o => OptionsQCM.exercicesId o =? i) (optionsQCM st)
          || existsb (fun r => Reponses.exercicesId r =? i) (reponses st)
  then (Throw ForeignKeyConstraintFailed, st)
  else (Ok tt, set_exercices (remove_id Exercices.id i (exercices st)) st).

(** [prisma.$transaction([...])]: the writes run in order; the first
    failure rolls every one of them back. *)
Fixpoint run_all {A} (ops : list (Op A)) (st : Store) : Outcome (list A) * Store :=
  match ops with
  | [] => (Ok [], st)
  | q :: r =>
      match q st with
      | (Ok a, st') =>
          match run_all r st' with
          | (Ok l, st'') => (Ok (a :: l), st'')
          | (Throw e, st'') => (Throw e, st'')
          end
      | (Throw e, st') => (Throw e, st')
      end
  end.

Definition transaction {A} (ops : list (Op A)) : Op (list A) := fun st =>
  match run_all ops st with
  | (Ok l, st') => (Ok l, st')
  | (Throw e, _) => (Throw e, st)
  end.

End DB.


(** ** The client's own checks

    The Prisma client validates the arguments of a query against the
    schema before anything is sent to the database; a query it refuses
    throws a validation error and reads or writes nothing. *)

Definition validated {A} (accepted : bool) (q : Op A) : Op A := fun st =>
  if accepted then q st else (Throw InvalidArgument, st).

(** prisma/schema.prisma: [datasource db { provider = "sqlite" }]. *)
Inductive Provider : Type := sqlite | postgresql | mysql | sqlserver | mongodb.

Definition provider : Provider := sqlite.

(** [mode: "insensitive"] is an argument of the string filters of the
    postgresql and mongodb connectors only: the other connectors have no
    such field, and their client refuses a [where] that carries it. *)
Definition has_mode (p : Provider) : bool :=
  match p with
  | postgresql | mongodb => true
  | sqlite | mysql | sqlserver => false
  end.

(** A query whose [where] carries [mode: "insensitive"]. *)
Definition with_mode {A} (q : Op A) : Op A := validated (has_mode provider) q.

(** A query whose [where] carries [mode: "insensitive"] when the request
    has a search term ([if (search) { where.OR = [...] }]). *)
Definition searching {A} (search : option string) (q : Op A) : Op A :=
  if truthy_opt search then with_mode q else q.
(** ** Relations asked for through [include] *)

Module Include.

(** [s.split(",")] *)
Fixpoint split (sep : ascii) (cur s : string) : list string :=
  match s with
  | EmptyString => [cur]
  | String c r =>
      if Ascii.eqb c sep then cur :: split sep "" r
      else split sep (cur ++ String c "") r
  end.

Definition split_commas (s : string) : list string := split "," "" s.

(** [if (include) { const includeArray = include.split(",");
    if (includeArray.includes(name)) ... }] *)
Definition asks (include : option string) (name : string) : bool :=
  match include with
  | Some s => Str.truthy s && existsb (fun x => x =? name) (split_commas s)
  | None => false
  end.

(** The models of prisma/schema.prisma. *)
Inductive Model : Type :=
| MUser | MClasses | MMatieres | MLecons | MSousLecons | MExercices
| MOptionsQCM | MLeconsUtilisateur | MReponses | MReponsesUtilisateur.

(** The relation fields of each model, by name. *)
Definition relations (m : Model) : list (string * Model) :=
  match m with
  | MUser => [("ReponsesUtilisateur", MReponsesUtilisateur);
              ("LeconsUtilisateur", MLeconsUtilisateur);
              ("classe", MClasses)]
  | MClasses => [("Matieres", MMatieres); ("User", MUser)]
  | MMatieres => [("classes", MClasses); ("Lecons", MLecons);
                  ("Exercices", MExercices)]
  | MLecons => [("matieres", MMatieres); ("SousLecons", MSousLecons);
                ("LeconsUtilisateur", MLeconsUtilisateur);
                ("Exercices", MExercices)]
  | MSousLecons => [("lecons", MLecons); ("Exercices", MExercices)]
  | MExercices => [("sousLecons", MSousLecons); ("matieres", MMatieres);
                   ("lecons", MLecons); ("Reponses", MReponses);
                   ("OptionsQCM", MOptionsQCM)]
  | MOptionsQCM => [("exercices", MExercices)]
  | MLeconsUtilisateur => [("lecons", MLecons); ("user", MUser)]
  | MReponses => [("exercices", MExercices);
                  ("ReponsesUtilisateur", MReponsesUtilisateur)]
  | MReponsesUtilisateur => [("reponses", MReponses); ("user", MUser)]
  end.

Fixpoint target (name : string) (rels : list (string * Model)) : option Model :=
  match rels with
  | [] => None
  | (n, m) :: r => if n =? name then Some m else target name r
  end.

(** One entry of an [include] object: a relation field and what is
    included below it. *)
Inductive t : Type :=
| rel (name : string) (nested : list t).

(** The client refuses an [include] that names a field the model does not
    have. *)
Fixpoint valid (m : Model) (i : t) : bool :=
  match i with
  | rel name nested =>
      match target name (relations m) with
      | Some m' => forallb (valid m') nested
      | None => false
      end
  end.

(** A query that carries [include]: the client checks it first. *)
Definition checked {A} (m : Model) (include : list t) (q : Op A) : Op A :=
  validated (forallb (valid m) include) q.

Definition has (name : string) (l : list t) : bool :=
  existsb (fun i => match i with rel n _ => n =? name end) l.

(** [findUnique({ where, include })]: the arguments are checked before the
    record is looked for. *)
Definition findUnique {R} (m : Model) (include : list t)
    (found : Store -> option R) (render : Store -> R -> Json) : Op (option Json) :=
  fun st =>
    if forallb (valid m) include
    then (Ok (option_map (render st) (found st)), st)
    else (Throw InvalidArgument, st).

End Include.

(** ** Shared pieces of the list endpoints *)

(** [offset + limit < total]; comparing with [undefined] is false. *)
Definition js_lt (a : nat) (b : option nat) : bool :=
  match b with
  | Some n => (a <? n)%nat
  | None => false
  end.

Definition jnat (n : nat) : Json := JNum (Z.of_nat n).

(** [{ total, limit, offset, hasMore: offset + limit < total }]; a property
    whose value is [undefined] is dropped by JSON serialisation. *)
Definition pagination (total : option nat) (limit offset : nat) : Json :=
  JObj ((match total with
         | Some n => [("total", jnat n)]
         | None => []
         end)
        ++ [("limit", jnat limit); ("offset", jnat offset);
            ("hasMore", JBool (js_lt (offset + limit) total))]).

Definition listing (data : Json) (total : option nat) (limit offset : nat) : Json :=
  JObj [("success", JBool true); ("data", data);
        ("pagination", pagination total limit offset)].

Inductive Order : Type := asc | desc.

Inductive OrderField : Type := by_nom | by_createdAt | by_updatedAt.

Definition directed {R} (o : Order) (le : R -> R -> bool) : R -> R -> bool :=
  match o with
  | asc => le
  | desc => fun x y => le y x
  end.

(** Partial updates: a field left [undefined] in [data] keeps its value. *)
Definition keep {A} (new : option A) (old : A) : A :=
  match new with Some x => x | None => old end.

Definition keep_opt {A} (new : option A) (old : option A) : option A :=
  match new with Some x => Some x | None => old end.

(** A query parameter with a default. *)
Definition default_nat (d : nat) (o : option nat) : nat :=
  match o with Some n => n | None => d end.

(** [if (x)] on a field that may be [undefined], [null] or a string: the
    value when it is a non-empty string. *)
Definition given (o : option (option string)) : option string :=
  match o with
  | Some (Some s) => if Str.truthy s then Some s else None
  | _ => None
  end.

Definition given1 (o : option string) : option string :=
  match o with
  | Some s => if Str.truthy s then Some s else None
  | None => None
  end.

(** ** routes: classes (classes.ts, first revision) *)

Module ClassesRoutes.

(** createClasseSchema / updateClasseSchema, after validation *)
Record createClasse : Type := { create_nom : string }.
Record updateClasse : Type := { update_nom : option string }.

(** querySchema: [limit] defaults to 50 and [offset] to 0 *)
Record query : Type := {
  include : option string;
  limit : nat;
  offset : nat;
  search : option string
}.

Definition newest_first (x y : Classes.t) : bool :=
  (Classes.createdAt y <=? Classes.createdAt x)%Z.

(** [search ? { nom: { contains: search, mode: "insensitive" } } : {}]: the
    rows the filter selects on a connector that has [mode]. *)
Definition where_search (q : query) (c : Classes.t) : bool :=
  match search q with
  | Some s => if Str.truthy s then Str.contains_insensitive (Classes.nom c) s else true
  | None => true
  end.

(** GET /classes.  The [where] filter is built but not handed to
    [findMany]; [Promise.all] receives three entries, [findMany], the
    result of [console.log] and [count()], and [total] is bound to the
    second one. *)
Definition get_root (q : query) : M Response :=
  finally_
    (try_catch
       (let _where := where_search q in
        rows <- prisma (read (fun st =>
                  rows_page (limit q) (offset q) (sort_by newest_first (classes st)))) ;;
        _count <- prisma (read (fun st => length (classes st))) ;;
        let total : option nat := None in
        c_json_ok (listing (JArr (map Classes.to_json rows))
                           total (limit q) (offset q)))
       (fun _ =>
          c_json (failure "Erreur serveur lors de la récupération des classes") 500))
    disconnect.

(** POST /classes: the duplicate lookup is
    [findFirst({ where: { nom: { equals: nom, mode: "insensitive" } } })]. *)
Definition post_root (data : createClasse) : M Response :=
  finally_
    (try_catch
       (existingClasse <- prisma (with_mode (read (fun st =>
            find (fun c => Str.equals_insensitive (Classes.nom c) (create_nom data))
                 (classes st)))) ;;
        match existingClasse with
        | Some _ => c_json (failure "Une classe avec ce nom existe déjà") 400
        | None =>
            i <- draw_cuid ;;
            t <- now ;;
            classe <- prisma (DB.insert_classes (Classes.mk i (create_nom data) t t)) ;;
            c_json (success_with (Classes.to_json classe) "Classe créée avec succès") 201
        end)
       (fun _ =>
          c_json (failure "Erreur serveur lors de la création de la classe") 500))
    disconnect.

(** [prisma.classes.update({ where: { id }, data })] *)
Definition patch (data : updateClasse) (t : Z) (c : Classes.t) : Classes.t :=
  Classes.mk (Classes.id c)
             (match update_nom data with Some n => n | None => Classes.nom c end)
             (Classes.createdAt c) t.

(** The body shared by PUT /classes/:id and, in the second revision,
    PUT /classes/:id/update; [not_found] is what the handler does when
    the class does not exist.  The duplicate lookup, run when the name
    changes, carries [mode: "insensitive"] and [NOT: { id }]. *)
Definition put_body (not_found : M Response) (id : string) (data : updateClasse)
  : M Response :=
  if negb (Str.truthy id) then c_json (failure "ID de classe invalide") 400
  else
    existingClasse <- prisma (read (fun st => find_id Classes.id id (classes st))) ;;
    match existingClasse with
    | None => not_found
    | Some existing =>
        let write :=
          t <- now ;;
          classe <- prisma (DB.update_classes id (patch data t)) ;;
          c_json_ok (success_with (Classes.to_json classe)
                                  "Classe mise à jour avec succès") in
        match update_nom data with
        | Some nom =>
            if Str.truthy nom && negb (nom =? Classes.nom existing)
            then
              duplicateClasse <- prisma (with_mode (read (fun st =>
                  find (fun c => Str.equals_insensitive (Classes.nom c) nom
                                 && negb (Classes.id c =? id))
                       (classes st)))) ;;
              match duplicateClasse with
              | Some _ => c_json (failure "Une classe avec ce nom existe déjà") 400
              | None => write
              end
            else write
        | None => write
        end
    end.

(** PUT /classes/:id *)
Definition put_id (id : string) (data : updateClasse) : M Response :=
  finally_
    (try_catch
       (put_body (c_json (failure "Classe non trouvée") 404) id data)
       (fun _ =>
          c_json (failure "Erreur serveur lors de la mise à jour de la classe") 500))
    disconnect.

(** The body shared by DELETE /classes/:id and DELETE /classes/:id/delete:
    [findUnique] with [include: { Matieres: true }], then the guard. *)
Definition delete_body (id : string) : M Response :=
  if negb (Str.truthy id) then c_json (failure "ID de classe invalide") 400
  else
    existingClasse <- prisma (read (fun st =>
        match find_id Classes.id id (classes st) with
        | Some c => Some (c, filter (fun m => Matieres.classesId m =? id) (matieres st))
        | None => None
        end)) ;;
    match existingClasse with
    | None => c_json (failure "Classe non trouvée") 404
    | Some (_, Matieres_) =>
        if (0 <? length Matieres_)%nat
        then c_json (failure ("Impossible de supprimer la classe car elle contient "
                              ++ show_nat (length Matieres_) ++ " matière(s)")) 400
        else
          prisma (DB.delete_classes id) ;;;
          c_json_ok (success_message "Classe supprimée avec succès")
    end.

(** DELETE /classes/:id *)
Definition delete_id (id : string) : M Response :=
  finally_
    (try_catch
       (delete_body id)
       (fun _ =>
          c_json (failure "Erreur serveur lors de la suppression de la classe") 500))
    disconnect.

Definition matiere_nom_asc (x y : Matieres.t) : bool :=
  String.leb (Matieres.nom x) (Matieres.nom y).

(** GET /classes/:id/matieres *)
Definition get_id_matieres (id : string) (q : query) : M Response :=
  finally_
    (try_catch
       (if negb (Str.truthy id) then c_json (failure "ID de classe invalide") 400
        else
          classe <- prisma (read (fun st => find_id Classes.id id (classes st))) ;;
          match classe with
          | None => c_json (failure "Classe non trouvée") 404
          | Some c =>
              let where_ (m : Matieres.t) :=
                (Matieres.classesId m =? id)
                && match search q with
                   | Some s => if Str.truthy s
                               then Str.contains_insensitive (Matieres.nom m) s
                               else true
                   | None => true
                   end in
              rows <- prisma (searching (search q) (read (fun st =>
                  rows_page (limit q) (offset q)
                       (sort_by matiere_nom_asc (filter where_ (matieres st)))))) ;;
              total <- prisma (searching (search q)
                                 (read (fun st => length (filter where_ (matieres st))))) ;;
              c_json_ok
                (listing
                   (JObj [("classe", JObj [("id", JStr (Classes.id c));
                                           ("nom", JStr (Classes.nom c))]);
                          ("matieres", JArr (map Matieres.to_json rows))])
                   (Some total) (limit q) (offset q))
          end)
       (fun _ =>
          c_json (failure "Erreur serveur lors de la récupération des matières") 500))
    disconnect.

End ClassesRoutes.

(** ** routes: classes (classes.ts, second revision)

    [authMiddleware] builds a [jwt] middleware without running it and then
    calls [next()]: it lets every request through, so it does not appear in
    the handlers below. *)

Module ClassesRoutes2.

Import ClassesRoutes.

(** GET /classes *)
Definition get_root (q : query) : M Response :=
  try_catch
    (let where_ := where_search q in
     rows <- prisma (searching (search q) (read (fun st =>
               rows_page (limit q) (offset q)
                    (sort_by newest_first (filter where_ (classes st)))))) ;;
     total <- prisma (searching (search q)
                        (read (fun st => length (filter where_ (classes st))))) ;;
     c_json_ok (listing (JArr (map Classes.to_json rows))
                        (Some total) (limit q) (offset q)))
    (fun _ =>
       c_json (failure "Erreur serveur lors de la récupération des classes") 500).

(** POST /classes/new: [equals: nom] carries no [mode]; the catch block
    sets the status to 501 and sends the caught error back. *)
Definition post_new (data : createClasse) : M Response :=
  try_catch
    (existingClasse <- prisma (read (fun st =>
         find (fun c => Classes.nom c =? create_nom data) (classes st))) ;;
     match existingClasse with
     | Some _ => c_json (failure "Une classe avec ce nom existe déjà") 400
     | None =>
         i <- draw_cuid ;;
         t <- now ;;
         result <- prisma (DB.insert_classes (Classes.mk i (create_nom data) t t)) ;;
         c_json (success_with
                   (JObj [("nom", JStr (Classes.nom result));
                          ("id", JStr (Classes.id result))])
                   "Classe créée avec succès") 201
     end)
    (fun _error =>
       c_json (JObj [("status", JStr "error"); ("message", JObj [])]) 501).

(** PUT /classes/:id/update: the not-found branch calls [c.json] although
    the handler destructured its context and binds no [c]. *)
Definition put_id_update (id : string) (data : updateClasse) : M Response :=
  try_catch
    (put_body (throw ReferenceError) id data)
    (fun _ =>
       c_json (failure "Erreur serveur lors de la mise à jour de la classe") 500).

(** DELETE /classes/:id/delete *)
Definition delete_id_delete (id : string) : M Response :=
  try_catch
    (delete_body id)
    (fun _ =>
       c_json (failure "Erreur serveur lors de la suppression de la classe") 500).

End ClassesRoutes2.
(** ** routes: matieres *)

Module MatieresRoutes.

(** createMatiereSchema *)
Record createMatiere : Type := {
  create_nom : string;
  create_description : option string;
  create_classesId : string;
  create_pointsTotalMatiere : option Z;
  create_pointsSeuilMatiere : option Z
}.

(** updateMatiereSchema *)
Record updateMatiere : Type := {
  update_nom : option string;
  update_description : option string;
  update_classesId : option string;
  update_pointsTotalMatiere : option Z;
  update_pointsSeuilMatiere : option Z
}.

(** querySchema; [limit] and [offset] are read as decimal naturals *)
Record query : Type := {
  include : option string;
  classesId : option string;
  limit : option nat;
  offset : option nat
}.

Definition newest_first (x y : Matieres.t) : bool :=
  (Matieres.createdAt y <=? Matieres.createdAt x)%Z.

(** GET /matieres *)
Definition get_root (q : query) : M Response :=
  try_catch
    (let limit := default_nat 50 (limit q) in
     let offset := default_nat 0 (offset q) in
     let where_ (m : Matieres.t) :=
       match classesId q with
       | Some c => if Str.truthy c then Matieres.classesId m =? c else true
       | None => true
       end in
     rows <- prisma (read (fun st =>
               rows_page limit offset (sort_by newest_first (filter where_ (matieres st))))) ;;
     total <- prisma (read (fun st => length (filter where_ (matieres st)))) ;;
     c_json_ok (listing (JArr (map Matieres.to_json rows)) (Some total) limit offset))
    (fun _ =>
       c_json (failure "Erreur serveur lors de la récupération des matières") 500).

(** POST /matieres: the uniqueness filter is [{ nom: data.nom, classesId }] *)
Definition post_root (data : createMatiere) : M Response :=
  try_catch
    (classeExists <- prisma (read (fun st =>
         find_id Classes.id (create_classesId data) (classes st))) ;;
     match classeExists with
     | None => c_json (failure "La classe spécifiée n'existe pas") 400
     | Some _ =>
         existingMatiere <- prisma (read (fun st =>
             find (fun m => (Matieres.nom m =? create_nom data)
                            && (Matieres.classesId m =? create_classesId data))
                  (matieres st))) ;;
         match existingMatiere with
         | Some _ =>
             c_json (failure "Une matière avec ce nom existe déjà dans cette classe") 400
         | None =>
             i <- draw_cuid ;;
             t <- now ;;
             matiere <- prisma (DB.insert_matieres
                 (Matieres.mk i (create_nom data) (create_description data)
                              (create_classesId data)
                              (create_pointsTotalMatiere data)
                              (create_pointsSeuilMatiere data) t t)) ;;
             c_json (success_with (Matieres.to_json matiere)
                                  "Matière créée avec succès") 201
         end
     end)
    (fun _ =>
       c_json (failure "Erreur serveur lors de la création de la matière") 500).

(** [prisma.matieres.update({ where: { id }, data })] *)
Definition patch (data : updateMatiere) (t : Z) (m : Matieres.t) : Matieres.t :=
  Matieres.mk (Matieres.id m)
              (keep (update_nom data) (Matieres.nom m))
              (keep_opt (update_description data) (Matieres.description m))
              (keep (update_classesId data) (Matieres.classesId m))
              (keep_opt (update_pointsTotalMatiere data) (Matieres.pointsTotalMatiere m))
              (keep_opt (update_pointsSeuilMatiere data) (Matieres.pointsSeuilMatiere m))
              (Matieres.createdAt m) t.

(** PUT /matieres/:id *)
Definition put_id (id : string) (data : updateMatiere) : M Response :=
  try_catch
    (existingMatiere <- prisma (read (fun st => find_id Matieres.id id (matieres st))) ;;
     match existingMatiere with
     | None => c_json (failure "Matière non trouvée") 404
     | Some existing =>
         let write :=
           t <- now ;;
           matiere <- prisma (DB.update_matieres id (patch data t)) ;;
           c_json_ok (success_with (Matieres.to_json matiere)
                                   "Matière mise à jour avec succès") in
         let unique :=
           match update_nom data with
           | Some nom =>
               if Str.truthy nom
               then
                 let classesId := or_else (update_classesId data)
                                          (Matieres.classesId existing) in
                 duplicateMatiere <- prisma (read (fun st =>
                     find (fun m => (Matieres.nom m =? nom)
                                    && (Matieres.classesId m =? classesId)
                                    && negb (Matieres.id m =? id))
                          (matieres st))) ;;
                 match duplicateMatiere with
                 | Some _ =>
                     c_json (failure
                       "Une matière avec ce nom existe déjà dans cette classe") 400
                 | None => write
                 end
               else write
           | None => write
           end in
         match update_classesId data with
         | Some c =>
             if Str.truthy c
             then
               classeExists <- prisma (read (fun st => find_id Classes.id c (classes st))) ;;
               match classeExists with
               | None => c_json (failure "La classe spécifiée n'existe pas") 400
               | Some _ => unique
               end
             else unique
         | None => unique
         end
     end)
    (fun _ =>
       c_json (failure "Erreur serveur lors de la mise à jour de la matière") 500).

(** DELETE /matieres/:id: [include: { Lecons: true, Exercices: true }] *)
Definition delete_id (id : string) : M Response :=
  try_catch
    (existingMatiere <- prisma (read (fun st =>
         match find_id Matieres.id id (matieres st) with
         | Some m => Some (m,
                           filter (fun l => Lecons.matieresId l =? id) (lecons st),
                           filter (fun e => Exercices.matieresId e =? id) (exercices st))
         | None => None
         end)) ;;
     match existingMatiere with
     | None => c_json (failure "Matière non trouvée") 404
     | Some (_, Lecons_, Exercices_) =>
         if (0 <? length Lecons_)%nat || (0 <? length Exercices_)%nat
         then c_json (failure
           "Impossible de supprimer la matière car elle contient des leçons ou des exercices") 400
         else
           prisma (DB.delete_matieres id) ;;;
           c_json_ok (success_message "Matière supprimée avec succès")
     end)
    (fun _ =>
       c_json (failure "Erreur serveur lors de la suppression de la matière") 500).

Definition nom_asc (x y : Matieres.t) : bool :=
  String.leb (Matieres.nom x) (Matieres.nom y).

(** GET /matieres/classes/:classesId/matieres *)
Definition get_classes_matieres (classesId : string) (q : query) : M Response :=
  try_catch
    (let limit := default_nat 50 (limit q) in
     let offset := default_nat 0 (offset q) in
     let where_ (m : Matieres.t) := Matieres.classesId m =? classesId in
     rows <- prisma (read (fun st =>
               rows_page limit offset (sort_by nom_asc (filter where_ (matieres st))))) ;;
     total <- prisma (read (fun st => length (filter where_ (matieres st)))) ;;
     c_json_ok (listing (JArr (map Matieres.to_json rows)) (Some total) limit offset))
    (fun _ =>
       c_json (failure "Erreur serveur lors de la récupération des matières") 500).

End MatieresRoutes.
(** ** routes: lecons *)

Module LeconsRoutes.

(** createLeconSchema *)
Record createLecon : Type := {
  create_nom : string;
  create_description : option string;
  create_matieresId : string
}.

(** updateLeconSchema *)
Record updateLecon : Type := {
  update_nom : option string;
  update_description : option string;
  update_matieresId : option string
}.

(** querySchema: defaults 50, 0, createdAt, desc *)
Record query : Type := {
  include : option string;
  limit : nat;
  offset : nat;
  search : option string;
  matieresId : option string;
  orderBy : OrderField;
  order : Order
}.

Definition le_field (f : OrderField) (x y : Lecons.t) : bool :=
  match f with
  | by_nom => String.leb (Lecons.nom x) (Lecons.nom y)
  | by_createdAt => (Lecons.createdAt x <=? Lecons.createdAt y)%Z
  | by_updatedAt => (Lecons.updatedAt x <=? Lecons.updatedAt y)%Z
  end.

(** buildIncludeOptions.  The last entry includes [utilisateur] below
    [LeconsUtilisateur], whose relation fields are [lecons] and [user]. *)
Definition buildIncludeOptions (include : option string) : list Include.t :=
  (if Include.asks include "matieres"
   then [Include.rel "matieres" [Include.rel "classes" []]] else [])
  ++ (if Include.asks include "souslecons"
      then [Include.rel "SousLecons" []] else [])
  ++ (if Include.asks include "exercices"
      then [Include.rel "Exercices" []] else [])
  ++ (if Include.asks include "utilisateurs"
      then [Include.rel "LeconsUtilisateur" [Include.rel "utilisateur" []]] else []).

(** [where.OR = [{ nom: { contains, mode } }, { description: { contains,
    mode } }]]: the rows the filter selects on a connector that has
    [mode]. *)
Definition matches (s : option string) (l : Lecons.t) : bool :=
  match s with
  | Some x =>
      if Str.truthy x
      then Str.contains_insensitive (Lecons.nom l) x
           || Str.contains_insensitive_opt (Lecons.description l) x
      else true
  | None => true
  end.

Definition in_matiere (m : option string) (l : Lecons.t) : bool :=
  match m with
  | Some i => if Str.truthy i then Lecons.matieresId l =? i else true
  | None => true
  end.

(** GET /lecons: [findMany({ where, include: includeOptions, ... })] and
    [count({ where })]. *)
Definition get_root (q : query) : M Response :=
  try_catch
    (let includeOptions := buildIncludeOptions (include q) in
     let where_ (l : Lecons.t) := matches (search q) l && in_matiere (matieresId q) l in
     let orderByConfig := directed (order q) (le_field (orderBy q)) in
     rows <- prisma (searching (search q)
               (Include.checked Include.MLecons includeOptions
                  (read (fun st =>
                     rows_page (limit q) (offset q)
                          (sort_by orderByConfig (filter where_ (lecons st))))))) ;;
     total <- prisma (searching (search q)
                        (read (fun st => length (filter where_ (lecons st))))) ;;
     c_json_ok (listing (JArr (map Lecons.to_json rows))
                        (Some total) (limit q) (offset q)))
    (fun _ =>
       c_json (failure "Erreur serveur lors de la récupération des leçons") 500).

(** POST /lecons/new: the duplicate lookup is [findFirst({ where: { nom:
    { equals: nom, mode: "insensitive" }, matieresId } })]. *)
Definition post_new (data : createLecon) : M Response :=
  try_catch
    (matiereExists <- prisma (read (fun st =>
         find_id Matieres.id (create_matieresId data) (matieres st))) ;;
     match matiereExists with
     | None => c_json (failure "La matière spécifiée n'existe pas") 400
     | Some _ =>
         existingLecon <- prisma (with_mode (read (fun st =>
             find (fun l => Str.equals_insensitive (Lecons.nom l) (create_nom data)
                            && (Lecons.matieresId l =? create_matieresId data))
                  (lecons st)))) ;;
         match existingLecon with
         | Some _ =>
             c_json (failure "Une leçon avec ce nom existe déjà dans cette matière") 400
         | None =>
             i <- draw_cuid ;;
             t <- now ;;
             lecon <- prisma (DB.insert_lecons
                 (Lecons.mk i (create_nom data) (create_description data)
                            (create_matieresId data) t t)) ;;
             c_json (success_with (Lecons.to_json lecon) "Leçon créée avec succès") 201
         end
     end)
    (fun _ =>
       c_json (failure "Erreur serveur lors de la création de la leçon") 500).

(** [prisma.lecons.update({ where: { id }, data })] *)
Definition patch (data : updateLecon) (t : Z) (l : Lecons.t) : Lecons.t :=
  Lecons.mk (Lecons.id l)
            (keep (update_nom data) (Lecons.nom l))
            (keep_opt (update_description data) (Lecons.description l))
            (keep (update_matieresId data) (Lecons.matieresId l))
            (Lecons.createdAt l) t.

(** PUT /lecons/lecons/:id; the duplicate lookup, run when the name
    changes, carries [mode: "insensitive"]. *)
Definition put_id (id : string) (data : updateLecon) : M Response :=
  try_catch
    (if negb (Str.truthy id) then c_json (failure "ID de leçon invalide") 400
     else
       existingLecon <- prisma (read (fun st => find_id Lecons.id id (lecons st))) ;;
       match existingLecon with
       | None => c_json (failure "Leçon non trouvée") 404
       | Some existing =>
           let write :=
             t <- now ;;
             lecon <- prisma (DB.update_lecons id (patch data t)) ;;
             c_json_ok (success_with (Lecons.to_json lecon)
                                     "Leçon mise à jour avec succès") in
           let unique :=
             match update_nom data with
             | Some nom =>
                 if Str.truthy nom && negb (nom =? Lecons.nom existing)
                 then
                   let matieresId := or_else (update_matieresId data)
                                             (Lecons.matieresId existing) in
                   duplicateLecon <- prisma (with_mode (read (fun st =>
                       find (fun l => Str.equals_insensitive (Lecons.nom l) nom
                                      && (Lecons.matieresId l =? matieresId)
                                      && negb (Lecons.id l =? id))
                            (lecons st)))) ;;
                   match duplicateLecon with
                   | Some _ =>
                       c_json (failure
                         "Une leçon avec ce nom existe déjà dans cette matière") 400
                   | None => write
                   end
                 else write
             | None => write
             end in
           match update_matieresId data with
           | Some m =>
               if Str.truthy m && negb (m =? Lecons.matieresId existing)
               then
                 matiereExists <- prisma (read (fun st =>
                     find_id Matieres.id m (matieres st))) ;;
                 match matiereExists with
                 | None => c_json (failure "La matière spécifiée n'existe pas") 400
                 | Some _ => unique
                 end
               else unique
           | None => unique
           end
       end)
    (fun _ =>
       c_json (failure "Erreur serveur lors de la mise à jour de la leçon") 500).

(** DELETE /lecons/lecons/:id:
    [include: { SousLecons: true, Exercices: true, LeconsUtilisateur: true }] *)
Definition delete_id (id : string) : M Response :=
  try_catch
    (if negb (Str.truthy id) then c_json (failure "ID de leçon invalide") 400
     else
       existingLecon <- prisma (read (fun st =>
           match find_id Lecons.id id (lecons st) with
           | Some l =>
               Some (l,
                     filter (fun s => SousLecons.leconsId s =? id) (sousLecons st),
                     filter (fun e => opt_is (Exercices.leconId e) id) (exercices st),
                     filter (fun x => LeconsUtilisateur.leconsId x =? id)
                            (leconsUtilisateur st))
           | None => None
           end)) ;;
       match existingLecon with
       | None => c_json (failure "Leçon non trouvée") 404
       | Some (_, SousLecons_, Exercices_, LeconsUtilisateur_) =>
           let hasRelatedData :=
             (0 <? length SousLecons_)%nat
             || (0 <? length Exercices_)%nat
             || (0 <? length LeconsUtilisateur_)%nat in
           if hasRelatedData
           then c_json (failure
             "Impossible de supprimer la leçon car elle contient des sous-leçons, exercices ou est utilisée par des utilisateurs") 400
           else
             prisma (DB.delete_lecons id) ;;;
             c_json_ok (success_message "Leçon supprimée avec succès")
       end)
    (fun _ =>
       c_json (failure "Erreur serveur lors de la suppression de la leçon") 500).

Definition sousLecon_oldest_first (x y : SousLecons.t) : bool :=
  (SousLecons.createdAt x <=? SousLecons.createdAt y)%Z.

Definition exercice_oldest_first (x y : Exercices.t) : bool :=
  (Exercices.createdAt x <=? Exercices.createdAt y)%Z.

Definition lecon_ref (l : Lecons.t) : Json :=
  JObj [("id", JStr (Lecons.id l)); ("nom", JStr (Lecons.nom l))].

(** GET /lecons/lecons/:id/souslecons *)
Definition get_id_souslecons (id : string) (q : query) : M Response :=
  try_catch
    (if negb (Str.truthy id) then c_json (failure "ID de leçon invalide") 400
     else
       lecon <- prisma (read (fun st => find_id Lecons.id id (lecons st))) ;;
       match lecon with
       | None => c_json (failure "Leçon non trouvée") 404
       | Some l =>
           let where_ (s : SousLecons.t) := SousLecons.leconsId s =? id in
           rows <- prisma (read (fun st =>
               rows_page (limit q) (offset q)
                    (sort_by sousLecon_oldest_first (filter where_ (sousLecons st))))) ;;
           total <- prisma (read (fun st => length (filter where_ (sousLecons st)))) ;;
           c_json_ok
             (listing (JObj [("lecon", lecon_ref l);
                             ("sousLecons", JArr (map SousLecons.to_json rows))])
                      (Some total) (limit q) (offset q))
       end)
    (fun _ =>
       c_json (failure "Erreur serveur lors de la récupération des sous-leçons") 500).

(** GET /lecons/:id/exercices *)
Definition get_id_exercices (id : string) (q : query) : M Response :=
  try_catch
    (if negb (Str.truthy id) then c_json (failure "ID de leçon invalide") 400
     else
       lecon <- prisma (read (fun st => find_id Lecons.id id (lecons st))) ;;
       match lecon with
       | None => c_json (failure "Leçon non trouvée") 404
       | Some l =>
           let where_ (e : Exercices.t) := opt_is (Exercices.leconId e) id in
           rows <- prisma (read (fun st =>
               rows_page (limit q) (offset q)
                    (sort_by exercice_oldest_first (filter where_ (exercices st))))) ;;
           total <- prisma (read (fun st => length (filter where_ (exercices st)))) ;;
           c_json_ok
             (listing (JObj [("lecon", lecon_ref l);
                             ("exercices", JArr (map Exercices.to_json rows))])
                      (Some total) (limit q) (offset q))
       end)
    (fun _ =>
       c_json (failure "Erreur serveur lors de la récupération des exercices") 500).

(** GET /lecons/matieres/:matieresId/lecons:
    [findMany({ where, include: includeOptions, ... })], [count({ where })]. *)
Definition get_matieres_lecons (matieresId : string) (q : query) : M Response :=
  try_catch
    (if negb (Str.truthy matieresId) then c_json (failure "ID de matière invalide") 400
     else
       matiere <- prisma (read (fun st => find_id Matieres.id matieresId (matieres st))) ;;
       match matiere with
       | None => c_json (failure "Matière non trouvée") 404
       | Some m =>
           let includeOptions := buildIncludeOptions (include q) in
           let where_ (l : Lecons.t) :=
             (Lecons.matieresId l =? matieresId) && matches (search q) l in
           let orderByConfig := directed (order q) (le_field (orderBy q)) in
           rows <- prisma (searching (search q)
               (Include.checked Include.MLecons includeOptions
                  (read (fun st =>
                     rows_page (limit q) (offset q)
                          (sort_by orderByConfig (filter where_ (lecons st))))))) ;;
           total <- prisma (searching (search q)
                              (read (fun st => length (filter where_ (lecons st))))) ;;
           c_json_ok
             (listing (JObj [("matiere", JObj [("id", JStr (Matieres.id m));
                                              ("nom", JStr (Matieres.nom m))]);
                             ("lecons", JArr (map Lecons.to_json rows))])
                      (Some total) (limit q) (offset q))
       end)
    (fun _ =>
       c_json (failure "Erreur serveur lors de la récupération des leçons") 500).

End LeconsRoutes.
(** ** routes: souslecons *)

Module SousLeconsRoutes.

(** createSousLeconSchema *)
Record createSousLecon : Type := {
  create_nom : string;
  create_description : option string;
  create_leconsId : string
}.

(** updateSousLeconSchema *)
Record updateSousLecon : Type := {
  update_nom : option string;
  update_description : option string;
  update_leconsId : option string
}.

(** querySchema: defaults 50, 0, createdAt, asc *)
Record query : Type := {
  include : option string;
  limit : nat;
  offset : nat;
  search : option string;
  leconsId : option string;
  orderBy : OrderField;
  order : Order
}.

Definition le_field (f : OrderField) (x y : SousLecons.t) : bool :=
  match f with
  | by_nom => String.leb (SousLecons.nom x) (SousLecons.nom y)
  | by_createdAt => (SousLecons.createdAt x <=? SousLecons.createdAt y)%Z
  | by_updatedAt => (SousLecons.updatedAt x <=? SousLecons.updatedAt y)%Z
  end.

Definition le_exercice (f : OrderField) (x y : Exercices.t) : bool :=
  match f with
  | by_nom => String.leb (Exercices.nom x) (Exercices.nom y)
  | by_createdAt => (Exercices.createdAt x <=? Exercices.createdAt y)%Z
  | by_updatedAt => (Exercices.updatedAt x <=? Exercices.updatedAt y)%Z
  end.

(** [where.OR] with [contains] and [mode: "insensitive"] on [nom] and
    [description]: the rows the filter selects on a connector that has
    [mode]. *)
Definition matches (s : option string) (x : SousLecons.t) : bool :=
  match s with
  | Some q =>
      if Str.truthy q
      then Str.contains_insensitive (SousLecons.nom x) q
           || Str.contains_insensitive_opt (SousLecons.description x) q
      else true
  | None => true
  end.

Definition in_lecon (l : option string) (x : SousLecons.t) : bool :=
  match l with
  | Some i => if Str.truthy i then SousLecons.leconsId x =? i else true
  | None => true
  end.

(** GET /souslecons *)
Definition get_root (q : query) : M Response :=
  try_catch
    (let where_ (x : SousLecons.t) := matches (search q) x && in_lecon (leconsId q) x in
     let orderByConfig := directed (order q) (le_field (orderBy q)) in
     rows <- prisma (searching (search q) (read (fun st =>
               rows_page (limit q) (offset q)
                    (sort_by orderByConfig (filter where_ (sousLecons st)))))) ;;
     total <- prisma (searching (search q)
                        (read (fun st => length (filter where_ (sousLecons st))))) ;;
     c_json_ok (listing (JArr (map SousLecons.to_json rows))
                        (Some total) (limit q) (offset q)))
    (fun _ =>
       c_json (failure "Erreur serveur lors de la récupération des sous-leçons") 500).

(** POST /souslecons/new: the duplicate lookup is [findFirst({ where:
    { nom: { equals: nom, mode: "insensitive" }, leconsId } })]. *)
Definition post_new (data : createSousLecon) : M Response :=
  try_catch
    (leconExists <- prisma (read (fun st =>
         find_id Lecons.id (create_leconsId data) (lecons st))) ;;
     match leconExists with
     | None => c_json (failure "La leçon spécifiée n'existe pas") 400
     | Some _ =>
         existingSousLecon <- prisma (with_mode (read (fun st =>
             find (fun x => Str.equals_insensitive (SousLecons.nom x) (create_nom data)
                            && (SousLecons.leconsId x =? create_leconsId data))
                  (sousLecons st)))) ;;
         match existingSousLecon with
         | Some _ =>
             c_json (failure "Une sous-leçon avec ce nom existe déjà dans cette leçon") 400
         | None =>
             i <- draw_cuid ;;
             t <- now ;;
             sousLecon <- prisma (DB.insert_sousLecons
                 (SousLecons.mk i (create_nom data) (create_description data)
                                (create_leconsId data) t t)) ;;
             c_json (success_with (SousLecons.to_json sousLecon)
                                  "Sous-leçon créée avec succès") 201
         end
     end)
    (fun _ =>
       c_json (failure "Erreur serveur lors de la création de la sous-leçon") 500).

(** [prisma.sousLecons.update({ where: { id }, data })] *)
Definition patch (data : updateSousLecon) (t : Z) (x : SousLecons.t) : SousLecons.t :=
  SousLecons.mk (SousLecons.id x)
                (keep (update_nom data) (SousLecons.nom x))
                (keep_opt (update_description data) (SousLecons.description x))
                (keep (update_leconsId data) (SousLecons.leconsId x))
                (SousLecons.createdAt x) t.

(** PUT /souslecons/:id; the duplicate lookup, run when the name changes,
    carries [mode: "insensitive"]. *)
Definition put_id (id : string) (data : updateSousLecon) : M Response :=
  try_catch
    (if negb (Str.truthy id) then c_json (failure "ID de sous-leçon invalide") 400
     else
       existingSousLecon <- prisma (read (fun st =>
           find_id SousLecons.id id (sousLecons st))) ;;
       match existingSousLecon with
       | None => c_json (failure "Sous-leçon non trouvée") 404
       | Some existing =>
           let write :=
             t <- now ;;
             sousLecon <- prisma (DB.update_sousLecons id (patch data t)) ;;
             c_json_ok (success_with (SousLecons.to_json sousLecon)
                                     "Sous-leçon mise à jour avec succès") in
           let unique :=
             match update_nom data with
             | Some nom =>
                 if Str.truthy nom && negb (nom =? SousLecons.nom existing)
                 then
                   let leconsId := or_else (update_leconsId data)
                                           (SousLecons.leconsId existing) in
                   duplicateSousLecon <- prisma (with_mode (read (fun st =>
                       find (fun x => Str.equals_insensitive (SousLecons.nom x) nom
                                      && (SousLecons.leconsId x =? leconsId)
                                      && negb (SousLecons.id x =? id))
                            (sousLecons st)))) ;;
                   match duplicateSousLecon with
                   | Some _ =>
                       c_json (failure
                         "Une sous-leçon avec ce nom existe déjà dans cette leçon") 400
                   | None => write
                   end
                 else write
             | None => write
             end in
           match update_leconsId data with
           | Some l =>
               if Str.truthy l && negb (l =? SousLecons.leconsId existing)
               then
                 leconExists <- prisma (read (fun st => find_id Lecons.id l (lecons st))) ;;
                 match leconExists with
                 | None => c_json (failure "La leçon spécifiée n'existe pas") 400
                 | Some _ => unique
                 end
               else unique
           | None => unique
           end
       end)
    (fun _ =>
       c_json (failure "Erreur serveur lors de la mise à jour de la sous-leçon") 500).

(** DELETE /souslecons/:id: [include: { Exercices: true }] *)
Definition delete_id (id : string) : M Response :=
  try_catch
    (if negb (Str.truthy id) then c_json (failure "ID de sous-leçon invalide") 400
     else
       existingSousLecon <- prisma (read (fun st =>
           match find_id SousLecons.id id (sousLecons st) with
           | Some x =>
               Some (x, filter (fun e => opt_is (Exercices.sousLeconsId e) id)
                               (exercices st))
           | None => None
           end)) ;;
       match existingSousLecon with
       | None => c_json (failure "Sous-leçon non trouvée") 404
       | Some (_, Exercices_) =>
           if (0 <? length Exercices_)%nat
           then c_json (failure
                  ("Impossible de supprimer la sous-leçon car elle contient "
                   ++ show_nat (length Exercices_) ++ " exercice(s)")) 400
           else
             prisma (DB.delete_sousLecons id) ;;;
             c_json_ok (success_message "Sous-leçon supprimée avec succès")
       end)
    (fun _ =>
       c_json (failure "Erreur serveur lors de la suppression de la sous-leçon") 500).

Definition sousLecon_ref (x : SousLecons.t) : Json :=
  JObj [("id", JStr (SousLecons.id x)); ("nom", JStr (SousLecons.nom x))].

(** GET /souslecons/:id/exercices *)
Definition get_id_exercices (id : string) (q : query) : M Response :=
  try_catch
    (if negb (Str.truthy id) then c_json (failure "ID de sous-leçon invalide") 400
     else
       sousLecon <- prisma (read (fun st => find_id SousLecons.id id (sousLecons st))) ;;
       match sousLecon with
       | None => c_json (failure "Sous-leçon non trouvée") 404
       | Some x =>
           let where_ (e : Exercices.t) := opt_is (Exercices.sousLeconsId e) id in
           let orderByConfig := directed (order q) (le_exercice (orderBy q)) in
           rows <- prisma (read (fun st =>
               rows_page (limit q) (offset q)
                    (sort_by orderByConfig (filter where_ (exercices st))))) ;;
           total <- prisma (read (fun st => length (filter where_ (exercices st)))) ;;
           c_json_ok
             (listing (JObj [("sousLecon", sousLecon_ref x);
                             ("exercices", JArr (map Exercices.to_json rows))])
                      (Some total) (limit q) (offset q))
       end)
    (fun _ =>
       c_json (failure "Erreur serveur lors de la récupération des exercices") 500).

(** GET /souslecons/lecons/:leconsId/souslecons *)
Definition get_lecons_souslecons (leconsId : string) (q : query) : M Response :=
  try_catch
    (if negb (Str.truthy leconsId) then c_json (failure "ID de leçon invalide") 400
     else
       lecon <- prisma (read (fun st => find_id Lecons.id leconsId (lecons st))) ;;
       match lecon with
       | None => c_json (failure "Leçon non trouvée") 404
       | Some l =>
           let where_ (x : SousLecons.t) :=
             (SousLecons.leconsId x =? leconsId) && matches (search q) x in
           let orderByConfig := directed (order q) (le_field (orderBy q)) in
           rows <- prisma (searching (search q) (read (fun st =>
               rows_page (limit q) (offset q)
                    (sort_by orderByConfig (filter where_ (sousLecons st)))))) ;;
           total <- prisma (searching (search q)
                              (read (fun st => length (filter where_ (sousLecons st))))) ;;
           c_json_ok
             (listing (JObj [("lecon", JObj [("id", JStr (Lecons.id l));
                                            ("nom", JStr (Lecons.nom l))]);
                             ("sousLecons", JArr (map SousLecons.to_json rows))])
                      (Some total) (limit q) (offset q))
       end)
    (fun _ =>
       c_json (failure "Erreur serveur lors de la récupération des sous-leçons") 500).

End SousLeconsRoutes.
(** ** routes: exercices and options-qcm *)

Module ExercicesRoutes.

(** [z.enum(["QCM", "VRAI_FAUX", "COMPLETION", "REDACTION"])] *)
Inductive createType : Type := cQCM | cVRAI_FAUX | cCOMPLETION | cREDACTION.

(** [z.enum(["QCM", "VRAI_FAUX", "COMPLETION"])] *)
Inductive updateType : Type := uQCM | uVRAI_FAUX | uCOMPLETION.

Definition string_of_createType (t : createType) : string :=
  match t with
  | cQCM => "QCM" | cVRAI_FAUX => "VRAI_FAUX"
  | cCOMPLETION => "COMPLETION" | cREDACTION => "REDACTION"
  end.

Definition string_of_updateType (t : updateType) : string :=
  match t with
  | uQCM => "QCM" | uVRAI_FAUX => "VRAI_FAUX" | uCOMPLETION => "COMPLETION"
  end.

(** createExerciceSchema; the identifiers passed [z.string().cuid()] *)
Record createExercice : Type := {
  create_nom : string;
  create_description : option string;
  create_matieresId : string;
  create_sousLeconsId : option string;
  create_leconId : option string;
  create_typesExercice : createType
}.

(** updateExerciceSchema; [Some None] is an explicit [null] *)
Record updateExercice : Type := {
  update_nom : option string;
  update_description : option string;
  update_matieresId : option string;
  update_sousLeconsId : option (option string);
  update_leconId : option (option string);
  update_typesExercice : option updateType
}.

(** [_count: { select: { OptionsQCM: true, Reponses: true } }] *)
Definition count_OptionsQCM (st : Store) (id : string) : nat :=
  length (filter (fun o => OptionsQCM.exercicesId o =? id) (optionsQCM st)).

Definition count_Reponses (st : Store) (id : string) : nat :=
  length (filter (fun r => Reponses.exercicesId r =? id) (reponses st)).

Definition with_count (st : Store) (e : Exercices.t) : Json :=
  match Exercices.to_json e with
  | JObj fs =>
      JObj (fs ++ [("_count",
                    JObj [("OptionsQCM", jnat (count_OptionsQCM st (Exercices.id e)));
                          ("Reponses", jnat (count_Reponses st (Exercices.id e)))])])
  | j => j
  end.

Definition error (msg : string) : Json := JObj [("error", JStr msg)].

(** One optional reference: absent or falsy passes, otherwise the row
    must exist; [k] is the rest of the handler. *)
Definition check_ref {R} (key : R -> string) (table : Store -> list R)
    (ref : option string) (msg : string) (k : M Response) : M Response :=
  match ref with
  | Some i =>
      found <- prisma (read (fun st => find_id key i (table st))) ;;
      match found with
      | None => c_json (error msg) 404
      | Some _ => k
      end
  | None => k
  end.

(** POST /exercices *)
Definition post_root (data : createExercice) : M Response :=
  try_catch
    (matiere <- prisma (read (fun st =>
         find_id Matieres.id (create_matieresId data) (matieres st))) ;;
     match matiere with
     | None => c_json (error "Matière non trouvée") 404
     | Some _ =>
         check_ref SousLecons.id sousLecons (given1 (create_sousLeconsId data))
           "Sous-leçon non trouvée"
           (check_ref Lecons.id lecons (given1 (create_leconId data))
              "Leçon non trouvée"
              (i <- draw_cuid ;;
               t <- now ;;
               exercice <- prisma (fun st =>
                   match DB.create_exercice i (create_nom data)
                           (create_description data) (create_matieresId data)
                           (create_sousLeconsId data) (create_leconId data)
                           (string_of_createType (create_typesExercice data)) t st with
                   | (Ok e, st') => (Ok (with_count st' e), st')
                   | (Throw x, st') => (Throw x, st')
                   end) ;;
               c_json (JObj [("message", JStr "Exercice créé avec succès");
                             ("exercice", exercice)]) 201))
     end)
    (fun _ => c_json (error "Erreur serveur") 500).

(** query string of GET /exercices: [page] and [limit] as [parseInt] reads
    a decimal natural, the filters as given *)
Record query : Type := {
  page : option nat;
  limit : option nat;
  search : option string;
  matieresId : option string;
  leconId : option string;
  sousLeconsId : option string;
  typesExercice : option string
}.

(** [where.OR] with [contains] and [mode: "insensitive"] on [nom] and
    [description]: the rows the filter selects on a connector that has
    [mode]. *)
Definition matches (s : option string) (e : Exercices.t) : bool :=
  match given1 s with
  | Some x => Str.contains_insensitive (Exercices.nom e) x
              || Str.contains_insensitive_opt (Exercices.description e) x
  | None => true
  end.

Definition where_ (q : query) (e : Exercices.t) : bool :=
  matches (search q) e
  && match given1 (matieresId q) with
     | Some i => Exercices.matieresId e =? i | None => true end
  && match given1 (leconId q) with
     | Some i => opt_is (Exercices.leconId e) i | None => true end
  && match given1 (sousLeconsId q) with
     | Some i => opt_is (Exercices.sousLeconsId e) i | None => true end
  && match given1 (typesExercice q) with
     | Some t => string_of_TypesExercice (Exercices.typesExercice e) =? t
     | None => true end.

(** [if (typesExercice) where.typesExercice = typesExercice]: the client
    takes a member of the enumeration and no other string. *)
Definition where_typed (q : query) : bool :=
  match given1 (typesExercice q) with
  | Some t => match TypesExercice_of_string t with Some _ => true | None => false end
  | None => true
  end.

(** A query with the [where] of GET /exercices. *)
Definition filtering {A} (q : query) (op : Op A) : Op A :=
  searching (search q) (validated (where_typed q) op).

Definition newest_first (x y : Exercices.t) : bool :=
  (Exercices.createdAt y <=? Exercices.createdAt x)%Z.

(** [Math.ceil(total / limit)]; a division by zero is not a finite number
    and serialises as [null]. *)
Definition pages (total limit : nat) : Json :=
  match limit with
  | O => JNull
  | S _ => jnat ((total + limit - 1) / limit)
  end.

Definition paging (page limit total : nat) : Json :=
  JObj [("page", jnat page); ("limit", jnat limit); ("total", jnat total);
        ("pages", pages total limit)].

(** [findMany({ where, skip, take })]: a negative [skip] is refused. *)
Definition find_page {R} (rows : Store -> list R) (skip : Z) (take : nat)
  : Op (list R) := fun st =>
  if (skip <? 0)%Z then (Throw InvalidArgument, st)
  else (Ok (rows_page take (Z.to_nat skip) (rows st)), st).

(** GET /exercices *)
Definition get_root (q : query) : M Response :=
  try_catch
    (let page := default_nat 1 (page q) in
     let limit := default_nat 10 (limit q) in
     let skip := ((Z.of_nat page - 1) * Z.of_nat limit)%Z in
     exercices_ <- prisma (filtering q (fun st =>
         match find_page (fun s => sort_by newest_first (filter (where_ q) (exercices s)))
                         skip limit st with
         | (Ok rows, st') => (Ok (map (with_count st') rows), st')
         | (Throw x, st') => (Throw x, st')
         end)) ;;
     total <- prisma (filtering q
                        (read (fun st => length (filter (where_ q) (exercices st))))) ;;
     c_json_ok (JObj [("exercices", JArr exercices_);
                      ("pagination", paging page limit total)]))
    (fun _ => c_json (error "Erreur serveur") 500).

Definition patch (data : updateExercice) (ty : option TypesExercice) (t : Z)
    (e : Exercices.t) : Exercices.t :=
  Exercices.mk (Exercices.id e)
               (keep (update_nom data) (Exercices.nom e))
               (keep_opt (update_description data) (Exercices.description e))
               (keep (update_matieresId data) (Exercices.matieresId e))
               (keep (update_sousLeconsId data) (Exercices.sousLeconsId e))
               (keep (update_leconId data) (Exercices.leconId e))
               (keep ty (Exercices.typesExercice e))
               (Exercices.createdAt e) t.

(** [prisma.exercices.update({ where: { id }, data, include })] *)
Definition update (id : string) (data : updateExercice) (t : Z) : Op Json := fun st =>
  let write ty :=
    match DB.update_exercices id (patch data ty t) st with
    | (Ok e, st') => (Ok (with_count st' e), st')
    | (Throw x, st') => (Throw x, st')
    end in
  match update_typesExercice data with
  | None => write None
  | Some u =>
      match TypesExercice_of_string (string_of_updateType u) with
      | Some ty => write (Some ty)
      | None => (Throw InvalidArgument, st)
      end
  end.

(** PUT /exercices/:id *)
Definition put_id (id : string) (data : updateExercice) : M Response :=
  try_catch
    (existingExercice <- prisma (read (fun st => find_id Exercices.id id (exercices st))) ;;
     match existingExercice with
     | None => c_json (error "Exercice non trouvé") 404
     | Some _ =>
         check_ref Matieres.id matieres (given1 (update_matieresId data))
           "Matière non trouvée"
           (check_ref SousLecons.id sousLecons (given (update_sousLeconsId data))
              "Sous-leçon non trouvée"
              (check_ref Lecons.id lecons (given (update_leconId data))
                 "Leçon non trouvée"
                 (t <- now ;;
                  updatedExercice <- prisma (update id data t) ;;
                  c_json_ok (JObj [("message", JStr "Exercice mis à jour avec succès");
                                   ("exercice", updatedExercice)]))))
     end)
    (fun _ => c_json (error "Erreur serveur") 500).

(** DELETE /exercices/:id.  The source comments the delete with
    "les relations seront supprimées en cascade". *)
Definition delete_id (id : string) : M Response :=
  try_catch
    (exercice <- prisma (read (fun st =>
         match find_id Exercices.id id (exercices st) with
         | Some e => Some (e, count_OptionsQCM st id, count_Reponses st id)
         | None => None
         end)) ;;
     match exercice with
     | None => c_json (error "Exercice non trouvé") 404
     | Some (_, n_options, n_reponses) =>
         prisma (DB.delete_exercices id) ;;;
         c_json_ok (JObj [("message", JStr "Exercice supprimé avec succès");
                          ("deletedRelations",
                           JObj [("options", jnat n_options);
                                 ("reponses", jnat n_reponses)])])
     end)
    (fun _ => c_json (error "Erreur serveur") 500).

End ExercicesRoutes.

Module OptionsQCMRoutes.

Import ExercicesRoutes.

(** createOptionQCMSchema; the two flags default to [false] *)
Record createOptionQCM : Type := {
  create_nom : string;
  create_description : option string;
  create_exercicesId : string;
  create_points : option Z;
  create_isCorrect : bool;
  create_isSelected : bool
}.

(** POST /options-qcm *)
Definition post_root (data : createOptionQCM) : M Response :=
  try_catch
    (exercice <- prisma (read (fun st =>
         find_id Exercices.id (create_exercicesId data) (exercices st))) ;;
     match exercice with
     | None => c_json (error "Exercice non trouvé") 404
     | Some e =>
         if negb (string_of_TypesExercice (Exercices.typesExercice e) =? "QCM")
         then c_json (error "Cet exercice n'est pas de type QCM") 400
         else
           i <- draw_cuid ;;
           t <- now ;;
           option <- prisma (DB.insert_optionsQCM
               (OptionsQCM.mk i (create_nom data) (create_description data)
                              (create_exercicesId data) (create_points data)
                              (create_isCorrect data) (create_isSelected data) t t)) ;;
           c_json (JObj [("message", JStr "Option QCM créée avec succès");
                         ("option", OptionsQCM.to_json option)]) 201
     end)
    (fun _ => c_json (error "Erreur serveur") 500).

(** one entry of the [options] array of POST /options-qcm/bulk *)
Record bulkOption : Type := {
  bulk_nom : string;
  bulk_description : option string;
  bulk_points : option Z;
  bulk_isCorrect : bool
}.

(** the body of POST /options-qcm/bulk; [options] has at least one entry *)
Record bulk : Type := {
  bulk_exercicesId : string;
  options : list bulkOption
}.

(** [{ ...option, exercicesId, isSelected: false }] *)
Definition bulk_row (exercicesId : string) (t : Z) (io : string * bulkOption)
  : OptionsQCM.t :=
  let (i, o) := io in
  OptionsQCM.mk i (bulk_nom o) (bulk_description o) exercicesId (bulk_points o)
                (bulk_isCorrect o) false t t.

(** POST /options-qcm/bulk *)
Definition post_bulk (data : bulk) : M Response :=
  try_catch
    (exercice <- prisma (read (fun st =>
         find_id Exercices.id (bulk_exercicesId data) (exercices st))) ;;
     match exercice with
     | None => c_json (error "Exercice non trouvé") 404
     | Some e =>
         if negb (string_of_TypesExercice (Exercices.typesExercice e) =? "QCM")
         then c_json (error "Cet exercice n'est pas de type QCM") 400
         else
           ids <- draw_cuids (length (options data)) ;;
           t <- now ;;
           createdOptions <- prisma (DB.transaction
               (map (fun io => DB.insert_optionsQCM (bulk_row (bulk_exercicesId data) t io))
                    (combine ids (options data)))) ;;
           c_json (JObj [("message",
                          JStr (show_nat (length createdOptions)
                                ++ " options QCM créées avec succès"));
                         ("options", JArr (map OptionsQCM.to_json createdOptions))]) 201
     end)
    (fun _ => c_json (error "Erreur serveur") 500).

End OptionsQCMRoutes.
(** ** hash_password.ts *)

Definition hex_digit (n : nat) : ascii :=
  nth n ["0"; "1"; "2"; "3"; "4"; "5"; "6"; "7"; "8"; "9";
         "a"; "b"; "c"; "d"; "e"; "f"]%char "0"%char.

(** [b.toString(16).padStart(2, "0")] *)
Definition hex_of_byte (b : Byte.byte) : string :=
  let n := Byte.to_nat b in
  String (hex_digit (n / 16)) (String (hex_digit (n mod 16)) EmptyString).

(** The digest in lower-case hexadecimal. *)
Definition sha256_hex (e : Env) (password : string) : string :=
  let data := list_byte_of_string password in
  let hash := digest_SHA256 e data in
  String.concat "" (map hex_of_byte hash).

Definition hashPassword (password : string) : M string :=
  e <- ask ;;
  ret (sha256_hex e password).

Definition verifyPassword (password hash : string) : M bool :=
  hashedPassword <- hashPassword password ;;
  ret (hashedPassword =? hash).

(** ** routes: users *)

Module UserRoutes.

Import ExercicesRoutes.

(** registerSchema *)
Record register : Type := {
  reg_email : string;
  reg_nom : option string;
  reg_prenom : option string;
  reg_password : string;
  reg_dataInscription : option string
}.

(** the body of POST /users/login, read with [c.req.json()] *)
Record login : Type := {
  login_email : string;
  login_password : string
}.

(** The [select] of the register handler: every column but [password],
    [derniereConnexion] and [classesId]. *)
Definition selected (u : User.t) : Json :=
  JObj [("id", JStr (User.id u)); ("email", JStr (User.email u));
        ("nom", J.opt_str (User.nom u)); ("prenom", J.opt_str (User.prenom u));
        ("dataInscription", J.opt_str (User.dataInscription u));
        ("typesUtilisateur", JStr (string_of_TypesUtilisateur (User.typesUtilisateur u)));
        ("createdAt", JNum (User.createdAt u)); ("updatedAt", JNum (User.updatedAt u))].

(** POST /users/register: the role is written as the literal "USER". *)
Definition post_register (data : register) : M Response :=
  try_catch
    (existingUser <- prisma (read (fun st =>
         find (fun u => User.email u =? reg_email data) (users st))) ;;
     match existingUser with
     | Some _ => c_json (error "Un utilisateur avec cet email existe déjà") 400
     | None =>
         hashedPassword <- hashPassword (reg_password data) ;;
         i <- draw_cuid ;;
         t <- now ;;
         user <- prisma (DB.create_user i (reg_email data) (reg_nom data)
                           (reg_prenom data) hashedPassword
                           (reg_dataInscription data) (Some "USER") t) ;;
         c_json (JObj [("message", JStr "Utilisateur créé avec succès");
                       ("user", selected user)]) 201
     end)
    (fun _ => c_json (error "Erreur serveur") 500).

Definition touch_login (t : Z) (u : User.t) : User.t :=
  User.mk (User.id u) (User.email u) (User.nom u) (User.prenom u) (User.password u)
          (User.dataInscription u) (Some t) (User.typesUtilisateur u)
          (User.createdAt u) t (User.classesId u).

Definition profile (u : User.t) : Json :=
  JObj [("id", JStr (User.id u)); ("email", JStr (User.email u));
        ("nom", J.opt_str (User.nom u)); ("prenom", J.opt_str (User.prenom u));
        ("typesUtilisateur", JStr (string_of_TypesUtilisateur (User.typesUtilisateur u)))].

(** [exp: Math.floor(Date.now() / 1000) + 72 * 60 * 60] *)
Definition expiry (date_now : Z) : Z := (date_now / 1000 + 72 * 60 * 60)%Z.

(** POST /users/login *)
Definition post_login (data : login) : M Response :=
  try_catch
    (user <- prisma (read (fun st =>
         find (fun u => User.email u =? login_email data) (users st))) ;;
     match user with
     | None => c_json (error "Email ou mot de passe incorrect") 400
     | Some u =>
         validPassword <- verifyPassword (login_password data) (User.password u) ;;
         if negb validPassword
         then c_json (error "Email ou mot de passe incorrect") 400
         else
           t <- now ;;
           prisma (DB.update_user (User.id u) (touch_login t)) ;;;
           date_now <- now ;;
           e <- ask ;;
           let token :=
             sign e (mkPayload (User.id u) (User.email u) (expiry date_now))
                  (JWT_SECRET e) in
           c_json_ok (JObj [("message", JStr "Connexion réussie");
                            ("token", JStr token);
                            ("user", profile u)])
     end)
    (fun _ => c_json (error "Erreur serveur") 500).

(** query string of GET /users *)
Record query : Type := {
  page : option nat;
  limit : option nat;
  search : option string
}.

(** [search ? { OR: [{ email: { contains, mode } }, { nom: ... },
    { prenom: ... }] } : {}]: the rows the filter selects on a connector
    that has [mode]. *)
Definition where_ (q : query) (u : User.t) : bool :=
  match given1 (search q) with
  | Some s => Str.contains_insensitive (User.email u) s
              || Str.contains_insensitive_opt (User.nom u) s
              || Str.contains_insensitive_opt (User.prenom u) s
  | None => true
  end.

Definition newest_first (x y : User.t) : bool :=
  (User.createdAt y <=? User.createdAt x)%Z.

(** the [select] of GET /users, with its [_count] *)
Definition listed (st : Store) (u : User.t) : Json :=
  JObj [("id", JStr (User.id u)); ("email", JStr (User.email u));
        ("nom", J.opt_str (User.nom u)); ("prenom", J.opt_str (User.prenom u));
        ("dataInscription", J.opt_str (User.dataInscription u));
        ("derniereConnexion", J.opt_num (User.derniereConnexion u));
        ("typesUtilisateur", JStr (string_of_TypesUtilisateur (User.typesUtilisateur u)));
        ("createdAt", JNum (User.createdAt u)); ("updatedAt", JNum (User.updatedAt u));
        ("_count",
         JObj [("ReponsesUtilisateur",
                jnat (length (filter (fun r => ReponsesUtilisateur.userId r =? User.id u)
                                     (reponsesUtilisateur st))));
               ("LeconsUtilisateur",
                jnat (length (filter (fun l => LeconsUtilisateur.userId l =? User.id u)
                                     (leconsUtilisateur st))))])].

(** GET /users *)
Definition get_root (q : query) : M Response :=
  try_catch
    (let page := default_nat 1 (page q) in
     let limit := default_nat 10 (limit q) in
     let skip := ((Z.of_nat page - 1) * Z.of_nat limit)%Z in
     users_ <- prisma (searching (search q) (fun st =>
         match find_page (fun s => sort_by newest_first (filter (where_ q) (users s)))
                         skip limit st with
         | (Ok rows, st') => (Ok (map (listed st') rows), st')
         | (Throw x, st') => (Throw x, st')
         end)) ;;
     total <- prisma (searching (search q)
                        (read (fun st => length (filter (where_ q) (users st))))) ;;
     c_json_ok (JObj [("users", JArr users_);
                      ("pagination", paging page limit total)]))
    (fun _ => c_json (error "Erreur serveur") 500).

End UserRoutes.
(** * The remaining handlers

    The handlers below render the relations a request asks for: a record
    read with [include] carries its related rows in the response. *)


(** [{ ...row, k1: v1, ... }] *)
Definition with_fields (row : Json) (fs : list (string * Json)) : Json :=
  match row with
  | JObj l => JObj (l ++ fs)
  | j => j
  end.

(** [{ success: true, data }] *)
Definition success_data (data : Json) : Json :=
  JObj [("success", JBool true); ("data", data)].

(** A to-one relation in a response: the related row, or [null]. *)
Definition related {R} (key : R -> string) (to_json : R -> Json)
    (i : string) (t : list R) : Json :=
  match find_id key i t with
  | Some r => to_json r
  | None => JNull
  end.

Definition related_opt {R} (key : R -> string) (to_json : R -> Json)
    (o : option string) (t : list R) : Json :=
  match o with
  | Some i => related key to_json i t
  | None => JNull
  end.

(** [select: { id: true, nom: true }] *)
Definition id_nom (id nom : string) : Json :=
  JObj [("id", JStr id); ("nom", JStr nom)].

(** ** The storage layer, continued *)

Module DBMore.

(** No table refers to an option. *)
Definition delete_optionsQCM (i : string) : Op unit := fun st =>
  if negb (has_id OptionsQCM.id i (optionsQCM st)) then (Throw RecordNotFound, st)
  else (Ok tt, DB.set_optionsQCM (remove_id OptionsQCM.id i (optionsQCM st)) st).

Definition update_optionsQCM (i : string) (f : OptionsQCM.t -> OptionsQCM.t)
  : Op OptionsQCM.t :=
  fun st =>
    match find_id OptionsQCM.id i (optionsQCM st) with
    | None => (Throw RecordNotFound, st)
    | Some o =>
        let o' := f o in
        if (OptionsQCM.exercicesId o' =? OptionsQCM.exercicesId o)
           || has_id Exercices.id (OptionsQCM.exercicesId o') (exercices st)
        then (Ok o', DB.set_optionsQCM (amend_id OptionsQCM.id i f (optionsQCM st)) st)
        else (Throw ForeignKeyConstraintFailed, st)
    end.

(** LeconsUtilisateur.userId and ReponsesUtilisateur.userId: RESTRICT. *)
Definition delete_user (i : string) : Op unit := fun st =>
  if negb (has_id User.id i (users st)) then (Throw RecordNotFound, st)
  else if existsb (fun x => LeconsUtilisateur.userId x =? i) (leconsUtilisateur st)
          || existsb (fun x => ReponsesUtilisateur.userId x =? i) (reponsesUtilisateur st)
  then (Throw ForeignKeyConstraintFailed, st)
  else (Ok tt, DB.set_users (remove_id User.id i (users st)) st).

End DBMore.
(** ** routes: reading one class *)

Module ClassesReads.

Import ClassesRoutes.

(** [includeOptions.Matieres = { orderBy: { nom: "asc" } }] *)
Definition includeOptions (include : option string) : list Include.t :=
  if Include.asks include "matieres" then [Include.rel "Matieres" []] else [].

Definition render (include : list Include.t) (st : Store) (c : Classes.t) : Json :=
  with_fields (Classes.to_json c)
    (if Include.has "Matieres" include
     then [("Matieres",
            JArr (map Matieres.to_json
                      (sort_by matiere_nom_asc
                         (filter (fun m => Matieres.classesId m =? Classes.id c)
                                 (matieres st)))))]
     else []).

(** The body of GET /classes/:id, the same in both revisions. *)
Definition get_id_body (id : string) (q : query) : M Response :=
  if negb (Str.truthy id) then c_json (failure "ID de classe invalide") 400
  else
    let includeOptions := includeOptions (include q) in
    classe <- prisma (Include.findUnique Include.MClasses includeOptions
                        (fun st => find_id Classes.id id (classes st))
                        (render includeOptions)) ;;
    match classe with
    | None => c_json (failure "Classe non trouvée") 404
    | Some data => c_json_ok (success_data data)
    end.

(** GET /classes/:id, first revision *)
Definition get_id (id : string) (q : query) : M Response :=
  finally_
    (try_catch
       (get_id_body id q)
       (fun _ =>
          c_json (failure "Erreur serveur lors de la récupération de la classe") 500))
    disconnect.

(** GET /classes/:id, second revision *)
Definition get_id2 (id : string) (q : query) : M Response :=
  try_catch
    (get_id_body id q)
    (fun _ =>
       c_json (failure "Erreur serveur lors de la récupération de la classe") 500).

End ClassesReads.

(** ** routes: reading one subject *)

Module MatieresReads.

Import MatieresRoutes.

Definition includeOptions (include : option string) : list Include.t :=
  (if Include.asks include "classes" then [Include.rel "classes" []] else [])
  ++ (if Include.asks include "lecons" then [Include.rel "Lecons" []] else [])
  ++ (if Include.asks include "exercices" then [Include.rel "Exercices" []] else []).

Definition render (include : list Include.t) (st : Store) (m : Matieres.t) : Json :=
  with_fields (Matieres.to_json m)
    ((if Include.has "classes" include
      then [("classes",
             related Classes.id Classes.to_json (Matieres.classesId m) (classes st))]
      else [])
     ++ (if Include.has "Lecons" include
         then [("Lecons",
                JArr (map Lecons.to_json
                          (filter (fun l => Lecons.matieresId l =? Matieres.id m)
                                  (lecons st))))]
         else [])
     ++ (if Include.has "Exercices" include
         then [("Exercices",
                JArr (map Exercices.to_json
                          (filter (fun e => Exercices.matieresId e =? Matieres.id m)
                                  (exercices st))))]
         else [])).

(** GET /matieres/:id *)
Definition get_id (id : string) (q : query) : M Response :=
  try_catch
    (let includeOptions := includeOptions (include q) in
     matiere <- prisma (Include.findUnique Include.MMatieres includeOptions
                          (fun st => find_id Matieres.id id (matieres st))
                          (render includeOptions)) ;;
     match matiere with
     | None => c_json (failure "Matière non trouvée") 404
     | Some data => c_json_ok (success_data data)
     end)
    (fun _ =>
       c_json (failure "Erreur serveur lors de la récupération de la matière") 500).

Definition lecon_newest_first (x y : Lecons.t) : bool :=
  (Lecons.createdAt y <=? Lecons.createdAt x)%Z.

Definition exercice_newest_first (x y : Exercices.t) : bool :=
  (Exercices.createdAt y <=? Exercices.createdAt x)%Z.

(** GET /matieres/:id/lecons:
    [include: { Lecons: { orderBy: { createdAt: "desc" } } }], and the
    response is [matiere.Lecons]. *)
Definition get_id_lecons (id : string) : M Response :=
  try_catch
    (matiere <- prisma (read (fun st =>
         match find_id Matieres.id id (matieres st) with
         | Some m =>
             Some (m, sort_by lecon_newest_first
                        (filter (fun l => Lecons.matieresId l =? Matieres.id m)
                                (lecons st)))
         | None => None
         end)) ;;
     match matiere with
     | None => c_json (failure "Matière non trouvée") 404
     | Some (_, Lecons_) => c_json_ok (success_data (JArr (map Lecons.to_json Lecons_)))
     end)
    (fun _ =>
       c_json (failure "Erreur serveur lors de la récupération des leçons") 500).

(** GET /matieres/:id/exercices *)
Definition get_id_exercices (id : string) : M Response :=
  try_catch
    (matiere <- prisma (read (fun st =>
         match find_id Matieres.id id (matieres st) with
         | Some m =>
             Some (m, sort_by exercice_newest_first
                        (filter (fun e => Exercices.matieresId e =? Matieres.id m)
                                (exercices st)))
         | None => None
         end)) ;;
     match matiere with
     | None => c_json (failure "Matière non trouvée") 404
     | Some (_, Exercices_) =>
         c_json_ok (success_data (JArr (map Exercices.to_json Exercices_)))
     end)
    (fun _ =>
       c_json (failure "Erreur serveur lors de la récupération des exercices") 500).

End MatieresReads.

(** ** routes: reading one lesson *)

Module LeconsReads.

Import LeconsRoutes.

(** buildIncludeOptions of lecons.ts.  The last entry includes
    [utilisateur] below [LeconsUtilisateur], whose relation fields are
    [lecons] and [user]. *)
Definition buildIncludeOptions (include : option string) : list Include.t :=
  (if Include.asks include "matieres"
   then [Include.rel "matieres" [Include.rel "classes" []]] else [])
  ++ (if Include.asks include "souslecons"
      then [Include.rel "SousLecons" []] else [])
  ++ (if Include.asks include "exercices"
      then [Include.rel "Exercices" []] else [])
  ++ (if Include.asks include "utilisateurs"
      then [Include.rel "LeconsUtilisateur" [Include.rel "utilisateur" []]] else []).

(** [matieres: { include: { classes: true } }] *)
Definition matiere_with_classe (st : Store) (m : Matieres.t) : Json :=
  with_fields (Matieres.to_json m)
    [("classes", related Classes.id Classes.to_json (Matieres.classesId m) (classes st))].

Definition render (include : list Include.t) (st : Store) (l : Lecons.t) : Json :=
  with_fields (Lecons.to_json l)
    ((if Include.has "matieres" include
      then [("matieres",
             related Matieres.id (matiere_with_classe st) (Lecons.matieresId l)
                     (matieres st))]
      else [])
     ++ (if Include.has "SousLecons" include
         then [("SousLecons",
                JArr (map SousLecons.to_json
                          (sort_by sousLecon_oldest_first
                             (filter (fun s => SousLecons.leconsId s =? Lecons.id l)
                                     (sousLecons st)))))]
         else [])
     ++ (if Include.has "Exercices" include
         then [("Exercices",
                JArr (map Exercices.to_json
                          (sort_by exercice_oldest_first
                             (filter (fun e => opt_is (Exercices.leconId e) (Lecons.id l))
                                     (exercices st)))))]
         else [])).

(** GET /lecons/:id *)
Definition get_id (id : string) (q : query) : M Response :=
  try_catch
    (if negb (Str.truthy id) then c_json (failure "ID de leçon invalide") 400
     else
       let includeOptions := buildIncludeOptions (include q) in
       lecon <- prisma (Include.findUnique Include.MLecons includeOptions
                          (fun st => find_id Lecons.id id (lecons st))
                          (render includeOptions)) ;;
       match lecon with
       | None => c_json (failure "Leçon non trouvée") 404
       | Some data => c_json_ok (success_data data)
       end)
    (fun _ =>
       c_json (failure "Erreur serveur lors de la récupération de la leçon") 500).

End LeconsReads.

(** ** routes: reading one sub-lesson *)

Module SousLeconsReads.

Import SousLeconsRoutes.

(** buildIncludeOptions of souslecons.ts *)
Definition buildIncludeOptions (include : option string) : list Include.t :=
  (if Include.asks include "lecons"
   then [Include.rel "lecons" [Include.rel "matieres" [Include.rel "classes" []]]]
   else [])
  ++ (if Include.asks include "exercices"
      then [Include.rel "Exercices" []] else []).

(** [lecons: { include: { matieres: { include: { classes: true } } } }] *)
Definition lecon_with_matiere (st : Store) (l : Lecons.t) : Json :=
  with_fields (Lecons.to_json l)
    [("matieres",
      related Matieres.id (LeconsReads.matiere_with_classe st) (Lecons.matieresId l)
              (matieres st))].

Definition render (include : list Include.t) (st : Store) (x : SousLecons.t) : Json :=
  with_fields (SousLecons.to_json x)
    ((if Include.has "lecons" include
      then [("lecons",
             related Lecons.id (lecon_with_matiere st) (SousLecons.leconsId x)
                     (lecons st))]
      else [])
     ++ (if Include.has "Exercices" include
         then [("Exercices",
                JArr (map Exercices.to_json
                          (sort_by LeconsRoutes.exercice_oldest_first
                             (filter (fun e => opt_is (Exercices.sousLeconsId e)
                                                      (SousLecons.id x))
                                     (exercices st)))))]
         else [])).

(** GET /souslecons/:id *)
Definition get_id (id : string) (q : query) : M Response :=
  try_catch
    (if negb (Str.truthy id) then c_json (failure "ID de sous-leçon invalide") 400
     else
       let includeOptions := buildIncludeOptions (include q) in
       sousLecon <- prisma (Include.findUnique Include.MSousLecons includeOptions
                              (fun st => find_id SousLecons.id id (sousLecons st))
                              (render includeOptions)) ;;
       match sousLecon with
       | None => c_json (failure "Sous-leçon non trouvée") 404
       | Some data => c_json_ok (success_data data)
       end)
    (fun _ =>
       c_json (failure "Erreur serveur lors de la récupération de la sous-leçon") 500).

End SousLeconsReads.

(** ** routes: reading one exercise *)

Module ExercicesReads.

Import ExercicesRoutes.

Definition option_oldest_first (x y : OptionsQCM.t) : bool :=
  (OptionsQCM.createdAt x <=? OptionsQCM.createdAt y)%Z.

(** The [include] of GET /exercices/:id: the three parents reduced to
    [{ id, nom }], the options when asked for, and the two counts. *)
Definition detailed (includeOptions : bool) (st : Store) (e : Exercices.t) : Json :=
  with_fields (Exercices.to_json e)
    ([("matieres",
       related Matieres.id (fun m => id_nom (Matieres.id m) (Matieres.nom m))
               (Exercices.matieresId e) (matieres st));
      ("sousLecons",
       related_opt SousLecons.id (fun s => id_nom (SousLecons.id s) (SousLecons.nom s))
                   (Exercices.sousLeconsId e) (sousLecons st));
      ("lecons",
       related_opt Lecons.id (fun l => id_nom (Lecons.id l) (Lecons.nom l))
                   (Exercices.leconId e) (lecons st))]
     ++ (if includeOptions
         then [("OptionsQCM",
                JArr (map OptionsQCM.to_json
                          (sort_by option_oldest_first
                             (filter (fun o => OptionsQCM.exercicesId o =? Exercices.id e)
                                     (optionsQCM st)))))]
         else [])
     ++ [("_count",
          JObj [("OptionsQCM", jnat (count_OptionsQCM st (Exercices.id e)));
                ("Reponses", jnat (count_Reponses st (Exercices.id e)))])]).

(** GET /exercices/:id; [includeOptions] is the query parameter of that
    name, and counts when it is the string "true". *)
Definition get_id (id : string) (includeOptions : option string) : M Response :=
  try_catch
    (let includeOptions :=
       match includeOptions with Some s => s =? "true" | None => false end in
     exercice <- prisma (read (fun st =>
         option_map (detailed includeOptions st)
                    (find_id Exercices.id id (exercices st)))) ;;
     match exercice with
     | None => c_json (error "Exercice non trouvé") 404
     | Some data => c_json_ok data
     end)
    (fun _ => c_json (error "Erreur serveur") 500).

End ExercicesReads.
(** ** routes: answer options, one at a time *)

Module OptionsQCMItems.

Import ExercicesRoutes.

(** updateOptionQCMSchema *)
Record updateOptionQCM : Type := {
  update_nom : option string;
  update_description : option string;
  update_points : option Z;
  update_isCorrect : option bool;
  update_isSelected : option bool
}.

(** [exercices: { select: { id: true, nom: true, typesExercice: true } }] *)
Definition exercice_typed (e : Exercices.t) : Json :=
  JObj [("id", JStr (Exercices.id e)); ("nom", JStr (Exercices.nom e));
        ("typesExercice", JStr (string_of_TypesExercice (Exercices.typesExercice e)))].

Definition exercice_named (e : Exercices.t) : Json :=
  id_nom (Exercices.id e) (Exercices.nom e).

(** An option with the exercise it belongs to. *)
Definition with_exercice (view : Exercices.t -> Json) (st : Store) (o : OptionsQCM.t)
  : Json :=
  with_fields (OptionsQCM.to_json o)
    [("exercices", related Exercices.id view (OptionsQCM.exercicesId o) (exercices st))].

(** GET /options-qcm/exercice/:exerciceId *)
Definition get_exercice (exerciceId : string) : M Response :=
  try_catch
    (exercice <- prisma (read (fun st => find_id Exercices.id exerciceId (exercices st))) ;;
     match exercice with
     | None => c_json (error "Exercice non trouvé") 404
     | Some e =>
         options <- prisma (read (fun st =>
             map (with_exercice exercice_named st)
                 (sort_by ExercicesReads.option_oldest_first
                    (filter (fun o => OptionsQCM.exercicesId o =? exerciceId)
                            (optionsQCM st))))) ;;
         c_json_ok (JObj [("options", JArr options);
                          ("exercice", exercice_typed e)])
     end)
    (fun _ => c_json (error "Erreur serveur") 500).

(** GET /options-qcm/:id *)
Definition get_id (id : string) : M Response :=
  try_catch
    (option <- prisma (read (fun st =>
         option_map (with_exercice exercice_typed st)
                    (find_id OptionsQCM.id id (optionsQCM st)))) ;;
     match option with
     | None => c_json (error "Option QCM non trouvée") 404
     | Some data => c_json_ok data
     end)
    (fun _ => c_json (error "Erreur serveur") 500).

(** [prisma.optionsQCM.update({ where: { id }, data })] *)
Definition patch (data : updateOptionQCM) (t : Z) (o : OptionsQCM.t) : OptionsQCM.t :=
  OptionsQCM.mk (OptionsQCM.id o)
                (keep (update_nom data) (OptionsQCM.nom o))
                (keep_opt (update_description data) (OptionsQCM.description o))
                (OptionsQCM.exercicesId o)
                (keep_opt (update_points data) (OptionsQCM.points o))
                (keep (update_isCorrect data) (OptionsQCM.isCorrect o))
                (keep (update_isSelected data) (OptionsQCM.isSelected o))
                (OptionsQCM.createdAt o) t.

(** An update that answers with the row and its exercise. *)
Definition update (view : Exercices.t -> Json) (id : string)
    (f : OptionsQCM.t -> OptionsQCM.t) : Op Json := fun st =>
  match DBMore.update_optionsQCM id f st with
  | (Ok o, st') => (Ok (with_exercice view st' o), st')
  | (Throw x, st') => (Throw x, st')
  end.

(** PUT /options-qcm/:id *)
Definition put_id (id : string) (data : updateOptionQCM) : M Response :=
  try_catch
    (existingOption <- prisma (read (fun st =>
         find_id OptionsQCM.id id (optionsQCM st))) ;;
     match existingOption with
     | None => c_json (error "Option QCM non trouvée") 404
     | Some _ =>
         t <- now ;;
         updatedOption <- prisma (update exercice_typed id (patch data t)) ;;
         c_json_ok (JObj [("message", JStr "Option QCM mise à jour avec succès");
                          ("option", updatedOption)])
     end)
    (fun _ => c_json (error "Erreur serveur") 500).

(** DELETE /options-qcm/:id *)
Definition delete_id (id : string) : M Response :=
  try_catch
    (option <- prisma (read (fun st => find_id OptionsQCM.id id (optionsQCM st))) ;;
     match option with
     | None => c_json (error "Option QCM non trouvée") 404
     | Some _ =>
         prisma (DBMore.delete_optionsQCM id) ;;;
         c_json_ok (JObj [("message", JStr "Option QCM supprimée avec succès")])
     end)
    (fun _ => c_json (error "Erreur serveur") 500).

(** [data: { isSelected }] *)
Definition select (isSelected : bool) (t : Z) (o : OptionsQCM.t) : OptionsQCM.t :=
  OptionsQCM.mk (OptionsQCM.id o) (OptionsQCM.nom o) (OptionsQCM.description o)
                (OptionsQCM.exercicesId o) (OptionsQCM.points o)
                (OptionsQCM.isCorrect o) isSelected
                (OptionsQCM.createdAt o) t.

(** PATCH /options-qcm/:id/select *)
Definition patch_select (id : string) (isSelected : bool) : M Response :=
  try_catch
    (option <- prisma (read (fun st => find_id OptionsQCM.id id (optionsQCM st))) ;;
     match option with
     | None => c_json (error "Option QCM non trouvée") 404
     | Some _ =>
         t <- now ;;
         updatedOption <- prisma (update exercice_named id (select isSelected t)) ;;
         c_json_ok
           (JObj [("message",
                   JStr ("Option "
                         ++ (if isSelected then "sélectionnée" else "désélectionnée")
                         ++ " avec succès"));
                  ("option", updatedOption)])
     end)
    (fun _ => c_json (error "Erreur serveur") 500).

End OptionsQCMItems.

(** ** routes: user accounts *)

Module UserAccounts.

Import ExercicesRoutes.

(** [z.enum(["USER", "ADMIN"])] *)
Inductive updateRole : Type := rUSER | rADMIN.

Definition string_of_updateRole (r : updateRole) : string :=
  match r with rUSER => "USER" | rADMIN => "ADMIN" end.

(** updateUserSchema *)
Record updateUser : Type := {
  update_email : option string;
  update_nom : option string;
  update_prenom : option string;
  update_password : option string;
  update_dataInscription : option string;
  update_typesUtilisateur : option updateRole
}.

(** changePasswordSchema *)
Record changePassword : Type := {
  currentPassword : string;
  newPassword : string
}.

(** The columns GET /users/:id, GET /users/profile/me and PUT /users/:id
    select. *)
Definition columns (u : User.t) : Json :=
  JObj [("id", JStr (User.id u)); ("email", JStr (User.email u));
        ("nom", J.opt_str (User.nom u)); ("prenom", J.opt_str (User.prenom u));
        ("dataInscription", J.opt_str (User.dataInscription u));
        ("derniereConnexion", J.opt_num (User.derniereConnexion u));
        ("typesUtilisateur", JStr (string_of_TypesUtilisateur (User.typesUtilisateur u)));
        ("createdAt", JNum (User.createdAt u)); ("updatedAt", JNum (User.updatedAt u))].

(** [select: { id: true, createdAt: true }] on the two progress tables *)
Definition id_createdAt (id : string) (createdAt : Z) : Json :=
  JObj [("id", JStr id); ("createdAt", JNum createdAt)].

Definition with_progress (st : Store) (u : User.t) : Json :=
  with_fields (columns u)
    [("ReponsesUtilisateur",
      JArr (map (fun r => id_createdAt (ReponsesUtilisateur.id r)
                                       (ReponsesUtilisateur.createdAt r))
                (filter (fun r => ReponsesUtilisateur.userId r =? User.id u)
                        (reponsesUtilisateur st))));
     ("LeconsUtilisateur",
      JArr (map (fun l => id_createdAt (LeconsUtilisateur.id l)
                                       (LeconsUtilisateur.createdAt l))
                (filter (fun l => LeconsUtilisateur.userId l =? User.id u)
                        (leconsUtilisateur st))))].

(** GET /users/:id *)
Definition get_id (id : string) : M Response :=
  try_catch
    (user <- prisma (read (fun st =>
         option_map (with_progress st) (find_id User.id id (users st)))) ;;
     match user with
     | None => c_json (error "Utilisateur non trouvé") 404
     | Some data => c_json_ok data
     end)
    (fun _ => c_json (error "Erreur serveur") 500).

(** [updateData]: a field enters it when the payload gives it a truthy
    value; [hashed] is the digest of the new password, when one is given. *)
Definition patch (data : updateUser) (hashed : option string)
    (role : option TypesUtilisateur) (t : Z) (u : User.t) : User.t :=
  User.mk (User.id u)
          (keep (given1 (update_email data)) (User.email u))
          (keep_opt (given1 (update_nom data)) (User.nom u))
          (keep_opt (given1 (update_prenom data)) (User.prenom u))
          (keep hashed (User.password u))
          (keep_opt (given1 (update_dataInscription data)) (User.dataInscription u))
          (User.derniereConnexion u)
          (keep role (User.typesUtilisateur u))
          (User.createdAt u) t (User.classesId u).

(** [prisma.user.update({ where: { id }, data: updateData, select })]: the
    client checks the role against the schema's enumeration. *)
Definition update (id : string) (data : updateUser) (hashed : option string) (t : Z)
  : Op Json := fun st =>
  let write role :=
    match DB.update_user id (patch data hashed role t) st with
    | (Ok u, st') => (Ok (columns u), st')
    | (Throw x, st') => (Throw x, st')
    end in
  match update_typesUtilisateur data with
  | None => write None
  | Some r =>
      match TypesUtilisateur_of_string (string_of_updateRole r) with
      | Some role => write (Some role)
      | None => (Throw InvalidArgument, st)
      end
  end.

(** PUT /users/:id *)
Definition put_id (id : string) (data : updateUser) : M Response :=
  try_catch
    (existingUser <- prisma (read (fun st => find_id User.id id (users st))) ;;
     match existingUser with
     | None => c_json (error "Utilisateur non trouvé") 404
     | Some existing =>
         let write :=
           hashed <- match given1 (update_password data) with
                     | Some password =>
                         h <- hashPassword password ;; ret (Some h)
                     | None => ret None
                     end ;;
           t <- now ;;
           updatedUser <- prisma (update id data hashed t) ;;
           c_json_ok (JObj [("message", JStr "Utilisateur mis à jour avec succès");
                            ("user", updatedUser)]) in
         match given1 (update_email data) with
         | Some email =>
             if negb (email =? User.email existing)
             then
               emailExists <- prisma (read (fun st =>
                   find (fun u => User.email u =? email) (users st))) ;;
               match emailExists with
               | Some _ => c_json (error "Cet email est déjà utilisé") 400
               | None => write
               end
             else write
         | None => write
         end
     end)
    (fun _ => c_json (error "Erreur serveur") 500).

(** DELETE /users/:id *)
Definition delete_id (id : string) : M Response :=
  try_catch
    (user <- prisma (read (fun st => find_id User.id id (users st))) ;;
     match user with
     | None => c_json (error "Utilisateur non trouvé") 404
     | Some _ =>
         prisma (DBMore.delete_user id) ;;;
         c_json_ok (JObj [("message", JStr "Utilisateur supprimé avec succès")])
     end)
    (fun _ => c_json (error "Erreur serveur") 500).

(** The variables of the request context, [c.set] and [c.get]. *)
Definition Vars : Type := list (string * JWTPayload).

Fixpoint c_get (key : string) (vars : Vars) : option JWTPayload :=
  match vars with
  | [] => None
  | (k, v) :: r => if k =? key then Some v else c_get key r
  end.

(** [authMiddleware] builds a [jwt] middleware, does not run it, and calls
    [next()]: it sets no variable and lets every request through. *)
Definition authMiddleware (vars : Vars) : Vars := vars.

(** [getCurrentUser]: [c.get("jwtPayload")], which is [undefined] when no
    middleware has set it. *)
Definition getCurrentUser (vars : Vars) : M (option JWTPayload) :=
  ret (c_get "jwtPayload" vars).

(** [currentUser.userId]: reading a property of [undefined] throws.  The
    runtime's error is a TypeError; the handlers never look at the error
    they catch, and the embedding has one exception for the errors of the
    JavaScript runtime. *)
Definition userId_of (currentUser : option JWTPayload) : M string :=
  match currentUser with
  | Some payload => ret (userId payload)
  | None => throw ReferenceError
  end.

(** The handler of GET /users/profile/me, in a context with [vars]. *)
Definition profile_me (vars : Vars) : M Response :=
  try_catch
    (currentUser <- getCurrentUser vars ;;
     id <- userId_of currentUser ;;
     user <- prisma (read (fun st =>
         option_map (with_progress st) (find_id User.id id (users st)))) ;;
     match user with
     | None => c_json (error "Utilisateur non trouvé") 404
     | Some data => c_json_ok data
     end)
    (fun _ => c_json (error "Erreur serveur") 500).

(** GET /users/profile/me: the route has no middleware. *)
Definition get_profile_me : M Response := profile_me [].

Definition set_password (hash : string) (t : Z) (u : User.t) : User.t :=
  User.mk (User.id u) (User.email u) (User.nom u) (User.prenom u) hash
          (User.dataInscription u) (User.derniereConnexion u)
          (User.typesUtilisateur u) (User.createdAt u) t (User.classesId u).

(** The handler of PUT /users/profile/change-password. *)
Definition change_password (vars : Vars) (data : changePassword) : M Response :=
  try_catch
    (currentUser <- getCurrentUser vars ;;
     id <- userId_of currentUser ;;
     user <- prisma (read (fun st => find_id User.id id (users st))) ;;
     match user with
     | None => c_json (error "Utilisateur non trouvé") 404
     | Some u =>
         validPassword <- verifyPassword (currentPassword data) (User.password u) ;;
         if negb validPassword
         then c_json (error "Mot de passe actuel incorrect") 400
         else
           hashedNewPassword <- hashPassword (newPassword data) ;;
           id' <- userId_of currentUser ;;
           t <- now ;;
           prisma (DB.update_user id' (set_password hashedNewPassword t)) ;;;
           c_json_ok (JObj [("message", JStr "Mot de passe modifié avec succès")])
     end)
    (fun _ => c_json (error "Erreur serveur") 500).

(** PUT /users/profile/change-password, behind [authMiddleware]. *)
Definition put_change_password (data : changePassword) : M Response :=
  change_password (authMiddleware []) data.

(** POST /users/logout *)
Definition post_logout : M Response :=
  try_catch
    (c_json_ok (JObj [("message", JStr "Déconnexion réussie")]))
    (fun _ => c_json (error "Erreur serveur") 500).

End UserAccounts.
(** ** Routing

    Each route file registers its handlers on a Hono application, one
    [app.get(pattern, ...)], [app.post(pattern, ...)] after the other.  For
    a request Hono runs the handlers whose method and pattern match, in the
    order of registration; every route handler of the code base answers
    without calling [next()], so the first matching route answers. *)

Module Router.

Inductive Method : Type := GET | POST | PUT | PATCH | DELETE.

Definition same_method (a b : Method) : bool :=
  match a, b with
  | GET, GET | POST, POST | PUT, PUT | PATCH, PATCH | DELETE, DELETE => true
  | _, _ => false
  end.

(** One segment of a pattern: a literal, or a parameter [:name]. *)
Inductive Segment : Type :=
| lit (s : string)
| param (name : string).

Record Route : Type := route {
  method : Method;
  pattern : list Segment
}.

(** A pattern against the segments of a path; a parameter takes one
    non-empty segment.  The result binds the parameters. *)
Fixpoint bind_path (p : list Segment) (path : list string)
  : option (list (string * string)) :=
  match p, path with
  | [], [] => Some []
  | lit s :: p', x :: path' =>
      if x =? s then bind_path p' path' else None
  | param name :: p', x :: path' =>
      if Str.truthy x
      then option_map (cons (name, x)) (bind_path p' path')
      else None
  | _, _ => None
  end.

(** The route that answers, with its parameters. *)
Fixpoint answers (table : list Route) (m : Method) (path : list string)
  : option (Route * list (string * string)) :=
  match table with
  | [] => None
  | r :: rest =>
      if same_method (method r) m
      then match bind_path (pattern r) path with
           | Some ps => Some (r, ps)
           | None => answers rest m path
           end
      else answers rest m path
  end.

(** The applications of the code base. *)
Inductive App : Type :=
| classes1     (* classes.ts, first revision *)
| classes2     (* classes.ts, second revision *)
| matieres_app (* matieres.ts *)
| lecons1      (* lecons.ts, first revision *)
| lecons2      (* lecons.ts, second revision *)
| sousLecons_app (* souslecons.ts *)
| exercicesApp (* exercices.ts *)
| optionsQCMApp
| user_app.    (* utilisateurs.ts *)

(** The routes of each application, in the order of registration. *)
Definition routes (a : App) : list Route :=
  match a with
  | classes1 =>
      [route GET [];
       route GET [param "id"];
       route POST [];
       route PUT [param "id"];
       route DELETE [param "id"];
       route GET [param "id"; lit "matieres"];
       route GET [lit "search"];
       route GET [lit "health"]]
  | classes2 =>
      [route GET [];
       route GET [param "id"];
       route POST [lit "new"];
       route PUT [param "id"; lit "update"];
       route DELETE [param "id"; lit "delete"]]
  | matieres_app =>
      [route GET [];
       route GET [param "id"];
       route POST [];
       route PUT [param "id"];
       route DELETE [param "id"];
       route GET [param "id"; lit "lecons"];
       route GET [param "id"; lit "exercices"];
       route GET [lit "classes"; param "classesId"; lit "matieres"]]
  | lecons1 =>
      [route GET [];
       route GET [param "id"];
       route POST [lit "new"];
       route PUT [lit "lecons"; param "id"];
       route DELETE [lit "lecons"; param "id"];
       route GET [lit "lecons"; param "id"; lit "souslecons"];
       route GET [param "id"; lit "exercices"];
       route GET [lit "matieres"; param "matieresId"; lit "lecons"];
       route GET [lit "search"]]
  | lecons2 =>
      [route GET [];
       route GET [param "id"];
       route POST [lit "new"]]
  | sousLecons_app =>
      [route GET [];
       route GET [param "id"];
       route POST [lit "new"];
       route PUT [param "id"];
       route DELETE [param "id"];
       route GET [param "id"; lit "exercices"];
       route GET [lit "lecons"; param "leconsId"; lit "souslecons"];
       route GET [lit "search"];
       route PUT [lit "bulk-update"]]
  | exercicesApp =>
      [route POST [];
       route GET [];
       route GET [param "id"];
       route PUT [param "id"];
       route DELETE [param "id"]]
  | optionsQCMApp =>
      [route POST [];
       route GET [lit "exercice"; param "exerciceId"];
       route GET [param "id"];
       route PUT [param "id"];
       route DELETE [param "id"];
       route POST [lit "bulk"];
       route PATCH [param "id"; lit "select"]]
  | user_app =>
      [route POST [lit "register"];
       route POST [lit "login"];
       route GET [];
       route GET [param "id"];
       route PUT [param "id"];
       route DELETE [param "id"];
       route GET [lit "profile"; lit "me"];
       route PUT [lit "profile"; lit "change-password"];
       route POST [lit "logout"]]
  end.

Definition same_segment (a b : Segment) : bool :=
  match a, b with
  | lit s, lit s' => s =? s'
  | param n, param n' => n =? n'
  | _, _ => false
  end.

Fixpoint same_pattern (p q : list Segment) : bool :=
  match p, q with
  | [], [] => true
  | a :: p', b :: q' => same_segment a b && same_pattern p' q'
  | _, _ => false
  end.

Definition same_route (r r' : Route) : bool :=
  same_method (method r) (method r') && same_pattern (pattern r) (pattern r').

(** The routes registered behind a parameter route that takes their
    path. *)
Definition shadowed (a : App) : list Route :=
  match a with
  | classes1 => [route GET [lit "search"]; route GET [lit "health"]]
  | lecons1 => [route GET [lit "search"]]
  | sousLecons_app => [route GET [lit "search"]; route PUT [lit "bulk-update"]]
  | _ => []
  end.

Definition is_shadowed (a : App) (r : Route) : bool :=
  existsb (same_route r) (shadowed a).

(** A path that fits the pattern: the literals, and [x] for every
    parameter. *)
Definition instance (x : string) (p : list Segment) : list string :=
  map (fun s => match s with lit l => l | param _ => x end) p.

End Router.
(** * Statements

    The endpoints a property ranges over, and what it says of them. *)

(** ** The cascade guard of the delete endpoints *)

Inductive GuardedDelete : Type :=
| DeleteClasse      (* DELETE /classes/:id *)
| DeleteClasse2     (* DELETE /classes/:id/delete *)
| DeleteMatiere     (* DELETE /matieres/:id *)
| DeleteLecon       (* DELETE /lecons/lecons/:id *)
| DeleteSousLecon.  (* DELETE /souslecons/:id *)

Definition delete_endpoint (g : GuardedDelete) (id : string) : M Response :=
  match g with
  | DeleteClasse => ClassesRoutes.delete_id id
  | DeleteClasse2 => ClassesRoutes2.delete_id_delete id
  | DeleteMatiere => MatieresRoutes.delete_id id
  | DeleteLecon => LeconsRoutes.delete_id id
  | DeleteSousLecon => SousLeconsRoutes.delete_id id
  end.

Definition parent_present (g : GuardedDelete) (id : string) (st : Store) : bool :=
  match g with
  | DeleteClasse | DeleteClasse2 => has_id Classes.id id (classes st)
  | DeleteMatiere => has_id Matieres.id id (matieres st)
  | DeleteLecon => has_id Lecons.id id (lecons st)
  | DeleteSousLecon => has_id SousLecons.id id (sousLecons st)
  end.

(** Child rows in the relations the endpoint guards. *)
Definition dependents (g : GuardedDelete) (id : string) (st : Store) : nat :=
  match g with
  | DeleteClasse | DeleteClasse2 =>
      length (filter (fun m => Matieres.classesId m =? id) (matieres st))
  | DeleteMatiere =>
      length (filter (fun l => Lecons.matieresId l =? id) (lecons st))
      + length (filter (fun e => Exercices.matieresId e =? id) (exercices st))
  | DeleteLecon =>
      length (filter (fun s => SousLecons.leconsId s =? id) (sousLecons st))
      + length (filter (fun e => opt_is (Exercices.leconId e) id) (exercices st))
      + length (filter (fun x => LeconsUtilisateur.leconsId x =? id) (leconsUtilisateur st))
  | DeleteSousLecon =>
      length (filter (fun e => opt_is (Exercices.sousLeconsId e) id) (exercices st))
  end.

(** The rows of the guarded parent's table, by identifier. *)
Definition parents (g : GuardedDelete) (st : Store) : list (string * Json) :=
  match g with
  | DeleteClasse | DeleteClasse2 =>
      map (fun c => (Classes.id c, Classes.to_json c)) (classes st)
  | DeleteMatiere =>
      map (fun m => (Matieres.id m, Matieres.to_json m)) (matieres st)
  | DeleteLecon =>
      map (fun l => (Lecons.id l, Lecons.to_json l)) (lecons st)
  | DeleteSousLecon =>
      map (fun s => (SousLecons.id s, SousLecons.to_json s)) (sousLecons st)
  end.

(** The rows that bear another identifier than [id]. *)
Definition others (id : string) (rows : list (string * Json)) : list (string * Json) :=
  filter (fun row => negb (fst row =? id)) rows.

Definition forget_classe (u : User.t) : User.t :=
  User.mk (User.id u) (User.email u) (User.nom u) (User.prenom u)
          (User.password u) (User.dataInscription u)
          (User.derniereConnexion u) (User.typesUtilisateur u)
          (User.createdAt u) (User.updatedAt u) None.

(** The store, the guarded parent's table apart; for a class, the class of
    each user apart as well (the one relation of a guarded parent that no
    guard counts: [User.classesId] is optional). *)
Definition beside_parents (g : GuardedDelete) (st : Store) : Store :=
  match g with
  | DeleteClasse | DeleteClasse2 =>
      DB.set_users (map forget_classe (users st)) (DB.set_classes [] st)
  | DeleteMatiere => DB.set_matieres [] st
  | DeleteLecon => DB.set_lecons [] st
  | DeleteSousLecon => DB.set_sousLecons [] st
  end.

(** The class of each user once the parent [id] is gone: the users of a
    deleted class have none, every other user keeps theirs. *)
Definition classes_of_users (g : GuardedDelete) (id : string) (st : Store)
  : list (option string) :=
  match g with
  | DeleteClasse | DeleteClasse2 =>
      map (fun u => if opt_is (User.classesId u) id then None else User.classesId u)
          (users st)
  | _ => map User.classesId (users st)
  end.

(** The parent row is gone and nothing else is: the parent's table holds
    the rows that bear another identifier, in their order, and the rest of
    the store is as before. *)
Definition removed (g : GuardedDelete) (id : string) (before after : Store) : Prop :=
  parent_present g id after = false
  /\ parents g after = others id (parents g before)
  /\ beside_parents g after = beside_parents g before
  /\ map User.classesId (users after) = classes_of_users g id before.


(** The row POST /matieres writes. *)
Definition new_matiere (data : MatieresRoutes.createMatiere) (w : World) : Matieres.t :=
  Matieres.mk (cuid (env w) (drawn w))
              (MatieresRoutes.create_nom data)
              (MatieresRoutes.create_description data)
              (MatieresRoutes.create_classesId data)
              (MatieresRoutes.create_pointsTotalMatiere data)
              (MatieresRoutes.create_pointsSeuilMatiere data)
              (clock w) (clock w).


(** ** The list endpoints *)

Inductive ListRequest : Type :=
| ListClasses (q : ClassesRoutes.query)
    (* GET /classes, second revision *)
| ListMatieresOfClasse (id : string) (q : ClassesRoutes.query)
    (* GET /classes/:id/matieres *)
| ListMatieres (q : MatieresRoutes.query)
    (* GET /matieres *)
| ListMatieresByClasse (classesId : string) (q : MatieresRoutes.query)
    (* GET /matieres/classes/:classesId/matieres *)
| ListLecons (q : LeconsRoutes.query)
    (* GET /lecons *)
| ListSousLeconsOfLecon (id : string) (q : LeconsRoutes.query)
    (* GET /lecons/lecons/:id/souslecons *)
| ListExercicesOfLecon (id : string) (q : LeconsRoutes.query)
    (* GET /lecons/:id/exercices *)
| ListLeconsOfMatiere (matieresId : string) (q : LeconsRoutes.query)
    (* GET /lecons/matieres/:matieresId/lecons *)
| ListSousLecons (q : SousLeconsRoutes.query)
    (* GET /souslecons *)
| ListExercicesOfSousLecon (id : string) (q : SousLeconsRoutes.query)
    (* GET /souslecons/:id/exercices *)
| ListSousLeconsByLecon (leconsId : string) (q : SousLeconsRoutes.query)
    (* GET /souslecons/lecons/:leconsId/souslecons *)
| ListExercices (offset : nat) (q : ExercicesRoutes.query)
    (* GET /exercices; the handler reads no [offset] parameter *)
| ListUsers (offset : nat) (q : UserRoutes.query).
    (* GET /users; the handler reads no [offset] parameter *)

Definition list_endpoint (r : ListRequest) : M Response :=
  match r with
  | ListClasses q => ClassesRoutes2.get_root q
  | ListMatieresOfClasse id q => ClassesRoutes.get_id_matieres id q
  | ListMatieres q => MatieresRoutes.get_root q
  | ListMatieresByClasse c q => MatieresRoutes.get_classes_matieres c q
  | ListLecons q => LeconsRoutes.get_root q
  | ListSousLeconsOfLecon id q => LeconsRoutes.get_id_souslecons id q
  | ListExercicesOfLecon id q => LeconsRoutes.get_id_exercices id q
  | ListLeconsOfMatiere m q => LeconsRoutes.get_matieres_lecons m q
  | ListSousLecons q => SousLeconsRoutes.get_root q
  | ListExercicesOfSousLecon id q => SousLeconsRoutes.get_id_exercices id q
  | ListSousLeconsByLecon l q => SousLeconsRoutes.get_lecons_souslecons l q
  | ListExercices _ q => ExercicesRoutes.get_root q
  | ListUsers _ q => UserRoutes.get_root q
  end.




(** The [page] query parameter of the page-based endpoints (default 1). *)
Definition page_of (r : ListRequest) : nat :=
  match r with
  | ListExercices _ q => default_nat 1 (ExercicesRoutes.page q)
  | ListUsers _ q => default_nat 1 (UserRoutes.page q)
  | _ => 1
  end.




(** The request reaches the listing: the parent named in the path exists
    (nested lists), the page number is at least 1 (page-based lists). *)
Definition addressed (r : ListRequest) (st : Store) : bool :=
  match r with
  | ListMatieresOfClasse id _ => Str.truthy id && has_id Classes.id id (classes st)
  | ListSousLeconsOfLecon id _ | ListExercicesOfLecon id _
  | ListSousLeconsByLecon id _ => Str.truthy id && has_id Lecons.id id (lecons st)
  | ListLeconsOfMatiere id _ => Str.truthy id && has_id Matieres.id id (matieres st)
  | ListExercicesOfSousLecon id _ =>
      Str.truthy id && has_id SousLecons.id id (sousLecons st)
  | ListExercices _ _ | ListUsers _ _ => (1 <=? page_of r)%nat
  | _ => true
  end.

(** The client accepts the queries of the request: the request has no
    search term where the handler would put it in a filter with
    [mode: "insensitive"], its [include] names relations the schema has
    (lesson lists), its [typesExercice] is a member of the enumeration
    (exercise list). *)
Definition accepted (r : ListRequest) : bool :=
  match r with
  | ListClasses q | ListMatieresOfClasse _ q =>
      negb (truthy_opt (ClassesRoutes.search q))
  | ListMatieres _ | ListMatieresByClasse _ _ => true
  | ListLecons q | ListLeconsOfMatiere _ q =>
      negb (truthy_opt (LeconsRoutes.search q))
      && forallb (Include.valid Include.MLecons)
                 (LeconsRoutes.buildIncludeOptions (LeconsRoutes.include q))
  | ListSousLeconsOfLecon _ _ | ListExercicesOfLecon _ _ => true
  | ListSousLecons q | ListSousLeconsByLecon _ q =>
      negb (truthy_opt (SousLeconsRoutes.search q))
  | ListExercicesOfSousLecon _ _ => true
  | ListExercices _ q =>
      negb (truthy_opt (ExercicesRoutes.search q)) && ExercicesRoutes.where_typed q
  | ListUsers _ q => negb (truthy_opt (UserRoutes.search q))
  end.




(** ** The create and update endpoints that check a referenced parent *)

Inductive WriteRequest : Type :=
| CreateMatiere (d : MatieresRoutes.createMatiere)                  (* POST /matieres *)
| UpdateMatiere (id : string) (d : MatieresRoutes.updateMatiere)    (* PUT /matieres/:id *)
| CreateLecon (d : LeconsRoutes.createLecon)                        (* POST /lecons/new *)
| UpdateLecon (id : string) (d : LeconsRoutes.updateLecon)          (* PUT /lecons/lecons/:id *)
| CreateSousLecon (d : SousLeconsRoutes.createSousLecon)            (* POST /souslecons/new *)
| UpdateSousLecon (id : string) (d : SousLeconsRoutes.updateSousLecon) (* PUT /souslecons/:id *)
| CreateExercice (d : ExercicesRoutes.createExercice)               (* POST /exercices *)
| UpdateExercice (id : string) (d : ExercicesRoutes.updateExercice) (* PUT /exercices/:id *)
| CreateOption (d : OptionsQCMRoutes.createOptionQCM)               (* POST /options-qcm *)
| CreateOptions (d : OptionsQCMRoutes.bulk).                        (* POST /options-qcm/bulk *)

Definition write_endpoint (r : WriteRequest) : M Response :=
  match r with
  | CreateMatiere d => MatieresRoutes.post_root d
  | UpdateMatiere id d => MatieresRoutes.put_id id d
  | CreateLecon d => LeconsRoutes.post_new d
  | UpdateLecon id d => LeconsRoutes.put_id id d
  | CreateSousLecon d => SousLeconsRoutes.post_new d
  | UpdateSousLecon id d => SousLeconsRoutes.put_id id d
  | CreateExercice d => ExercicesRoutes.post_root d
  | UpdateExercice id d => ExercicesRoutes.put_id id d
  | CreateOption d => OptionsQCMRoutes.post_root d
  | CreateOptions d => OptionsQCMRoutes.post_bulk d
  end.

(** The exercise and answer-option handlers, written in one file. *)
Definition exercise_family (r : WriteRequest) : bool :=
  match r with
  | CreateExercice _ | UpdateExercice _ _ | CreateOption _ | CreateOptions _ => true
  | _ => false
  end.

(** The entity the request path names does not exist (updates only: a
    create request names none). *)
Definition path_entity_missing (r : WriteRequest) (st : Store) : bool :=
  match r with
  | UpdateMatiere id _ => negb (has_id Matieres.id id (matieres st))
  | UpdateLecon id _ => negb (has_id Lecons.id id (lecons st))
  | UpdateSousLecon id _ => negb (has_id SousLecons.id id (sousLecons st))
  | UpdateExercice id _ => negb (has_id Exercices.id id (exercices st))
  | _ => false
  end.

(** A parent row a payload refers to. *)
Inductive Ref : Type :=
| RefClasse (i : string)
| RefMatiere (i : string)
| RefLecon (i : string)
| RefSousLecon (i : string)
| RefExercice (i : string).

Definition resolves (st : Store) (x : Ref) : bool :=
  match x with
  | RefClasse i => has_id Classes.id i (classes st)
  | RefMatiere i => has_id Matieres.id i (matieres st)
  | RefLecon i => has_id Lecons.id i (lecons st)
  | RefSousLecon i => has_id SousLecons.id i (sousLecons st)
  | RefExercice i => has_id Exercices.id i (exercices st)
  end.

Definition ref_of (mk : string -> Ref) (o : option string) : list Ref :=
  match given1 o with
  | Some i => [mk i]
  | None => []
  end.

(** The non-empty parent identifiers the payload carries. *)
Definition references (r : WriteRequest) : list Ref :=
  match r with
  | CreateMatiere d => ref_of RefClasse (Some (MatieresRoutes.create_classesId d))
  | UpdateMatiere _ d => ref_of RefClasse (MatieresRoutes.update_classesId d)
  | CreateLecon d => ref_of RefMatiere (Some (LeconsRoutes.create_matieresId d))
  | UpdateLecon _ d => ref_of RefMatiere (LeconsRoutes.update_matieresId d)
  | CreateSousLecon d => ref_of RefLecon (Some (SousLeconsRoutes.create_leconsId d))
  | UpdateSousLecon _ d => ref_of RefLecon (SousLeconsRoutes.update_leconsId d)
  | CreateExercice d =>
      ref_of RefMatiere (Some (ExercicesRoutes.create_matieresId d))
      ++ ref_of RefSousLecon (ExercicesRoutes.create_sousLeconsId d)
      ++ ref_of RefLecon (ExercicesRoutes.create_leconId d)
  | UpdateExercice _ d =>
      ref_of RefMatiere (ExercicesRoutes.update_matieresId d)
      ++ ref_of RefSousLecon (given (ExercicesRoutes.update_sousLeconsId d))
      ++ ref_of RefLecon (given (ExercicesRoutes.update_leconId d))
  | CreateOption d => ref_of RefExercice (Some (OptionsQCMRoutes.create_exercicesId d))
  | CreateOptions d => ref_of RefExercice (Some (OptionsQCMRoutes.bulk_exercicesId d))
  end%list.

(** Some referenced parent does not exist. *)
Definition dangling (r : WriteRequest) (st : Store) : bool :=
  existsb (fun x => negb (resolves st x)) (references r).

(** Referential integrity of the stored lessons and sub-lessons, as the
    foreign keys of the migration keep it. *)
Definition parents_resolve (st : Store) : bool :=
  forallb (fun l => has_id Matieres.id (Lecons.matieresId l) (matieres st)) (lecons st)
  && forallb (fun s => has_id Lecons.id (SousLecons.leconsId s) (lecons st))
             (sousLecons st).

(** §4.2 as stated: a dangling reference is answered 400, and 404 is kept
    for a missing path entity. *)
Definition reference_contract (r : WriteRequest) (w : World) : Prop :=
  (path_entity_missing r (db w) = false -> dangling r (db w) = true ->
   status (fst (serve (write_endpoint r) w)) = 400)
  /\ (status (fst (serve (write_endpoint r) w)) = 404 ->
      path_entity_missing r (db w) = true).

(** ** The update endpoints of the resources with a scoped name *)

Inductive RenameRequest : Type :=
| RenameClasse (id : string) (d : ClassesRoutes.updateClasse)
    (* PUT /classes/:id *)
| RenameClasse2 (id : string) (d : ClassesRoutes.updateClasse)
    (* PUT /classes/:id/update *)
| RenameMatiere (id : string) (d : MatieresRoutes.updateMatiere)
    (* PUT /matieres/:id *)
| RenameLecon (id : string) (d : LeconsRoutes.updateLecon)
    (* PUT /lecons/lecons/:id *)
| RenameSousLecon (id : string) (d : SousLeconsRoutes.updateSousLecon).
    (* PUT /souslecons/:id *)

Definition rename_endpoint (r : RenameRequest) : M Response :=
  match r with
  | RenameClasse id d => ClassesRoutes.put_id id d
  | RenameClasse2 id d => ClassesRoutes2.put_id_update id d
  | RenameMatiere id d => MatieresRoutes.put_id id d
  | RenameLecon id d => LeconsRoutes.put_id id d
  | RenameSousLecon id d => SousLeconsRoutes.put_id id d
  end.

Definition target (r : RenameRequest) : string :=
  match r with
  | RenameClasse id _ | RenameClasse2 id _ | RenameMatiere id _
  | RenameLecon id _ | RenameSousLecon id _ => id
  end.

(** The name the payload asks for. *)
Definition requested_nom (r : RenameRequest) : option string :=
  match r with
  | RenameClasse _ d | RenameClasse2 _ d => ClassesRoutes.update_nom d
  | RenameMatiere _ d => MatieresRoutes.update_nom d
  | RenameLecon _ d => LeconsRoutes.update_nom d
  | RenameSousLecon _ d => SousLeconsRoutes.update_nom d
  end.

(** The parent the payload asks for, if any. *)
Definition requested_parent (r : RenameRequest) : option string :=
  match r with
  | RenameClasse _ _ | RenameClasse2 _ _ => None
  | RenameMatiere _ d => MatieresRoutes.update_classesId d
  | RenameLecon _ d => LeconsRoutes.update_matieresId d
  | RenameSousLecon _ d => SousLeconsRoutes.update_leconsId d
  end.

(** Name and parent of the stored record; a class has no parent, which
    reads as the one scope [""]. *)
Definition stored (r : RenameRequest) (st : Store) : option (string * string) :=
  match r with
  | RenameClasse id _ | RenameClasse2 id _ =>
      option_map (fun c => (Classes.nom c, "")) (find_id Classes.id id (classes st))
  | RenameMatiere id _ =>
      option_map (fun m => (Matieres.nom m, Matieres.classesId m))
                 (find_id Matieres.id id (matieres st))
  | RenameLecon id _ =>
      option_map (fun l => (Lecons.nom l, Lecons.matieresId l))
                 (find_id Lecons.id id (lecons st))
  | RenameSousLecon id _ =>
      option_map (fun s => (SousLecons.nom s, SousLecons.leconsId s))
                 (find_id SousLecons.id id (sousLecons st))
  end.

(** The update endpoints whose duplicate lookup carries
    [mode: "insensitive"]: all of them but PUT /matieres/:id, which
    compares [nom] exactly. *)
Definition lookup_with_mode (r : RenameRequest) : bool :=
  match r with
  | RenameMatiere _ _ => false
  | _ => true
  end.

(** ** Login and registration *)

(** The one refusal of POST /users/login. *)
Definition invalid_credentials : Response :=
  mkResponse 400 (ExercicesRoutes.error "Email ou mot de passe incorrect").

(** The token a successful login of [u] carries at time [date_now]. *)
Definition login_token (w : World) (u : User.t) : string :=
  sign (env w)
       (mkPayload (User.id u) (User.email u) (UserRoutes.expiry (clock w)))
       (JWT_SECRET (env w)).

Definition hours72_ms : Z := 72 * 60 * 60 * 1000.

(** ** Creating answer options *)

Inductive OptionRequest : Type :=
| OneOption (d : OptionsQCMRoutes.createOptionQCM)   (* POST /options-qcm *)
| ManyOptions (d : OptionsQCMRoutes.bulk).           (* POST /options-qcm/bulk *)

Definition option_endpoint (r : OptionRequest) : M Response :=
  match r with
  | OneOption d => OptionsQCMRoutes.post_root d
  | ManyOptions d => OptionsQCMRoutes.post_bulk d
  end.

(** The exercise the options are meant for. *)
Definition option_exercice (r : OptionRequest) : string :=
  match r with
  | OneOption d => OptionsQCMRoutes.create_exercicesId d
  | ManyOptions d => OptionsQCMRoutes.bulk_exercicesId d
  end.

(** ** Every handler of the embedding but POST /classes/new *)

Inductive Request : Type :=
| List (r : ListRequest)
| ListClassesFirst (q : ClassesRoutes.query)          (* GET /classes, first revision *)
| CreateClasse (d : ClassesRoutes.createClasse)       (* POST /classes *)
| Write (r : WriteRequest)
| Rename (r : RenameRequest)
| Delete (g : GuardedDelete) (id : string)
| DeleteExercice (id : string)                        (* DELETE /exercices/:id *)
| Register (d : UserRoutes.register)                  (* POST /users/register *)
| Login (d : UserRoutes.login).                       (* POST /users/login *)

Definition endpoint (r : Request) : M Response :=
  match r with
  | List r => list_endpoint r
  | ListClassesFirst q => ClassesRoutes.get_root q
  | CreateClasse d => ClassesRoutes.post_root d
  | Write r => write_endpoint r
  | Rename r => rename_endpoint r
  | Delete g id => delete_endpoint g id
  | DeleteExercice id => ExercicesRoutes.delete_id id
  | Register d => UserRoutes.post_register d
  | Login d => UserRoutes.post_login d
  end.

(** [undisturbed l l']: the schedule [l'] is what is left of [l] after
    storage calls that all went through. *)
Inductive undisturbed : list bool -> list bool -> Prop :=
| undisturbed_here (l : list bool) : undisturbed l l
| undisturbed_next (l l' : list bool) :
    hd false l = false -> undisturbed (tl l) l' -> undisturbed l l'.

(** A computation that returns only if none of its storage calls failed. *)
Definition returns_undisturbed {A} (m : M A) : Prop :=
  forall w, match m w with
            | (Ok _, w') => undisturbed (faults w) (faults w')
            | (Throw _, _) => True
            end.

(** A handler that answers 500 unless no storage call failed. *)
Definition failure_is_500 (h : M Response) : Prop :=
  forall w, status (fst (serve h w)) = 500
            \/ undisturbed (faults w) (faults (snd (serve h w))).
(** ** A small school, for the concrete cases *)

Module Sample.

(** A platform with transparent stand-ins for the library primitives. *)
Definition platform : Env :=
  mkEnv "s3cr3t"
        (fun n => "cnew00000" ++ show_nat n)
        (fun bytes => bytes)
        (fun p secret => userId p ++ ":" ++ payload_email p ++ ":" ++ secret).

Definition t0 : Z := 1700000000000.

Definition cm2 : Classes.t := Classes.mk "cclasse001" "CM2" t0 t0.
Definition ce1 : Classes.t := Classes.mk "cclasse002" "CE1" t0 t0.

Definition math : Matieres.t :=
  Matieres.mk "cmatiere01" "Math" None "cclasse001" None None t0 t0.
Definition histoire : Matieres.t :=
  Matieres.mk "cmatiere02" "Histoire" None "cclasse001" None None t0 t0.

Definition fractions : Lecons.t :=
  Lecons.mk "clecon0001" "Fractions" None "cmatiere01" t0 t0.
Definition decimaux : Lecons.t :=
  Lecons.mk "clecon0002" "Decimaux" None "cmatiere01" t0 t0.

Definition addition : SousLecons.t :=
  SousLecons.mk "csouslec01" "Addition" None "clecon0001" t0 t0.
Definition produit : SousLecons.t :=
  SousLecons.mk "csouslec02" "Produit" None "clecon0001" t0 t0.

Definition quiz : Exercices.t :=
  Exercices.mk "cexercice1" "Quiz" None "cmatiere01" (Some "csouslec01")
               (Some "clecon0001") QCM t0 t0.
Definition calcul : Exercices.t :=
  Exercices.mk "cexercice2" "Calcul" None "cmatiere01" None None Numerique t0 t0.

Definition choix : OptionsQCM.t :=
  OptionsQCM.mk "coption001" "1/2" None "cexercice1" (Some 1%Z) true false t0 t0.

Definition alice_password : string := "secret1".

Definition alice_hash : string :=
  Eval vm_compute in sha256_hex platform alice_password.

Definition alice : User.t :=
  User.mk "cuser00001" "alice@studly.app" (Some "Martin") (Some "Alice")
          alice_hash
          None None ELEVE t0 t0 (Some "cclasse001").

Definition school : Store :=
  mkStore [alice] [cm2; ce1] [math; histoire] [fractions; decimaux]
          [addition; produit] [quiz; calcul] [choix] [] [] [].

Definition world : World := mkWorld school [] 1700000123456 0 platform.

(** The same school while the storage layer fails on the next call. *)
Definition outage : World := mkWorld school [true] 1700000123456 0 platform.

End Sample.
(** ** The endpoints that name one record in their path *)

Inductive Addressed : Type :=
| ReadClasse (q : ClassesRoutes.query)              (* GET /classes/:id *)
| ReadClasse2 (q : ClassesRoutes.query)             (* GET /classes/:id, second revision *)
| ReadMatiere (q : MatieresRoutes.query)            (* GET /matieres/:id *)
| ReadLecon (q : LeconsRoutes.query)                (* GET /lecons/:id *)
| ReadSousLecon (q : SousLeconsRoutes.query)        (* GET /souslecons/:id *)
| ReadExercice (includeOptions : option string)     (* GET /exercices/:id *)
| ReadOption                                        (* GET /options-qcm/:id *)
| ReadUser                                          (* GET /users/:id *)
| MatieresOfClasse (q : ClassesRoutes.query)        (* GET /classes/:id/matieres *)
| LeconsOfMatiere                                   (* GET /matieres/:id/lecons *)
| ExercicesOfMatiere                                (* GET /matieres/:id/exercices *)
| SousLeconsOfLecon (q : LeconsRoutes.query)        (* GET /lecons/lecons/:id/souslecons *)
| ExercicesOfLecon (q : LeconsRoutes.query)         (* GET /lecons/:id/exercices *)
| LeconsByMatiere (q : LeconsRoutes.query)          (* GET /lecons/matieres/:matieresId/lecons *)
| ExercicesOfSousLecon (q : SousLeconsRoutes.query) (* GET /souslecons/:id/exercices *)
| SousLeconsByLecon (q : SousLeconsRoutes.query)    (* GET /souslecons/lecons/:leconsId/souslecons *)
| OptionsOfExercice                                 (* GET /options-qcm/exercice/:exerciceId *)
| WriteClasse (d : ClassesRoutes.updateClasse)      (* PUT /classes/:id *)
| WriteClasse2 (d : ClassesRoutes.updateClasse)     (* PUT /classes/:id/update *)
| WriteMatiere (d : MatieresRoutes.updateMatiere)   (* PUT /matieres/:id *)
| WriteLecon (d : LeconsRoutes.updateLecon)         (* PUT /lecons/lecons/:id *)
| WriteSousLecon (d : SousLeconsRoutes.updateSousLecon) (* PUT /souslecons/:id *)
| WriteExercice (d : ExercicesRoutes.updateExercice)    (* PUT /exercices/:id *)
| WriteOption (d : OptionsQCMItems.updateOptionQCM)     (* PUT /options-qcm/:id *)
| WriteUser (d : UserAccounts.updateUser)           (* PUT /users/:id *)
| SelectOption (isSelected : bool)                  (* PATCH /options-qcm/:id/select *)
| Remove (g : GuardedDelete)                        (* the five guarded deletes *)
| RemoveExercice                                    (* DELETE /exercices/:id *)
| RemoveOption                                      (* DELETE /options-qcm/:id *)
| RemoveUser.                                       (* DELETE /users/:id *)

Definition addressed_endpoint (r : Addressed) (id : string) : M Response :=
  match r with
  | ReadClasse q => ClassesReads.get_id id q
  | ReadClasse2 q => ClassesReads.get_id2 id q
  | ReadMatiere q => MatieresReads.get_id id q
  | ReadLecon q => LeconsReads.get_id id q
  | ReadSousLecon q => SousLeconsReads.get_id id q
  | ReadExercice o => ExercicesReads.get_id id o
  | ReadOption => OptionsQCMItems.get_id id
  | ReadUser => UserAccounts.get_id id
  | MatieresOfClasse q => ClassesRoutes.get_id_matieres id q
  | LeconsOfMatiere => MatieresReads.get_id_lecons id
  | ExercicesOfMatiere => MatieresReads.get_id_exercices id
  | SousLeconsOfLecon q => LeconsRoutes.get_id_souslecons id q
  | ExercicesOfLecon q => LeconsRoutes.get_id_exercices id q
  | LeconsByMatiere q => LeconsRoutes.get_matieres_lecons id q
  | ExercicesOfSousLecon q => SousLeconsRoutes.get_id_exercices id q
  | SousLeconsByLecon q => SousLeconsRoutes.get_lecons_souslecons id q
  | OptionsOfExercice => OptionsQCMItems.get_exercice id
  | WriteClasse d => ClassesRoutes.put_id id d
  | WriteClasse2 d => ClassesRoutes2.put_id_update id d
  | WriteMatiere d => MatieresRoutes.put_id id d
  | WriteLecon d => LeconsRoutes.put_id id d
  | WriteSousLecon d => SousLeconsRoutes.put_id id d
  | WriteExercice d => ExercicesRoutes.put_id id d
  | WriteOption d => OptionsQCMItems.put_id id d
  | WriteUser d => UserAccounts.put_id id d
  | SelectOption b => OptionsQCMItems.patch_select id b
  | Remove g => delete_endpoint g id
  | RemoveExercice => ExercicesRoutes.delete_id id
  | RemoveOption => OptionsQCMItems.delete_id id
  | RemoveUser => UserAccounts.delete_id id
  end.

(** The record the path names is in its table. *)
Definition present (r : Addressed) (id : string) (st : Store) : bool :=
  match r with
  | ReadClasse _ | ReadClasse2 _ | MatieresOfClasse _ | WriteClasse _ | WriteClasse2 _
  | Remove DeleteClasse | Remove DeleteClasse2 =>
      has_id Classes.id id (classes st)
  | ReadMatiere _ | LeconsOfMatiere | ExercicesOfMatiere | LeconsByMatiere _
  | WriteMatiere _ | Remove DeleteMatiere =>
      has_id Matieres.id id (matieres st)
  | ReadLecon _ | SousLeconsOfLecon _ | ExercicesOfLecon _ | SousLeconsByLecon _
  | WriteLecon _ | Remove DeleteLecon =>
      has_id Lecons.id id (lecons st)
  | ReadSousLecon _ | ExercicesOfSousLecon _ | WriteSousLecon _
  | Remove DeleteSousLecon =>
      has_id SousLecons.id id (sousLecons st)
  | ReadExercice _ | OptionsOfExercice | WriteExercice _ | RemoveExercice =>
      has_id Exercices.id id (exercices st)
  | ReadOption | WriteOption _ | SelectOption _ | RemoveOption =>
      has_id OptionsQCM.id id (optionsQCM st)
  | ReadUser | WriteUser _ | RemoveUser =>
      has_id User.id id (users st)
  end.

(** The [include] of the request names relations the data model has (the
    one that does not is "utilisateurs" on GET /lecons/:id). *)
Definition include_accepted (r : Addressed) : bool :=
  match r with
  | ReadLecon q => negb (Include.asks (LeconsRoutes.include q) "utilisateurs")
  | _ => true
  end.

(** The status that answers a record that is not there. *)
Definition status_if_missing (r : Addressed) : nat :=
  match r with
  | WriteClasse2 _ => 500
  | _ => 404
  end.

(** The delete endpoints among them. *)
Definition is_delete (r : Addressed) : bool :=
  match r with
  | Remove _ | RemoveExercice | RemoveOption | RemoveUser => true
  | _ => false
  end.
(** ** Creating a class, a subject, a lesson or a sub-lesson *)

Inductive CreateRequest : Type :=
| NewClasse (d : ClassesRoutes.createClasse)          (* POST /classes *)
| NewClasse2 (d : ClassesRoutes.createClasse)         (* POST /classes/new *)
| NewMatiere (d : MatieresRoutes.createMatiere)       (* POST /matieres *)
| NewLecon (d : LeconsRoutes.createLecon)             (* POST /lecons/new *)
| NewSousLecon (d : SousLeconsRoutes.createSousLecon). (* POST /souslecons/new *)

Definition create_endpoint (r : CreateRequest) : M Response :=
  match r with
  | NewClasse d => ClassesRoutes.post_root d
  | NewClasse2 d => ClassesRoutes2.post_new d
  | NewMatiere d => MatieresRoutes.post_root d
  | NewLecon d => LeconsRoutes.post_new d
  | NewSousLecon d => SousLeconsRoutes.post_new d
  end.

(** The store once the request has been served with 201: the new row at
    the end of its table, with the next identifier of the generator and the
    time of the request. *)
Definition after_create (r : CreateRequest) (w : World) : Store :=
  let i := cuid (env w) (drawn w) in
  let t := clock w in
  let st := db w in
  match r with
  | NewClasse d | NewClasse2 d =>
      DB.set_classes (classes st ++ [Classes.mk i (ClassesRoutes.create_nom d) t t]) st
  | NewMatiere d =>
      DB.set_matieres (matieres st ++ [new_matiere d w]) st
  | NewLecon d =>
      DB.set_lecons
        (lecons st ++ [Lecons.mk i (LeconsRoutes.create_nom d)
                                 (LeconsRoutes.create_description d)
                                 (LeconsRoutes.create_matieresId d) t t]) st
  | NewSousLecon d =>
      DB.set_sousLecons
        (sousLecons st ++ [SousLecons.mk i (SousLeconsRoutes.create_nom d)
                                         (SousLeconsRoutes.create_description d)
                                         (SousLeconsRoutes.create_leconsId d) t t]) st
  end.

(** The new row as GET /:id returns it when no [include] is asked for. *)
Definition created (r : CreateRequest) (w : World) : Json :=
  let i := cuid (env w) (drawn w) in
  let t := clock w in
  match r with
  | NewClasse d | NewClasse2 d =>
      Classes.to_json (Classes.mk i (ClassesRoutes.create_nom d) t t)
  | NewMatiere d => Matieres.to_json (new_matiere d w)
  | NewLecon d =>
      Lecons.to_json (Lecons.mk i (LeconsRoutes.create_nom d)
                                (LeconsRoutes.create_description d)
                                (LeconsRoutes.create_matieresId d) t t)
  | NewSousLecon d =>
      SousLecons.to_json (SousLecons.mk i (SousLeconsRoutes.create_nom d)
                                        (SousLeconsRoutes.create_description d)
                                        (SousLeconsRoutes.create_leconsId d) t t)
  end.

(** GET /:id of the same resource, without query parameters (the defaults
    of each querySchema). *)
Definition read_back (r : CreateRequest) (id : string) : M Response :=
  match r with
  | NewClasse _ =>
      ClassesReads.get_id id (ClassesRoutes.Build_query None 50 0 None)
  | NewClasse2 _ =>
      ClassesReads.get_id2 id (ClassesRoutes.Build_query None 50 0 None)
  | NewMatiere _ =>
      MatieresReads.get_id id (MatieresRoutes.Build_query None None None None)
  | NewLecon _ =>
      LeconsReads.get_id id
        (LeconsRoutes.Build_query None 50 0 None None by_createdAt desc)
  | NewSousLecon _ =>
      SousLeconsReads.get_id id
        (SousLeconsRoutes.Build_query None 50 0 None None by_createdAt asc)
  end.

(** The parent the payload names exists. *)
Definition parent_exists (r : CreateRequest) (st : Store) : bool :=
  match r with
  | NewClasse _ | NewClasse2 _ => true
  | NewMatiere d => has_id Classes.id (MatieresRoutes.create_classesId d) (classes st)
  | NewLecon d => has_id Matieres.id (LeconsRoutes.create_matieresId d) (matieres st)
  | NewSousLecon d => has_id Lecons.id (SousLeconsRoutes.create_leconsId d) (lecons st)
  end.

(** The next identifier of the generator is not in use in the table. *)
Definition fresh_id (r : CreateRequest) (w : World) : bool :=
  let i := cuid (env w) (drawn w) in
  negb match r with
       | NewClasse _ | NewClasse2 _ => has_id Classes.id i (classes (db w))
       | NewMatiere _ => has_id Matieres.id i (matieres (db w))
       | NewLecon _ => has_id Lecons.id i (lecons (db w))
       | NewSousLecon _ => has_id SousLecons.id i (sousLecons (db w))
       end.

(** The create endpoints whose duplicate lookup carries
    [mode: "insensitive"]; POST /classes/new and POST /matieres compare
    [nom] exactly. *)
Definition create_with_mode (r : CreateRequest) : bool :=
  match r with
  | NewClasse _ | NewLecon _ | NewSousLecon _ => true
  | NewClasse2 _ | NewMatiere _ => false
  end.
(** ** Every handler of the embedding *)

Inductive AnyRequest : Type :=
| Settled (r : Request)                             (* the handlers listed above *)
| ById (r : Addressed) (id : string)
| ProfileMe                                         (* GET /users/profile/me *)
| ChangePassword (d : UserAccounts.changePassword)  (* PUT /users/profile/change-password *)
| Logout.                                           (* POST /users/logout *)

Definition any_endpoint (r : AnyRequest) : M Response :=
  match r with
  | Settled r => endpoint r
  | ById r id => addressed_endpoint r id
  | ProfileMe => UserAccounts.get_profile_me
  | ChangePassword d => UserAccounts.put_change_password d
  | Logout => UserAccounts.post_logout
  end.
(** ** Exercises *)

(** An optional parent, when the payload gives one, exists. *)
Definition exists_if_given {R} (key : R -> string) (o : option string) (t : list R)
  : bool :=
  match o with
  | Some i => has_id key i t
  | None => true
  end.

(** The subject, and the sub-lesson and lesson if any, of the payload of
    POST /exercices exist. *)
Definition create_parents_exist (data : ExercicesRoutes.createExercice) (st : Store)
  : bool :=
  has_id Matieres.id (ExercicesRoutes.create_matieresId data) (matieres st)
  && exists_if_given SousLecons.id (given1 (ExercicesRoutes.create_sousLeconsId data))
                     (sousLecons st)
  && exists_if_given Lecons.id (given1 (ExercicesRoutes.create_leconId data))
                     (lecons st).

(** The same for the payload of PUT /exercices/:id. *)
Definition update_parents_exist (data : ExercicesRoutes.updateExercice) (st : Store)
  : bool :=
  exists_if_given Matieres.id (given1 (ExercicesRoutes.update_matieresId data))
                  (matieres st)
  && exists_if_given SousLecons.id (given (ExercicesRoutes.update_sousLeconsId data))
                     (sousLecons st)
  && exists_if_given Lecons.id (given (ExercicesRoutes.update_leconId data))
                     (lecons st).
(** ** Password digests in hexadecimal *)

Fixpoint all_chars (p : ascii -> bool) (s : string) : bool :=
  match s with
  | EmptyString => true
  | String c r => p c && all_chars p r
  end.

(** A digit or a letter from [a] to [f]. *)
Definition is_hex_lower (c : ascii) : bool :=
  let n := nat_of_ascii c in
  ((48 <=? n) && (n <=? 57) || (97 <=? n) && (n <=? 102))%nat.

(** The value of a hexadecimal digit. *)
Definition hex_value (c : ascii) : nat :=
  let n := nat_of_ascii c in
  if (n <=? 57)%nat then n - 48 else n - 87.

(** Reading the two-digit strings of a digest back into bytes. *)
Fixpoint bytes_of_hex (s : string) : list nat :=
  match s with
  | String hi (String lo r) => (16 * hex_value hi + hex_value lo) :: bytes_of_hex r
  | _ => []
  end.
(** ** Relations a computation keeps between the database before and after *)

Definition keeps (R : Store -> Store -> Prop) {A} (m : M A) : Prop :=
  forall w, R (db w) (db (snd (m w))).

(** The same for one storage operation. *)
Definition op_keeps (R : Store -> Store -> Prop) {A} (q : Op A) : Prop :=
  forall st, R st (snd (q st)).

(** The relations in question hold of a database and itself, and chain. *)
Definition stable (R : Store -> Store -> Prop) : Prop :=
  (forall st, R st st) /\ (forall a b c, R a b -> R b c -> R a c).

(** The database is the same after as before. *)
Definition unchanged (before after : Store) : Prop := after = before.

(** The same, from a given database. *)
Definition keeps_at (R : Store -> Store -> Prop) (st : Store) {A} (m : M A) : Prop :=
  forall w, db w = st -> R st (db (snd (m w))).
(** ** Moving a record to another parent *)

(** The parent the payload names exists. *)
Definition new_parent_exists (r : RenameRequest) (p : string) (st : Store) : bool :=
  match r with
  | RenameClasse _ _ | RenameClasse2 _ _ => true
  | RenameMatiere _ _ => has_id Classes.id p (classes st)
  | RenameLecon _ _ => has_id Matieres.id p (matieres st)
  | RenameSousLecon _ _ => has_id Lecons.id p (lecons st)
  end.
(** ** Answer options *)

(** What selecting the option [id] may not touch: every column of another
    option, and every column of this one but [isSelected] and
    [updatedAt]. *)
Definition beside_selection (id : string) (o : OptionsQCM.t)
  : string * string * option string * string * option Z * bool * Z
    * option (bool * Z) :=
  (OptionsQCM.id o, OptionsQCM.nom o, OptionsQCM.description o,
   OptionsQCM.exercicesId o, OptionsQCM.points o, OptionsQCM.isCorrect o,
   OptionsQCM.createdAt o,
   if OptionsQCM.id o =? id then None
   else Some (OptionsQCM.isSelected o, OptionsQCM.updatedAt o)).

Definition selection_blind (id : string) (st : Store)
  : list (string * string * option string * string * option Z * bool * Z
          * option (bool * Z)) * Store :=
  (map (beside_selection id) (optionsQCM st), DB.set_optionsQCM [] st).

Definition same_but_selection (id : string) (before after : Store) : Prop :=
  selection_blind id after = selection_blind id before.

(** The row POST /options-qcm writes. *)
Definition new_option (data : OptionsQCMRoutes.createOptionQCM) (w : World)
  : OptionsQCM.t :=
  OptionsQCM.mk (cuid (env w) (drawn w))
                (OptionsQCMRoutes.create_nom data)
                (OptionsQCMRoutes.create_description data)
                (OptionsQCMRoutes.create_exercicesId data)
                (OptionsQCMRoutes.create_points data)
                (OptionsQCMRoutes.create_isCorrect data)
                (OptionsQCMRoutes.create_isSelected data)
                (clock w) (clock w).

(** The rows POST /options-qcm/bulk writes: one per entry of the payload,
    in order, with the next identifiers of the generator. *)
Definition new_options (data : OptionsQCMRoutes.bulk) (w : World) : list OptionsQCM.t :=
  map (OptionsQCMRoutes.bulk_row (OptionsQCMRoutes.bulk_exercicesId data) (clock w))
      (combine (map (cuid (env w))
                    (seq (drawn w) (length (OptionsQCMRoutes.options data))))
               (OptionsQCMRoutes.options data)).
(** ** The answers of the user endpoints *)

(** A field called [k], at any depth of a JSON value. *)
Fixpoint mentions (k : string) (j : Json) : bool :=
  match j with
  | JArr l => existsb (mentions k) l
  | JObj fs =>
      (fix fields (fs : list (string * Json)) : bool :=
         match fs with
         | [] => false
         | (k', v) :: r => (k' =? k) || mentions k v || fields r
         end) fs
  | _ => false
  end.

(** The requests of utilisateurs.ts. *)
Inductive UserRequest : Type :=
| URegister (data : UserRoutes.register)                 (* POST /users/register *)
| ULogin (data : UserRoutes.login)                       (* POST /users/login *)
| UList (q : UserRoutes.query)                           (* GET /users *)
| URead (id : string)                                    (* GET /users/:id *)
| UUpdate (id : string) (data : UserAccounts.updateUser) (* PUT /users/:id *)
| UDelete (id : string)                                  (* DELETE /users/:id *)
| UProfile                                               (* GET /users/profile/me *)
| UChangePassword (data : UserAccounts.changePassword)
| ULogout.                                               (* POST /users/logout *)

Definition user_endpoint (r : UserRequest) : M Response :=
  match r with
  | URegister data => UserRoutes.post_register data
  | ULogin data => UserRoutes.post_login data
  | UList q => UserRoutes.get_root q
  | URead id => UserAccounts.get_id id
  | UUpdate id data => UserAccounts.put_id id data
  | UDelete id => UserAccounts.delete_id id
  | UProfile => UserAccounts.get_profile_me
  | UChangePassword data => UserAccounts.put_change_password data
  | ULogout => UserAccounts.post_logout
  end.

(** What every answer of a handler satisfies, and what every value of a
    step does. *)
Definition answers_with (P : Json -> Prop) (m : M Response) : Prop :=
  forall w r w', m w = (Ok r, w') -> P (body r).

Definition produces {A} (Q : A -> Prop) (m : M A) : Prop :=
  forall w a w', m w = (Ok a, w') -> Q a.
(** ** User accounts *)

(** The user has rows in one of the two progress tables. *)
Definition has_progress (id : string) (st : Store) : bool :=
  existsb (fun x => LeconsUtilisateur.userId x =? id) (leconsUtilisateur st)
  || existsb (fun x => ReponsesUtilisateur.userId x =? id) (reponsesUtilisateur st).

(** What a login may not touch: every column of a user but
    [derniereConnexion] and [updatedAt]. *)
Definition identity_of (u : User.t)
  : string * string * option string * option string * string * option string
    * TypesUtilisateur * Z * option string :=
  (User.id u, User.email u, User.nom u, User.prenom u, User.password u,
   User.dataInscription u, User.typesUtilisateur u, User.createdAt u,
   User.classesId u).

(** The store, the table of users apart. *)
Definition beside_users (st : Store) : Store := DB.set_users [] st.

(** The store with the dates of the last login removed. *)
Definition login_blind (st : Store)
  : list (string * string * option string * option string * string * option string
          * TypesUtilisateur * Z * option string) * Store :=
  (map identity_of (users st), beside_users st).

(** The payload of PUT /users/:id asks for no email that another user
    holds. *)
Definition email_available (data : UserAccounts.updateUser) (u : User.t) (st : Store)
  : bool :=
  match given1 (UserAccounts.update_email data) with
  | Some e => (e =? User.email u)
              || negb (existsb (fun x => User.email x =? e) (users st))
  | None => true
  end.

(** Two databases that differ at most in the dates of the last logins. *)
Definition same_but_logins (before after : Store) : Prop :=
  login_blind after = login_blind before.
(** ** The same school a term later, for the concrete cases *)

Module Campus.

Import Sample.

(** Bob has started a lesson and given an answer. *)
Definition bob : User.t :=
  User.mk "cuser00002" "bob@studly.app" (Some "Durand") (Some "Bob")
          alice_hash None None ELEVE t0 t0 None.

Definition bob_fractions : LeconsUtilisateur.t :=
  LeconsUtilisateur.mk "cprogres01" "clecon0001" "cuser00002" t0 t0.

Definition un_demi : Reponses.t :=
  Reponses.mk "creponse01" "1/2" None "cexercice1" t0 t0.

Definition bob_un_demi : ReponsesUtilisateur.t :=
  ReponsesUtilisateur.mk "cdonnee001" "creponse01" "cuser00002" t0 t0.

(** A second lesson called "Fractions", in the subject "Histoire". *)
Definition fractions_histoire : Lecons.t :=
  Lecons.mk "clecon0003" "Fractions" None "cmatiere02" t0 t0.

Definition school : Store :=
  mkStore [alice; bob] [cm2; ce1] [math; histoire]
          [fractions; decimaux; fractions_histoire]
          [addition; produit] [quiz; calcul] [choix]
          [bob_fractions] [un_demi] [bob_un_demi].

Definition world : World := mkWorld school [] 1700000123456 0 platform.

End Campus.
(** * Properties *)

(** ** Facts about tables and pages *)

Section TableFacts.
Variable R : Type.
Variable key : R -> string.

Lemma has_id_find (i : string) (t : list R) :
  has_id key i t = true -> exists r, find_id key i t = Some r /\ key r = i.
Proof.
  unfold has_id, find_id. induction t as [|x t IH]; simpl; [discriminate|].
  destruct (key x =? i) eqn:E.
  - intros _. exists x. split; [reflexivity | now apply String.eqb_eq].
  - simpl. exact IH.
Qed.

Lemma find_id_has (i : string) (t : list R) (r : R) :
  find_id key i t = Some r -> has_id key i t = true.
Proof.
  unfold has_id, find_id. induction t as [|x t IH]; simpl; [discriminate|].
  destruct (key x =? i); simpl; [reflexivity | exact IH].
Qed.

Lemma find_id_key (i : string) (t : list R) (r : R) :
  find_id key i t = Some r -> key r = i /\ In r t.
Proof.
  unfold find_id. intros H. apply find_some in H. destruct H as [Hin Hk].
  split; [now apply String.eqb_eq | exact Hin].
Qed.

Lemma find_id_none (i : string) (t : list R) :
  find_id key i t = None -> has_id key i t = false.
Proof.
  unfold has_id, find_id. induction t as [|x t IH]; simpl; [reflexivity|].
  destruct (key x =? i); simpl; [discriminate | exact IH].
Qed.

Lemma has_id_false_find (i : string) (t : list R) :
  has_id key i t = false -> find_id key i t = None.
Proof.
  intros H. destruct (find_id key i t) eqn:E; [|reflexivity].
  apply find_id_has in E. congruence.
Qed.

Lemma some_matching (p : R -> bool) (l : list R) :
  (0 <? length (filter p l))%nat = existsb p l.
Proof.
  induction l as [|x l IH]; simpl; [reflexivity|].
  destruct (p x); simpl; [reflexivity | exact IH].
Qed.



End TableFacts.

(** ** Facts about handler computations *)

(** The storage layer works for the whole request. *)
Definition healthy (w : World) : Prop := faults w = [].

Lemma prisma_healthy {A} (q : Op A) (d : Store) (c : Z) (n : nat) (e : Env) :
  prisma q (mkWorld d [] c n e)
  = (fst (q d), mkWorld (snd (q d)) [] c n e).
Proof. unfold prisma. simpl. destruct (q d). reflexivity. Qed.

Lemma prisma_read {A} (f : Store -> A) (d : Store) (c : Z) (n : nat) (e : Env) :
  prisma (read f) (mkWorld d [] c n e) = (Ok (f d), mkWorld d [] c n e).
Proof. reflexivity. Qed.

(** When the body throws, the response is the one the [catch] block builds. *)
Lemma try_catch_thrown (body : M Response) (on_error : Exn -> M Response)
    (w w' : World) (e : Exn) :
  body w = (Throw e, w') -> try_catch body on_error w = on_error e w'.
Proof. unfold try_catch. now intros ->. Qed.

Lemma try_catch_returned (body : M Response) (on_error : Exn -> M Response)
    (w w' : World) (r : Response) :
  body w = (Ok r, w') -> try_catch body on_error w = (Ok r, w').
Proof. unfold try_catch. now intros ->. Qed.

(** Stepping through a handler while the storage layer works. *)
Lemma bind_read {A B} (f : Store -> A) (k : A -> M B)
    (st : Store) (c : Z) (n : nat) (e : Env) :
  bind (prisma (read f)) k (mkWorld st [] c n e) = k (f st) (mkWorld st [] c n e).
Proof. reflexivity. Qed.

Lemma bind_write {A B} (q : Op A) (k : A -> M B) (a : A)
    (st st' : Store) (c : Z) (n : nat) (e : Env) :
  q st = (Ok a, st') ->
  bind (prisma q) k (mkWorld st [] c n e) = k a (mkWorld st' [] c n e).
Proof. intros H. unfold bind. now rewrite prisma_healthy, H. Qed.

Lemma bind_refused {A B} (q : Op A) (k : A -> M B) (x : Exn)
    (st st' : Store) (c : Z) (n : nat) (e : Env) :
  q st = (Throw x, st') ->
  bind (prisma q) k (mkWorld st [] c n e) = (Throw x, mkWorld st' [] c n e).
Proof. intros H. unfold bind. now rewrite prisma_healthy, H. Qed.

Lemma bind_now {B} (k : Z -> M B) (w : World) : bind now k w = k (clock w) w.
Proof. reflexivity. Qed.

Lemma bind_ask {B} (k : Env -> M B) (w : World) : bind ask k w = k (env w) w.
Proof. reflexivity. Qed.

Lemma bind_draw {B} (k : string -> M B) (st : Store) (fl : list bool) (c : Z)
    (n : nat) (e : Env) :
  bind draw_cuid k (mkWorld st fl c n e) = k (cuid e n) (mkWorld st fl c (S n) e).
Proof. reflexivity. Qed.

Lemma finally_disconnect {A} (body : M A) (o : Outcome A)
    (st st' : Store) (c : Z) (n n' : nat) (e : Env) :
  body (mkWorld st [] c n e) = (o, mkWorld st' [] c n' e) ->
  finally_ body disconnect (mkWorld st [] c n e) = (o, mkWorld st' [] c n' e).
Proof. unfold finally_. now intros ->. Qed.

Lemma serve_returned (h : M Response) (w w' : World) (r : Response) :
  h w = (Ok r, w') -> serve h w = (r, w').
Proof. unfold serve. now intros ->. Qed.

Lemma serve_status (h : M Response) (w w' : World) (r : Response) (s : nat) :
  h w = (Ok r, w') -> status r = s -> status (fst (serve h w)) = s.
Proof. unfold serve. now intros -> <-. Qed.
(** ** The cascade guard of the delete endpoints: proofs *)

Lemma truthy_nonempty (s : string) : s <> "" -> Str.truthy s = true.
Proof.
  intros H. unfold Str.truthy. destruct (s =? "") eqn:E; [|reflexivity].
  apply String.eqb_eq in E. contradiction.
Qed.

Lemma filter_nil_length {R} (p : R -> bool) (l : list R) :
  length (filter p l) = 0 -> filter p l = [].
Proof. destruct (filter p l); [reflexivity | discriminate]. Qed.

Lemma filter_nil_existsb {R} (p : R -> bool) (l : list R) :
  filter p l = [] -> existsb p l = false.
Proof. intros H. now rewrite <- some_matching, H. Qed.

(** SET NULL touches no row when no row points to the parent. *)
Lemma map_unreferenced {R} (p : R -> bool) (f : R -> R) (l : list R) :
  (forall r, f r = if p r then f r else r) ->
  filter p l = [] -> map f l = l.
Proof.
  intros Hf. induction l as [|x l IH]; simpl; [reflexivity|].
  destruct (p x) eqn:E; [discriminate|].
  intros H. rewrite IH by exact H. rewrite Hf, E. reflexivity.
Qed.

Lemma detach_lecon_unreferenced (id : string) (l : list Exercices.t) :
  filter (fun e => opt_is (Exercices.leconId e) id) l = [] ->
  map (DB.detach_exercice_lecon id) l = l.
Proof.
  apply map_unreferenced. intros r. unfold DB.detach_exercice_lecon.
  now destruct (opt_is (Exercices.leconId r) id).
Qed.

Lemma detach_sousLecon_unreferenced (id : string) (l : list Exercices.t) :
  filter (fun e => opt_is (Exercices.sousLeconsId e) id) l = [] ->
  map (DB.detach_exercice_sousLecon id) l = l.
Proof.
  apply map_unreferenced. intros r. unfold DB.detach_exercice_sousLecon.
  now destruct (opt_is (Exercices.sousLeconsId r) id).
Qed.

Ltac world w := destruct w as [?st ?fl ?clk ?n ?e]; unfold healthy in *; simpl in *; subst.

Lemma has_id_remove_id {T} (key : T -> string) (i : string) (l : list T) :
  has_id key i (remove_id key i l) = false.
Proof.
  unfold has_id, remove_id. induction l as [|x l IH]; cbn; [reflexivity|].
  destruct (key x =? i) eqn:E; cbn; [exact IH | now rewrite E].
Qed.

(** The rows left in a table, seen by identifier. *)
Lemma others_remove_id {T} (key : T -> string) (view : T -> Json) (i : string)
    (l : list T) :
  map (fun x => (key x, view x)) (remove_id key i l)
  = others i (map (fun x => (key x, view x)) l).
Proof.
  unfold others, remove_id. induction l as [|x l IH]; cbn; [reflexivity|].
  destruct (key x =? i); cbn; [exact IH | now rewrite IH].
Qed.

Lemma forget_detached (id : string) (l : list User.t) :
  map forget_classe (map (DB.detach_user_classe id) l) = map forget_classe l.
Proof.
  rewrite map_map. apply map_ext. intros u. unfold DB.detach_user_classe.
  now destruct (opt_is (User.classesId u) id).
Qed.

Lemma classes_of_detached (id : string) (l : list User.t) :
  map User.classesId (map (DB.detach_user_classe id) l)
  = map (fun u => if opt_is (User.classesId u) id then None else User.classesId u) l.
Proof.
  rewrite map_map. apply map_ext. intros u. unfold DB.detach_user_classe.
  now destruct (opt_is (User.classesId u) id).
Qed.

(** The storage layer's own verdict on a delete, once the guard let it
    through. *)
Lemma delete_classes_unreferenced (id : string) (st : Store) (c : Classes.t) :
  find_id Classes.id id (classes st) = Some c ->
  filter (fun m => Matieres.classesId m =? id) (matieres st) = [] ->
  exists st', DB.delete_classes id st = (Ok tt, st')
              /\ removed DeleteClasse id st st'
              /\ removed DeleteClasse2 id st st'.
Proof.
  intros Hc Hm. unfold DB.delete_classes.
  rewrite (find_id_has _ _ _ Hc), (filter_nil_existsb _ _ Hm). cbn [negb].
  eexists. split; [reflexivity|].
  assert (H : removed DeleteClasse id st
                (DB.set_users (map (DB.detach_user_classe id) (users st))
                   (DB.set_classes (remove_id Classes.id id (classes st)) st))).
  { unfold removed, parent_present, parents, beside_parents, classes_of_users.
    cbn [classes users DB.set_users DB.set_classes].
    repeat split.
    - apply has_id_remove_id.
    - apply (others_remove_id Classes.id Classes.to_json).
    - unfold DB.set_users, DB.set_classes. cbn. now rewrite forget_detached.
    - apply classes_of_detached. }
  split; exact H.
Qed.

Lemma delete_matieres_unreferenced (id : string) (st : Store) (m : Matieres.t) :
  find_id Matieres.id id (matieres st) = Some m ->
  filter (fun l => Lecons.matieresId l =? id) (lecons st) = [] ->
  filter (fun e => Exercices.matieresId e =? id) (exercices st) = [] ->
  exists st', DB.delete_matieres id st = (Ok tt, st')
              /\ removed DeleteMatiere id st st'.
Proof.
  intros Hm Hl He. unfold DB.delete_matieres.
  rewrite (find_id_has _ _ _ Hm), (filter_nil_existsb _ _ Hl),
    (filter_nil_existsb _ _ He). cbn [negb orb].
  eexists. split; [reflexivity|].
  unfold removed, parent_present, parents, beside_parents, classes_of_users.
  cbn [matieres users DB.set_matieres]. repeat split.
  - apply has_id_remove_id.
  - apply (others_remove_id Matieres.id Matieres.to_json).
Qed.

Lemma delete_lecons_unreferenced (id : string) (st : Store) (l : Lecons.t) :
  find_id Lecons.id id (lecons st) = Some l ->
  filter (fun s => SousLecons.leconsId s =? id) (sousLecons st) = [] ->
  filter (fun e => opt_is (Exercices.leconId e) id) (exercices st) = [] ->
  filter (fun x => LeconsUtilisateur.leconsId x =? id) (leconsUtilisateur st) = [] ->
  exists st', DB.delete_lecons id st = (Ok tt, st')
              /\ removed DeleteLecon id st st'.
Proof.
  intros Hl Hs He Hu. unfold DB.delete_lecons.
  rewrite (find_id_has _ _ _ Hl), (filter_nil_existsb _ _ Hs),
    (filter_nil_existsb _ _ Hu), (detach_lecon_unreferenced _ _ He). cbn [negb orb].
  eexists. split; [reflexivity|].
  unfold removed, parent_present, parents, beside_parents, classes_of_users.
  cbn [lecons users DB.set_lecons DB.set_exercices]. repeat split.
  - apply has_id_remove_id.
  - apply (others_remove_id Lecons.id Lecons.to_json).
Qed.

Lemma delete_sousLecons_unreferenced (id : string) (st : Store) (s : SousLecons.t) :
  find_id SousLecons.id id (sousLecons st) = Some s ->
  filter (fun e => opt_is (Exercices.sousLeconsId e) id) (exercices st) = [] ->
  exists st', DB.delete_sousLecons id st = (Ok tt, st')
              /\ removed DeleteSousLecon id st st'.
Proof.
  intros Hs He. unfold DB.delete_sousLecons.
  rewrite (find_id_has _ _ _ Hs), (detach_sousLecon_unreferenced _ _ He). cbn [negb].
  eexists. split; [reflexivity|].
  unfold removed, parent_present, parents, beside_parents, classes_of_users.
  cbn [sousLecons users DB.set_sousLecons DB.set_exercices]. repeat split.
  - apply has_id_remove_id.
  - apply (others_remove_id SousLecons.id SousLecons.to_json).
Qed.

Lemma positive_length {R} (l : list R) : 0 < length l -> (0 <? length l)%nat = true.
Proof. intros H. now apply Nat.ltb_lt. Qed.

Lemma sum_zero2 (a b : nat) : a + b = 0 -> a = 0 /\ b = 0.
Proof. lia. Qed.

Lemma some_positive2 (a b : nat) :
  0 < a + b -> ((0 <? a)%nat || (0 <? b)%nat) = true.
Proof.
  intros H. destruct a; simpl; [|reflexivity]. apply Nat.ltb_lt. lia.
Qed.

Lemma some_positive3 (a b c : nat) :
  0 < a + b + c -> ((0 <? a)%nat || (0 <? b)%nat || (0 <? c)%nat) = true.
Proof.
  intros H. destruct a; simpl; [|reflexivity].
  destruct b; simpl; [|reflexivity]. apply Nat.ltb_lt. lia.
Qed.

(** C2.  On every guarded delete endpoint, with the storage layer working,
    an existing parent that still has a child row in a guarded relation is
    answered 400 and the database is left as it was; an existing parent
    with no such child is answered 200, its row is gone from its table,
    every other row of that table is still there, in its place, and the
    rest of the database is as it was (the users of a deleted class stay,
    without a class). *)
Theorem delete_guard (g : GuardedDelete) (id : string) (w : World) :
  healthy w ->
  id <> "" ->
  parent_present g id (db w) = true ->
  (0 < dependents g id (db w) ->
   status (fst (serve (delete_endpoint g id) w)) = 400
   /\ db (snd (serve (delete_endpoint g id) w)) = db w)
  /\ (dependents g id (db w) = 0 ->
      status (fst (serve (delete_endpoint g id) w)) = 200
      /\ removed g id (db w) (db (snd (serve (delete_endpoint g id) w)))).
Proof.
  intros Hw Hid Hp. world w. apply truthy_nonempty in Hid.
  destruct g; simpl in Hp; apply has_id_find in Hp; destruct Hp as [r [Hr _]];
    unfold delete_endpoint, dependents.
  - unfold ClassesRoutes.delete_id, ClassesRoutes.delete_body, serve, finally_,
      try_catch, bind, disconnect.
    rewrite Hid. cbn [negb]. rewrite prisma_read, Hr. split; intros H.
    + rewrite (positive_length _ H). split; reflexivity.
    + pose proof (filter_nil_length _ _ H) as H0. rewrite H. cbn [Nat.ltb Nat.leb].
      destruct (delete_classes_unreferenced _ _ Hr H0) as [st' [Hd [Hrem _]]].
      rewrite prisma_healthy, Hd. split; [reflexivity | exact Hrem].
  - unfold ClassesRoutes2.delete_id_delete, ClassesRoutes.delete_body, serve,
      try_catch, bind.
    rewrite Hid. cbn [negb]. rewrite prisma_read, Hr. split; intros H.
    + rewrite (positive_length _ H). split; reflexivity.
    + pose proof (filter_nil_length _ _ H) as H0. rewrite H. cbn [Nat.ltb Nat.leb].
      destruct (delete_classes_unreferenced _ _ Hr H0) as [st' [Hd [_ Hrem]]].
      rewrite prisma_healthy, Hd. split; [reflexivity | exact Hrem].
  - unfold MatieresRoutes.delete_id, serve, try_catch, bind.
    rewrite prisma_read, Hr. split; intros H.
    + rewrite (some_positive2 _ _ H). split; reflexivity.
    + apply sum_zero2 in H. destruct H as [Hl He].
      pose proof (filter_nil_length _ _ Hl) as Hl0.
      pose proof (filter_nil_length _ _ He) as He0.
      rewrite Hl, He. cbn [Nat.ltb Nat.leb orb].
      destruct (delete_matieres_unreferenced _ _ Hr Hl0 He0) as [st' [Hd Hrem]].
      rewrite prisma_healthy, Hd. split; [reflexivity | exact Hrem].
  - unfold LeconsRoutes.delete_id, serve, try_catch, bind.
    rewrite Hid. cbn [negb]. rewrite prisma_read, Hr. split; intros H.
    + cbv zeta. rewrite (some_positive3 _ _ _ H). split; reflexivity.
    + assert (Hs : length (filter (fun s => SousLecons.leconsId s =? id) (sousLecons st)) = 0)
        by lia.
      assert (He : length (filter (fun e => opt_is (Exercices.leconId e) id) (exercices st)) = 0)
        by lia.
      assert (Hu : length (filter (fun x => LeconsUtilisateur.leconsId x =? id)
                                  (leconsUtilisateur st)) = 0) by lia.
      pose proof (filter_nil_length _ _ Hs) as Hs0.
      pose proof (filter_nil_length _ _ He) as He0.
      pose proof (filter_nil_length _ _ Hu) as Hu0.
      cbv zeta. rewrite Hs, He, Hu. cbn [Nat.ltb Nat.leb orb].
      destruct (delete_lecons_unreferenced _ _ Hr Hs0 He0 Hu0) as [st' [Hd Hrem]].
      rewrite prisma_healthy, Hd. split; [reflexivity | exact Hrem].
  - unfold SousLeconsRoutes.delete_id, serve, try_catch, bind.
    rewrite Hid. cbn [negb]. rewrite prisma_read, Hr. split; intros H.
    + rewrite (positive_length _ H). split; reflexivity.
    + pose proof (filter_nil_length _ _ H) as H0. rewrite H. cbn [Nat.ltb Nat.leb].
      destruct (delete_sousLecons_unreferenced _ _ Hr H0) as [st' [Hd Hrem]].
      rewrite prisma_healthy, Hd. split; [reflexivity | exact Hrem].
Qed.

(** The class CM2 holds two subjects and stays; the class CE1 holds none
    and goes: CM2 is the one class left, Alice is still in CM2, and every
    other table is as it was. *)
Lemma delete_guard_witness :
  (status (fst (serve (delete_endpoint DeleteClasse "cclasse001") Sample.world)) = 400
   /\ db (snd (serve (delete_endpoint DeleteClasse "cclasse001") Sample.world))
      = db Sample.world)
  /\ (status (fst (serve (delete_endpoint DeleteClasse "cclasse002") Sample.world)) = 200
      /\ parent_present DeleteClasse "cclasse002"
           (db (snd (serve (delete_endpoint DeleteClasse "cclasse002") Sample.world)))
         = false
      /\ parents DeleteClasse
           (db (snd (serve (delete_endpoint DeleteClasse "cclasse002") Sample.world)))
         = [("cclasse001", Classes.to_json Sample.cm2)]
      /\ beside_parents DeleteClasse
           (db (snd (serve (delete_endpoint DeleteClasse "cclasse002") Sample.world)))
         = beside_parents DeleteClasse Sample.school
      /\ map User.classesId
           (users (db (snd (serve (delete_endpoint DeleteClasse "cclasse002")
                                  Sample.world))))
         = [Some "cclasse001"]).
Proof.
  split.
  - refine (proj1 (@delete_guard DeleteClasse "cclasse001" Sample.world _ _ _) _).
    + reflexivity.
    + discriminate.
    + reflexivity.
    + vm_compute. repeat constructor.
  - refine (proj2 (@delete_guard DeleteClasse "cclasse002" Sample.world _ _ _) _).
    + reflexivity.
    + discriminate.
    + reflexivity.
    + reflexivity.
Defined.
(** ** Names that differ only in letter case *)

Lemma find_present {R} (p : R -> bool) (l : list R) (x : R) :
  In x l -> p x = true -> exists y, find p l = Some y.
Proof.
  intros Hin Hp. destruct (find p l) as [y|] eqn:E; [now exists y|].
  rewrite (find_none p l E x Hin) in Hp. discriminate.
Qed.

Lemma find_absent {R} (p : R -> bool) (l : list R) :
  (forall x, In x l -> p x = false) -> find p l = None.
Proof.
  intros H. induction l as [|x l IH]; simpl; [reflexivity|].
  rewrite (H x (or_introl eq_refl)). apply IH. intros y Hy. apply H. now right.
Qed.

(** C1, on the code.  POST /matieres compares names exactly: when a sibling
    subject bears the requested name in another letter case, and no sibling
    bears it letter for letter, the request is answered 201 and the new
    subject is stored beside the sibling. *)
Theorem matieres_post_case_variant (data : MatieresRoutes.createMatiere) (w : World)
    (sibling : Matieres.t) :
  healthy w ->
  has_id Classes.id (MatieresRoutes.create_classesId data) (classes (db w)) = true ->
  In sibling (matieres (db w)) ->
  Matieres.classesId sibling = MatieresRoutes.create_classesId data ->
  Str.equals_insensitive (Matieres.nom sibling) (MatieresRoutes.create_nom data) = true ->
  (forall m, In m (matieres (db w)) ->
             Matieres.classesId m = MatieresRoutes.create_classesId data ->
             Matieres.nom m <> MatieresRoutes.create_nom data) ->
  has_id Matieres.id (cuid (env w) (drawn w)) (matieres (db w)) = false ->
  status (fst (serve (MatieresRoutes.post_root data) w)) = 201
  /\ matieres (db (snd (serve (MatieresRoutes.post_root data) w)))
     = (matieres (db w) ++ [new_matiere data w])%list.
Proof.
  intros Hw Hc _ _ _ Hexact Hfresh. world w.
  apply has_id_find in Hc. destruct Hc as [c [Hc _]].
  assert (Hnone : find (fun m => (Matieres.nom m =? MatieresRoutes.create_nom data)
                                 && (Matieres.classesId m
                                     =? MatieresRoutes.create_classesId data))
                       (matieres st) = None).
  { apply find_absent. intros m Hm.
    destruct (Matieres.classesId m =? MatieresRoutes.create_classesId data) eqn:E.
    - apply String.eqb_eq in E. rewrite andb_true_r. apply String.eqb_neq.
      now apply Hexact.
    - apply andb_false_r. }
  unfold MatieresRoutes.post_root, serve, try_catch, bind, draw_cuid, now.
  rewrite prisma_read, Hc, prisma_read, Hnone. cbn [db faults clock drawn env].
  rewrite prisma_healthy. unfold DB.insert_matieres. cbn [Matieres.id Matieres.classesId].
  rewrite Hfresh, (find_id_has _ _ _ Hc). split; reflexivity.
Qed.

(** "math" next to "Math" in the class CM2. *)
Lemma matieres_post_case_variant_witness :
  status (fst (serve (MatieresRoutes.post_root
                        (MatieresRoutes.Build_createMatiere
                           "math" None "cclasse001" None None))
                     Sample.world)) = 201
  /\ matieres (db (snd (serve (MatieresRoutes.post_root
                                 (MatieresRoutes.Build_createMatiere
                                    "math" None "cclasse001" None None))
                              Sample.world)))
     = [Sample.math; Sample.histoire;
        Matieres.mk "cnew000000" "math" None "cclasse001" None None
                    1700000123456 1700000123456].
Proof.
  refine (@matieres_post_case_variant
            (MatieresRoutes.Build_createMatiere "math" None "cclasse001" None None)
            Sample.world Sample.math _ _ _ _ _ _ _).
  - reflexivity.
  - reflexivity.
  - left. reflexivity.
  - reflexivity.
  - reflexivity.
  - intros m [<-|[<-|[]]] _; discriminate.
  - reflexivity.
Defined.

(** POST /classes/new compares names exactly too: "cm2" is stored next to
    "CM2". *)
Lemma classes_post_new_case_variant :
  status (fst (serve (ClassesRoutes2.post_new (ClassesRoutes.Build_createClasse "cm2"))
                     Sample.world)) = 201
  /\ map Classes.nom
         (classes (db (snd (serve (ClassesRoutes2.post_new
                                     (ClassesRoutes.Build_createClasse "cm2"))
                                  Sample.world))))
     = ["CM2"; "CE1"; "cm2"].
Proof. split; reflexivity. Qed.
(** ** Pagination *)


Lemma addressed_parent (id : string) {R} (key : R -> string) (t : list R) :
  Str.truthy id && has_id key id t = true ->
  Str.truthy id = true /\ exists r, find_id key id t = Some r.
Proof.
  intros H. apply andb_prop in H. destruct H as [H1 H2]. split; [exact H1|].
  apply has_id_find in H2. destruct H2 as [r [Hr _]]. now exists r.
Qed.



Lemma searching_some {A} (s : option string) (q : Op A) (st : Store) :
  truthy_opt s = true -> searching s q st = (Throw InvalidArgument, st).
Proof. unfold searching. now intros ->. Qed.










(** X2.  The first revision of GET /classes: [total] is bound
    to the result of [console.log], so the response carries no total and
    [hasMore] is false whatever the table holds. *)
Lemma classes_first_list_hasMore (q : ClassesRoutes.query) (w : World) :
  healthy w ->
  J.path ["pagination"; "hasMore"]
         (body (fst (serve (ClassesRoutes.get_root q) w))) = Some (JBool false)
  /\ J.path ["pagination"; "total"]
            (body (fst (serve (ClassesRoutes.get_root q) w))) = None.
Proof.
  intros Hw. world w. split; reflexivity.
Qed.
(** ** Dangling references *)

Lemma ref_of_dangling (st : Store) (mk : string -> Ref) (o : option string) :
  existsb (fun x => negb (resolves st x)) (ref_of mk o) = true ->
  exists i, given1 o = Some i /\ resolves st (mk i) = false.
Proof.
  unfold ref_of. destruct (given1 o) as [i|]; simpl; [|discriminate].
  rewrite orb_false_r. intros H. exists i. split; [reflexivity|].
  now apply negb_true_iff.
Qed.

Lemma ref_of_resolved (st : Store) (mk : string -> Ref) (o : option string) (i : string) :
  given1 o = Some i -> resolves st (mk i) = true ->
  existsb (fun x => negb (resolves st x)) (ref_of mk o) = false.
Proof. unfold ref_of. intros -> H. simpl. now rewrite H. Qed.

Lemma ref_of_absent (st : Store) (mk : string -> Ref) (o : option string) :
  given1 o = None ->
  existsb (fun x => negb (resolves st x)) (ref_of mk o) = false.
Proof. unfold ref_of. now intros ->. Qed.

Lemma given1_some (o : option string) (i : string) :
  given1 o = Some i -> o = Some i /\ Str.truthy i = true.
Proof.
  destruct o as [s|]; simpl; [|discriminate].
  destruct (Str.truthy s) eqn:E; [|discriminate]. intros H. injection H as <-.
  now split.
Qed.

Lemma lecon_parent_resolves (st : Store) (l : Lecons.t) :
  parents_resolve st = true -> In l (lecons st) ->
  has_id Matieres.id (Lecons.matieresId l) (matieres st) = true.
Proof.
  unfold parents_resolve. intros H Hin. apply andb_prop in H. destruct H as [H _].
  rewrite forallb_forall in H. now apply H.
Qed.

Lemma sousLecon_parent_resolves (st : Store) (s : SousLecons.t) :
  parents_resolve st = true -> In s (sousLecons st) ->
  has_id Lecons.id (SousLecons.leconsId s) (lecons st) = true.
Proof.
  unfold parents_resolve. intros H Hin. apply andb_prop in H. destruct H as [_ H].
  rewrite forallb_forall in H. now apply H.
Qed.

Lemma present_find {R} (key : R -> string) (i : string) (t : list R) :
  negb (has_id key i t) = false -> exists r, find_id key i t = Some r.
Proof.
  intros H. apply negb_false_iff in H. apply has_id_find in H.
  destruct H as [r [Hr _]]. now exists r.
Qed.

Lemma given1_of_given (o : option (option string)) : given1 (given o) = given o.
Proof.
  destruct o as [[s|]|]; simpl; try reflexivity.
  destruct (Str.truthy s) eqn:E; simpl; [now rewrite E | reflexivity].
Qed.

Lemma dangling3 (st : Store) (a b c : list Ref) :
  existsb (fun x => negb (resolves st x)) (a ++ b ++ c) = true ->
  existsb (fun x => negb (resolves st x)) a = true
  \/ existsb (fun x => negb (resolves st x)) b = true
  \/ existsb (fun x => negb (resolves st x)) c = true.
Proof.
  rewrite !existsb_app. intros H. apply orb_prop in H. destruct H as [H|H]; [now left|].
  apply orb_prop in H. destruct H as [H|H]; [right; now left | right; now right].
Qed.

(** One reference check of the exercise handlers, storage working. *)
Lemma check_ref_healthy {R} (key : R -> string) (table : Store -> list R)
    (ref : option string) (msg : string) (k : M Response)
    (st : Store) (c : Z) (n : nat) (e : Env) :
  ExercicesRoutes.check_ref key table ref msg k (mkWorld st [] c n e)
  = match ref with
    | Some i =>
        match find_id key i (table st) with
        | None => (Ok (mkResponse 404 (ExercicesRoutes.error msg)), mkWorld st [] c n e)
        | Some _ => k (mkWorld st [] c n e)
        end
    | None => k (mkWorld st [] c n e)
    end.
Proof.
  unfold ExercicesRoutes.check_ref, bind. destruct ref as [i|]; [|reflexivity].
  rewrite prisma_read. now destruct (find_id key i (table st)).
Qed.

(** The first half of the contract, one handler family at a time. *)
Lemma dangling_answer (r : WriteRequest) (w : World) :
  healthy w ->
  parents_resolve (db w) = true ->
  path_entity_missing r (db w) = false ->
  dangling r (db w) = true ->
  status (fst (serve (write_endpoint r) w)) = if exercise_family r then 404 else 400.
Proof.
  intros Hw Hint Hpath Hd. world w. unfold dangling in Hd.
  destruct r as [dt|id dt|dt|id dt|dt|id dt|dt|id dt|dt|dt]; cbn [references] in Hd; cbn [path_entity_missing] in Hpath;
    cbn [exercise_family write_endpoint].
  - (* POST /matieres *)
    apply ref_of_dangling in Hd. destruct Hd as [i [Hi Hr]].
    apply given1_some in Hi. destruct Hi as [Hi _]. injection Hi as <-.
    cbn [resolves] in Hr. apply has_id_false_find in Hr.
    unfold MatieresRoutes.post_root, serve, try_catch, bind.
    rewrite prisma_read, Hr. reflexivity.
  - (* PUT /matieres/:id *)
    apply present_find in Hpath. destruct Hpath as [m Hm].
    apply ref_of_dangling in Hd. destruct Hd as [i [Hi Hr]].
    apply given1_some in Hi. destruct Hi as [Hi Ht].
    cbn [resolves] in Hr. apply has_id_false_find in Hr.
    unfold MatieresRoutes.put_id, serve, try_catch, bind.
    rewrite prisma_read, Hm, Hi, Ht, prisma_read, Hr. reflexivity.
  - (* POST /lecons/new *)
    apply ref_of_dangling in Hd. destruct Hd as [i [Hi Hr]].
    apply given1_some in Hi. destruct Hi as [Hi _]. injection Hi as <-.
    cbn [resolves] in Hr. apply has_id_false_find in Hr.
    unfold LeconsRoutes.post_new, serve, try_catch, bind.
    rewrite prisma_read, Hr. reflexivity.
  - (* PUT /lecons/lecons/:id *)
    apply present_find in Hpath. destruct Hpath as [l Hl].
    apply ref_of_dangling in Hd. destruct Hd as [i [Hi Hr]].
    apply given1_some in Hi. destruct Hi as [Hi Ht].
    cbn [resolves] in Hr.
    assert (Hne : (i =? Lecons.matieresId l) = false).
    { apply String.eqb_neq. intros ->.
      rewrite (lecon_parent_resolves _ _ Hint (proj2 (find_id_key _ _ _ Hl))) in Hr.
      discriminate. }
    apply has_id_false_find in Hr.
    unfold LeconsRoutes.put_id, serve, try_catch, bind.
    destruct (Str.truthy id); cbn [negb]; [|reflexivity].
    rewrite prisma_read, Hl, Hi, Ht, Hne. cbn [negb andb].
    rewrite prisma_read, Hr. reflexivity.
  - (* POST /souslecons/new *)
    apply ref_of_dangling in Hd. destruct Hd as [i [Hi Hr]].
    apply given1_some in Hi. destruct Hi as [Hi _]. injection Hi as <-.
    cbn [resolves] in Hr. apply has_id_false_find in Hr.
    unfold SousLeconsRoutes.post_new, serve, try_catch, bind.
    rewrite prisma_read, Hr. reflexivity.
  - (* PUT /souslecons/:id *)
    apply present_find in Hpath. destruct Hpath as [s Hs].
    apply ref_of_dangling in Hd. destruct Hd as [i [Hi Hr]].
    apply given1_some in Hi. destruct Hi as [Hi Ht].
    cbn [resolves] in Hr.
    assert (Hne : (i =? SousLecons.leconsId s) = false).
    { apply String.eqb_neq. intros ->.
      rewrite (sousLecon_parent_resolves _ _ Hint (proj2 (find_id_key _ _ _ Hs))) in Hr.
      discriminate. }
    apply has_id_false_find in Hr.
    unfold SousLeconsRoutes.put_id, serve, try_catch, bind.
    destruct (Str.truthy id); cbn [negb]; [|reflexivity].
    rewrite prisma_read, Hs, Hi, Ht, Hne. cbn [negb andb].
    rewrite prisma_read, Hr. reflexivity.
  - (* POST /exercices *)
    unfold ExercicesRoutes.post_root, serve, try_catch, bind.
    rewrite prisma_read.
    destruct (find_id Matieres.id (ExercicesRoutes.create_matieresId dt) (matieres st))
      as [m|] eqn:Hm; [|reflexivity].
    rewrite check_ref_healthy.
    apply dangling3 in Hd. destruct Hd as [Hd|[Hd|Hd]];
      apply ref_of_dangling in Hd; destruct Hd as [i [Hi Hr]]; cbn [resolves] in Hr.
    + apply given1_some in Hi. destruct Hi as [Hi _]. injection Hi as <-.
      rewrite (find_id_has _ _ _ Hm) in Hr. discriminate.
    + rewrite Hi, (has_id_false_find _ _ _ Hr). reflexivity.
    + destruct (given1 (ExercicesRoutes.create_sousLeconsId dt)) as [s|].
      * destruct (find_id SousLecons.id s (sousLecons st)); [|reflexivity].
        rewrite check_ref_healthy, Hi, (has_id_false_find _ _ _ Hr). reflexivity.
      * rewrite check_ref_healthy, Hi, (has_id_false_find _ _ _ Hr). reflexivity.
  - (* PUT /exercices/:id *)
    apply present_find in Hpath. destruct Hpath as [x Hx].
    unfold ExercicesRoutes.put_id, serve, try_catch, bind.
    rewrite prisma_read, Hx, check_ref_healthy.
    apply dangling3 in Hd. destruct Hd as [Hd|[Hd|Hd]];
      apply ref_of_dangling in Hd; destruct Hd as [i [Hi Hr]]; cbn [resolves] in Hr.
    + rewrite Hi, (has_id_false_find _ _ _ Hr). reflexivity.
    + rewrite given1_of_given in Hi.
      destruct (given1 (ExercicesRoutes.update_matieresId dt)) as [m|].
      * destruct (find_id Matieres.id m (matieres st)); [|reflexivity].
        rewrite check_ref_healthy, Hi, (has_id_false_find _ _ _ Hr). reflexivity.
      * rewrite check_ref_healthy, Hi, (has_id_false_find _ _ _ Hr). reflexivity.
    + rewrite given1_of_given in Hi.
      destruct (given1 (ExercicesRoutes.update_matieresId dt)) as [m|];
        [destruct (find_id Matieres.id m (matieres st)); [|reflexivity]|];
        rewrite check_ref_healthy;
        (destruct (given (ExercicesRoutes.update_sousLeconsId dt)) as [s|];
         [destruct (find_id SousLecons.id s (sousLecons st)); [|reflexivity]|]);
        rewrite check_ref_healthy, Hi, (has_id_false_find _ _ _ Hr); reflexivity.
  - (* POST /options-qcm *)
    apply ref_of_dangling in Hd. destruct Hd as [i [Hi Hr]].
    apply given1_some in Hi. destruct Hi as [Hi _]. injection Hi as <-.
    cbn [resolves] in Hr. apply has_id_false_find in Hr.
    unfold OptionsQCMRoutes.post_root, serve, try_catch, bind.
    rewrite prisma_read, Hr. reflexivity.
  - (* POST /options-qcm/bulk *)
    apply ref_of_dangling in Hd. destruct Hd as [i [Hi Hr]].
    apply given1_some in Hi. destruct Hi as [Hi _]. injection Hi as <-.
    cbn [resolves] in Hr. apply has_id_false_find in Hr.
    unfold OptionsQCMRoutes.post_bulk, serve, try_catch, bind.
    rewrite prisma_read, Hr. reflexivity.
Qed.

Ltac branches H :=
  repeat match type of H with
         | context [match ?x with _ => _ end] =>
             lazymatch x with
             | context [match _ with _ => _ end] => fail
             | _ => destruct x eqn:?; cbn in H
             end
         end.

(** The second half: outside the exercise handlers, 404 is the answer to a
    missing path entity and to nothing else, whatever the storage does. *)
Lemma not_found_only_for_path (r : WriteRequest) (w : World) :
  exercise_family r = false ->
  status (fst (serve (write_endpoint r) w)) = 404 ->
  path_entity_missing r (db w) = true.
Proof.
  intros Hf H.
  destruct r as [dt|id dt|dt|id dt|dt|id dt|dt|id dt|dt|dt]; try discriminate Hf;
    cbn [write_endpoint path_entity_missing] in *.
  - unfold MatieresRoutes.post_root, serve, try_catch, bind, prisma, read, c_json,
      c_json_ok, ret, draw_cuid, now in H. cbn in H. branches H; discriminate H.
  - unfold MatieresRoutes.put_id, serve, try_catch, bind, prisma, read, c_json,
      c_json_ok, ret, draw_cuid, now in H. cbn in H. branches H; try discriminate H.
    now rewrite (find_id_none _ _ _ Heqo).
  - unfold LeconsRoutes.post_new, serve, try_catch, bind, prisma, read, c_json,
      c_json_ok, ret, draw_cuid, now in H. cbn in H. branches H; discriminate H.
  - unfold LeconsRoutes.put_id, serve, try_catch, bind, prisma, read, c_json,
      c_json_ok, ret, draw_cuid, now in H. cbn in H. branches H; try discriminate H.
    now rewrite (find_id_none _ _ _ Heqo).
  - unfold SousLeconsRoutes.post_new, serve, try_catch, bind, prisma, read, c_json,
      c_json_ok, ret, draw_cuid, now in H. cbn in H. branches H; discriminate H.
  - unfold SousLeconsRoutes.put_id, serve, try_catch, bind, prisma, read, c_json,
      c_json_ok, ret, draw_cuid, now in H. cbn in H. branches H; try discriminate H.
    now rewrite (find_id_none _ _ _ Heqo).
Qed.

(** C4, as the code has it.  With the storage layer working and stored rows
    pointing to existing parents: when the entity named by the path exists
    and a non-empty parent identifier of the payload resolves to no row,
    the subject, lesson and sub-lesson endpoints answer 400 and the
    exercise and answer-option endpoints answer 404; on the subject, lesson
    and sub-lesson endpoints a 404 means that the entity named by the path
    does not exist. *)
Theorem missing_reference_status (r : WriteRequest) (w : World) :
  healthy w ->
  parents_resolve (db w) = true ->
  (path_entity_missing r (db w) = false ->
   dangling r (db w) = true ->
   status (fst (serve (write_endpoint r) w)) = if exercise_family r then 404 else 400)
  /\ (exercise_family r = false ->
      status (fst (serve (write_endpoint r) w)) = 404 ->
      path_entity_missing r (db w) = true).
Proof.
  intros Hw Hint. split.
  - now apply dangling_answer.
  - now apply not_found_only_for_path.
Qed.

(** A lesson sent to a subject that does not exist: 400.  An exercise sent
    to the same subject: 404. *)
Lemma missing_reference_status_witness :
  status (fst (serve (write_endpoint
                        (CreateLecon (LeconsRoutes.Build_createLecon
                                        "Angles" None "cmatiere99")))
                     Sample.world)) = 400
  /\ status (fst (serve (write_endpoint
                           (CreateExercice (ExercicesRoutes.Build_createExercice
                                              "Dictee" None "cmatiere99" None None
                                              ExercicesRoutes.cQCM)))
                        Sample.world)) = 404.
Proof.
  split.
  - exact (proj1 (@missing_reference_status
                    (CreateLecon (LeconsRoutes.Build_createLecon
                                    "Angles" None "cmatiere99"))
                    Sample.world eq_refl eq_refl) eq_refl eq_refl).
  - exact (proj1 (@missing_reference_status
                    (CreateExercice (ExercicesRoutes.Build_createExercice
                                       "Dictee" None "cmatiere99" None None
                                       ExercicesRoutes.cQCM))
                    Sample.world eq_refl eq_refl) eq_refl eq_refl).
Defined.

(** POST /exercices with the identifier of a subject that does not exist:
    no path entity is involved, a referenced parent is missing, and the
    answer is 404, not 400. *)
Lemma exercices_post_missing_matiere :
  healthy Sample.world
  /\ ~ reference_contract
         (CreateExercice (ExercicesRoutes.Build_createExercice
                            "Dictee" None "cmatiere99" None None ExercicesRoutes.cQCM))
         Sample.world.
Proof.
  split; [reflexivity|]. intros [H _].
  specialize (H eq_refl eq_refl). vm_compute in H. discriminate H.
Qed.
(** ** Renaming a record to its own name *)

Lemma with_mode_refused {A} (q : Op A) (st : Store) :
  with_mode q st = (Throw InvalidArgument, st).
Proof. reflexivity. Qed.

(** A lookup that carries [mode], storage working: the client throws and
    the database is as it was. *)
Lemma bind_with_mode {A B} (q : Op A) (k : A -> M B)
    (st : Store) (c : Z) (n : nat) (e : Env) :
  bind (prisma (with_mode q)) k (mkWorld st [] c n e)
  = (Throw InvalidArgument, mkWorld st [] c n e).
Proof. now apply bind_refused. Qed.

Lemma changed_name (name own : string) :
  name <> "" -> name <> own -> Str.truthy name && negb (name =? own) = true.
Proof.
  intros H1 H2. rewrite (truthy_nonempty H1).
  apply String.eqb_neq in H2. now rewrite H2.
Qed.

Lemma same_parent (o : option string) (parent : string) :
  o = None \/ o = Some parent ->
  match o with
  | Some m => Str.truthy m && negb (m =? parent)
  | None => false
  end = false.
Proof.
  intros [->| ->]; [reflexivity|]. now rewrite String.eqb_refl, andb_false_r.
Qed.

(** C5, on the code.  On the four update endpoints whose duplicate lookup
    carries [mode: "insensitive"] (PUT /classes/:id, PUT /classes/:id/update,
    PUT /lecons/lecons/:id, PUT /souslecons/:id), with the storage layer
    working, an update of an existing record that keeps its parent and asks
    for a name spelled otherwise than the stored one (the record's own name
    in another letter case is such a name) is answered 500, and the database
    is left as it was: the client refuses the lookup. *)
Theorem own_name_in_other_case_fails (r : RenameRequest) (w : World)
    (own parent name : string) :
  healthy w ->
  lookup_with_mode r = true ->
  target r <> "" ->
  stored r (db w) = Some (own, parent) ->
  requested_nom r = Some name ->
  name <> "" ->
  name <> own ->
  (requested_parent r = None \/ requested_parent r = Some parent) ->
  status (fst (serve (rename_endpoint r) w)) = 500
  /\ db (snd (serve (rename_endpoint r) w)) = db w.
Proof.
  intros Hw Hm Hid Hst Hn Hne Hown Hp. world w. apply truthy_nonempty in Hid.
  pose proof (changed_name Hne Hown) as Hch.
  destruct r as [id dt|id dt|id dt|id dt|id dt]; try discriminate Hm;
    cbn [target rename_endpoint requested_nom requested_parent] in *;
    cbn [stored] in Hst.
  - (* PUT /classes/:id *)
    destruct (find_id Classes.id id (classes st)) as [c|] eqn:Hc; [|discriminate].
    injection Hst as <- <-.
    unfold ClassesRoutes.put_id, serve, finally_, try_catch, disconnect.
    unfold ClassesRoutes.put_body. rewrite Hid. cbn [negb].
    rewrite bind_read, Hc, Hn. cbv zeta. rewrite Hch, bind_with_mode.
    split; reflexivity.
  - (* PUT /classes/:id/update *)
    destruct (find_id Classes.id id (classes st)) as [c|] eqn:Hc; [|discriminate].
    injection Hst as <- <-.
    unfold ClassesRoutes2.put_id_update, serve, try_catch.
    unfold ClassesRoutes.put_body. rewrite Hid. cbn [negb].
    rewrite bind_read, Hc, Hn. cbv zeta. rewrite Hch, bind_with_mode.
    split; reflexivity.
  - (* PUT /lecons/lecons/:id *)
    destruct (find_id Lecons.id id (lecons st)) as [l|] eqn:Hl; [|discriminate].
    injection Hst as <- <-.
    unfold LeconsRoutes.put_id, serve, try_catch. rewrite Hid. cbn [negb].
    rewrite bind_read, Hl. cbv zeta. rewrite Hn, Hch.
    pose proof (same_parent Hp) as Hsame.
    destruct (LeconsRoutes.update_matieresId dt) as [m|].
    + rewrite Hsame, bind_with_mode. split; reflexivity.
    + rewrite bind_with_mode. split; reflexivity.
  - (* PUT /souslecons/:id *)
    destruct (find_id SousLecons.id id (sousLecons st)) as [s|] eqn:Hs; [|discriminate].
    injection Hst as <- <-.
    unfold SousLeconsRoutes.put_id, serve, try_catch. rewrite Hid. cbn [negb].
    rewrite bind_read, Hs. cbv zeta. rewrite Hn, Hch.
    pose proof (same_parent Hp) as Hsame.
    destruct (SousLeconsRoutes.update_leconsId dt) as [l|].
    + rewrite Hsame, bind_with_mode. split; reflexivity.
    + rewrite bind_with_mode. split; reflexivity.
Qed.

(** The lesson "Fractions" renamed "FRACTIONS" while "Decimaux" is its only
    sibling. *)
Lemma own_name_in_other_case_fails_witness :
  status (fst (serve (rename_endpoint
                        (RenameLecon "clecon0001"
                           (LeconsRoutes.Build_updateLecon (Some "FRACTIONS") None None)))
                     Sample.world)) = 500
  /\ db (snd (serve (rename_endpoint
                       (RenameLecon "clecon0001"
                          (LeconsRoutes.Build_updateLecon (Some "FRACTIONS") None None)))
                    Sample.world)) = db Sample.world.
Proof.
  refine (@own_name_in_other_case_fails
            (RenameLecon "clecon0001"
               (LeconsRoutes.Build_updateLecon (Some "FRACTIONS") None None))
            Sample.world "Fractions" "cmatiere01" "FRACTIONS" _ _ _ _ _ _ _ _).
  - reflexivity.
  - reflexivity.
  - discriminate.
  - reflexivity.
  - reflexivity.
  - discriminate.
  - discriminate.
  - left. reflexivity.
Defined.
(** ** Login *)

(** The expiry, in milliseconds, lies within one second below the issuance
    time plus 72 hours. *)
Lemma expiry_within_a_second (date_now : Z) :
  (date_now + hours72_ms - 1000 < 1000 * UserRoutes.expiry date_now
   <= date_now + hours72_ms)%Z.
Proof.
  unfold UserRoutes.expiry, hours72_ms.
  pose proof (Z.mul_div_le date_now 1000 ltac:(lia)).
  pose proof (Z.mul_succ_div_gt date_now 1000 ltac:(lia)).
  lia.
Qed.

Lemma found_by_email_has_id (email : string) (us : list User.t) (u : User.t) :
  find (fun x => User.email x =? email) us = Some u ->
  exists u', find_id User.id (User.id u) us = Some u'.
Proof.
  intros H. apply find_some in H. destruct H as [Hin _].
  destruct (find_present (fun x => User.id x =? User.id u) us u Hin
                         (String.eqb_refl _)) as [y Hy].
  now exists y.
Qed.

Lemma touch_login_accepted (i : string) (t : Z) (st : Store) (u' : User.t) :
  find_id User.id i (users st) = Some u' ->
  DB.update_user i (UserRoutes.touch_login t) st
  = (Ok (UserRoutes.touch_login t u'),
     DB.set_users (amend_id User.id i (UserRoutes.touch_login t) (users st)) st).
Proof.
  intros H. unfold DB.update_user. rewrite H. cbv zeta.
  unfold UserRoutes.touch_login at 1 2. cbn [User.email].
  now rewrite String.eqb_refl.
Qed.

Lemma bind_verifyPassword {B} (password hash : string) (k : bool -> M B) (w : World) :
  bind (verifyPassword password hash) k w = k (sha256_hex (env w) password =? hash) w.
Proof. reflexivity. Qed.

(** C6.  With the storage layer working: an unknown email and a wrong
    password receive one and the same response, status 400 with the message
    "Email ou mot de passe incorrect"; a known email with its password
    receives status 200 and the token signed over the user's id, the email
    and [exp = floor(now / 1000) + 72 * 3600], which is within one second
    of the issuance time plus 72 hours. *)
Theorem login_outcomes (data : UserRoutes.login) (w : World) :
  healthy w ->
  let r := fst (serve (UserRoutes.post_login data) w) in
  match find (fun u => User.email u =? UserRoutes.login_email data) (users (db w)) with
  | None => r = invalid_credentials
  | Some u =>
      if sha256_hex (env w) (UserRoutes.login_password data) =? User.password u
      then status r = 200
           /\ J.get "token" (body r) = Some (JStr (login_token w u))
           /\ (clock w + hours72_ms - 1000
               < 1000 * UserRoutes.expiry (clock w)
               <= clock w + hours72_ms)%Z
      else r = invalid_credentials
  end.
Proof.
  intros Hw. world w. cbv zeta.
  unfold UserRoutes.post_login, serve, try_catch. rewrite bind_read.
  destruct (find (fun u => User.email u =? UserRoutes.login_email data) (users st))
    as [u|] eqn:Hu; [|reflexivity].
  rewrite bind_verifyPassword. cbn [env].
  destruct (sha256_hex e (UserRoutes.login_password data) =? User.password u);
    cbn [negb]; [|reflexivity].
  destruct (found_by_email_has_id _ _ Hu) as [u' Hu'].
  rewrite bind_now. erewrite bind_write by (apply touch_login_accepted; exact Hu').
  rewrite bind_now, bind_ask. cbn [clock env c_json_ok c_json ret fst].
  split; [reflexivity|]. split; [reflexivity|]. apply expiry_within_a_second.
Qed.

(** Alice with her password, Alice with another one, and a stranger. *)
Lemma login_outcomes_witness :
  (status (fst (serve (UserRoutes.post_login
                         (UserRoutes.Build_login "alice@studly.app" "secret1"))
                      Sample.world)) = 200
   /\ J.get "token"
            (body (fst (serve (UserRoutes.post_login
                                 (UserRoutes.Build_login "alice@studly.app" "secret1"))
                              Sample.world)))
      = Some (JStr (login_token Sample.world Sample.alice))
   /\ (clock Sample.world + hours72_ms - 1000
       < 1000 * UserRoutes.expiry (clock Sample.world)
       <= clock Sample.world + hours72_ms)%Z)
  /\ fst (serve (UserRoutes.post_login
                   (UserRoutes.Build_login "alice@studly.app" "secret2"))
                Sample.world) = invalid_credentials
  /\ fst (serve (UserRoutes.post_login
                   (UserRoutes.Build_login "bob@studly.app" "secret1"))
                Sample.world) = invalid_credentials.
Proof.
  split; [|split].
  - exact (@login_outcomes (UserRoutes.Build_login "alice@studly.app" "secret1")
                           Sample.world eq_refl).
  - exact (@login_outcomes (UserRoutes.Build_login "alice@studly.app" "secret2")
                           Sample.world eq_refl).
  - exact (@login_outcomes (UserRoutes.Build_login "bob@studly.app" "secret1")
                           Sample.world eq_refl).
Defined.
(** ** Registration *)

(** "USER", the role the register handler writes, is no member of the
    schema's enumeration. *)
Lemma USER_is_no_role : TypesUtilisateur_of_string "USER" = None.
Proof. reflexivity. Qed.

(** The [select] of the register handler leaves the hash out. *)
Lemma selected_without_password (u : User.t) :
  J.get "password" (UserRoutes.selected u) = None.
Proof. reflexivity. Qed.

Lemma bind_hashPassword {B} (password : string) (k : string -> M B) (w : World) :
  bind (hashPassword password) k w = k (sha256_hex (env w) password) w.
Proof. reflexivity. Qed.

(** C7, on the code.  With the storage layer working, registering an email
    that is not taken is answered 500 and stores no user: the handler
    writes the role "USER", which the schema's enumeration
    [ADMIN | ELEVE | MODERATOR] does not contain, so the create call is
    refused before any row is written. *)
Theorem register_role_refused (data : UserRoutes.register) (w : World) :
  healthy w ->
  find (fun u => User.email u =? UserRoutes.reg_email data) (users (db w)) = None ->
  status (fst (serve (UserRoutes.post_register data) w)) = 500
  /\ db (snd (serve (UserRoutes.post_register data) w)) = db w.
Proof.
  intros Hw Hfree. world w.
  unfold UserRoutes.post_register, serve, try_catch.
  rewrite bind_read, Hfree, bind_hashPassword, bind_draw, bind_now.
  erewrite bind_refused by reflexivity. split; reflexivity.
Qed.

(** Bob registers at the sample school. *)
Lemma register_role_refused_witness :
  status (fst (serve (UserRoutes.post_register
                        (UserRoutes.Build_register
                           "bob@studly.app" None None "secret1" None))
                     Sample.world)) = 500
  /\ db (snd (serve (UserRoutes.post_register
                       (UserRoutes.Build_register
                          "bob@studly.app" None None "secret1" None))
                    Sample.world)) = db Sample.world.
Proof.
  exact (@register_role_refused
           (UserRoutes.Build_register "bob@studly.app" None None "secret1" None)
           Sample.world eq_refl eq_refl).
Defined.
(** ** Storage failures *)

Lemma prisma_failing {A} (q : Op A) (w : World) :
  hd false (faults w) = true ->
  prisma q w
  = (Throw StorageFailure,
     mkWorld (db w) (tl (faults w)) (clock w) (drawn w) (env w)).
Proof. unfold prisma. now intros ->. Qed.

Lemma bind_failing {A B} (q : Op A) (k : A -> M B) (w : World) :
  hd false (faults w) = true ->
  bind (prisma q) k w
  = (Throw StorageFailure,
     mkWorld (db w) (tl (faults w)) (clock w) (drawn w) (env w)).
Proof. intros H. unfold bind. now rewrite prisma_failing. Qed.

(** C8, on the code.  When the uniqueness lookup of POST /classes/new fails
    in the storage layer, the handler's catch block answers 501 and writes
    nothing. *)
Theorem classes_post_new_on_failure (data : ClassesRoutes.createClasse) (w : World) :
  hd false (faults w) = true ->
  status (fst (serve (ClassesRoutes2.post_new data) w)) = 501
  /\ db (snd (serve (ClassesRoutes2.post_new data) w)) = db w.
Proof.
  intros H. unfold ClassesRoutes2.post_new, serve, try_catch.
  rewrite (bind_failing _ _ w H). split; reflexivity.
Qed.

(** POST /classes/new { nom: "CP" } while the storage layer is down. *)
Lemma classes_post_new_on_failure_witness :
  status (fst (serve (ClassesRoutes2.post_new (ClassesRoutes.Build_createClasse "CP"))
                     Sample.outage)) = 501
  /\ db (snd (serve (ClassesRoutes2.post_new (ClassesRoutes.Build_createClasse "CP"))
                    Sample.outage)) = db Sample.outage.
Proof.
  exact (@classes_post_new_on_failure (ClassesRoutes.Build_createClasse "CP")
                                      Sample.outage eq_refl).
Defined.

(** Its first-revision sibling POST /classes answers 500 to the same
    failure. *)
Lemma classes_post_root_on_failure (data : ClassesRoutes.createClasse) (w : World) :
  hd false (faults w) = true ->
  status (fst (serve (ClassesRoutes.post_root data) w)) = 500.
Proof.
  intros H. unfold ClassesRoutes.post_root, serve, finally_, try_catch.
  rewrite (bind_failing _ _ w H). cbn [c_json ret]. unfold disconnect, prisma.
  cbn [faults db clock drawn env]. destruct (hd false (tl (faults w))); reflexivity.
Qed.

(** *** The other handlers: a failed storage call always ends in 500 *)

Lemma undisturbed_trans (a b c : list bool) :
  undisturbed a b -> undisturbed b c -> undisturbed a c.
Proof.
  induction 1 as [l | l l' Hhd _ IH]; intros H; [exact H|].
  apply undisturbed_next; [exact Hhd | now apply IH].
Qed.

Lemma undisturbed_step (l : list bool) : hd false l = false -> undisturbed l (tl l).
Proof. intros H. apply undisturbed_next; [exact H | apply undisturbed_here]. Qed.

Lemma ru_ret {A} (a : A) : returns_undisturbed (ret a).
Proof. intros w. apply undisturbed_here. Qed.

Lemma ru_throw {A} (x : Exn) : returns_undisturbed (@throw A x).
Proof. intros w. exact I. Qed.

Lemma ru_now : returns_undisturbed now.
Proof. intros w. apply undisturbed_here. Qed.

Lemma ru_ask : returns_undisturbed ask.
Proof. intros w. apply undisturbed_here. Qed.

Lemma ru_draw_cuid : returns_undisturbed draw_cuid.
Proof. intros w. apply undisturbed_here. Qed.

Lemma ru_c_json (j : Json) (s : nat) : returns_undisturbed (c_json j s).
Proof. apply ru_ret. Qed.

Lemma ru_c_json_ok (j : Json) : returns_undisturbed (c_json_ok j).
Proof. apply ru_ret. Qed.

Lemma ru_prisma {A} (q : Op A) : returns_undisturbed (prisma q).
Proof.
  intros w. unfold prisma. destruct (hd false (faults w)) eqn:E; [exact I|].
  destruct (q (db w)) as [[a|x] d]; [|exact I]. now apply undisturbed_step.
Qed.

Lemma ru_bind {A B} (m : M A) (k : A -> M B) :
  returns_undisturbed m -> (forall a, returns_undisturbed (k a)) ->
  returns_undisturbed (bind m k).
Proof.
  intros Hm Hk w. unfold bind. specialize (Hm w).
  destruct (m w) as [[a|x] w1]; [|exact I].
  specialize (Hk a w1). destruct (k a w1) as [[b|y] w2]; [|exact I].
  now apply undisturbed_trans with (faults w1).
Qed.

Lemma ru_draw_cuids (n : nat) : returns_undisturbed (draw_cuids n).
Proof.
  induction n as [|n IH]; simpl; [apply ru_ret|].
  apply ru_bind; [apply ru_draw_cuid|]. intros i.
  apply ru_bind; [exact IH|]. intros r. apply ru_ret.
Qed.

Lemma ru_hashPassword (p : string) : returns_undisturbed (hashPassword p).
Proof. apply ru_bind; [apply ru_ask | intros e; apply ru_ret]. Qed.

Lemma ru_verifyPassword (p h : string) : returns_undisturbed (verifyPassword p h).
Proof. apply ru_bind; [apply ru_hashPassword | intros x; apply ru_ret]. Qed.

Lemma ru_check_ref {R} (key : R -> string) (table : Store -> list R)
    (ref : option string) (msg : string) (k : M Response) :
  returns_undisturbed k ->
  returns_undisturbed (ExercicesRoutes.check_ref key table ref msg k).
Proof.
  intros Hk. unfold ExercicesRoutes.check_ref. destruct ref as [i|]; [|exact Hk].
  apply ru_bind; [apply ru_prisma|]. intros [x|]; [exact Hk | apply ru_c_json].
Qed.

(** [try { body } catch { 500 }] *)
Lemma catch_500 (body : M Response) (j : Json) :
  returns_undisturbed body ->
  failure_is_500 (try_catch body (fun _ => c_json j 500)).
Proof.
  intros Hb w. unfold serve, try_catch. specialize (Hb w).
  destruct (body w) as [[r|x] w1]; [right; exact Hb | left; reflexivity].
Qed.

(** [try { body } catch { 500 } finally { $disconnect }] *)
Lemma catch_500_finally (body : M Response) (j : Json) :
  returns_undisturbed body ->
  failure_is_500 (finally_ (try_catch body (fun _ => c_json j 500)) disconnect).
Proof.
  intros Hb w. unfold serve, finally_, try_catch. specialize (Hb w).
  destruct (body w) as [[r|x] w1].
  - pose proof (ru_prisma (read (fun _ => tt)) w1) as Hd. unfold disconnect.
    destruct (prisma (read (fun _ : Store => tt)) w1) as [[u|y] w2].
    + right. now apply undisturbed_trans with (faults w1).
    + left. reflexivity.
  - cbn [c_json ret]. unfold disconnect.
    destruct (prisma (read (fun _ : Store => tt)) w1) as [[u|y] w2]; left; reflexivity.
Qed.

Ltac undisturbed :=
  cbv zeta;
  repeat first
    [ apply ru_c_json | apply ru_c_json_ok | apply ru_ret | apply ru_throw
    | apply ru_now | apply ru_ask | apply ru_draw_cuid | apply ru_draw_cuids
    | apply ru_prisma | apply ru_hashPassword | apply ru_verifyPassword
    | apply ru_check_ref
    | apply ru_bind; [|intros ?]
    | match goal with
      | |- returns_undisturbed (match ?x with _ => _ end) => destruct x
      end ].

(** Every handler of the embedding other than POST /classes/new answers 500
    whenever one of its storage calls fails: a response with another status
    comes only from a request whose storage calls all went through. *)
Lemma storage_failure_is_500 (r : Request) : failure_is_500 (endpoint r).
Proof.
  destruct r as [r|q|d|r|r|g id|id|d|d]; cbn [endpoint].
  - destruct r; cbn [list_endpoint].
    all: try (apply catch_500; undisturbed).
    all: try (apply catch_500_finally; undisturbed).
  - apply catch_500_finally; undisturbed.
  - apply catch_500_finally; undisturbed.
  - destruct r; cbn [write_endpoint]; apply catch_500; undisturbed.
  - destruct r; cbn [rename_endpoint].
    + apply catch_500_finally. unfold ClassesRoutes.put_body. undisturbed.
    + apply catch_500. unfold ClassesRoutes.put_body. undisturbed.
    + apply catch_500; undisturbed.
    + apply catch_500; undisturbed.
    + apply catch_500; undisturbed.
  - destruct g; cbn [delete_endpoint].
    + apply catch_500_finally. unfold ClassesRoutes.delete_body. undisturbed.
    + apply catch_500. unfold ClassesRoutes.delete_body. undisturbed.
    + apply catch_500; undisturbed.
    + apply catch_500; undisturbed.
    + apply catch_500; undisturbed.
  - apply catch_500; undisturbed.
  - apply catch_500; undisturbed.
  - apply catch_500; undisturbed.
Qed.
(** ** Answer options belong to QCM exercises *)

Lemma not_QCM (e : Exercices.t) :
  Exercices.typesExercice e <> QCM ->
  negb (string_of_TypesExercice (Exercices.typesExercice e) =? "QCM") = true.
Proof. destruct (Exercices.typesExercice e); [contradiction | reflexivity]. Qed.

Lemma is_QCM (e : Exercices.t) :
  negb (string_of_TypesExercice (Exercices.typesExercice e) =? "QCM") = false ->
  Exercices.typesExercice e = QCM.
Proof. destruct (Exercices.typesExercice e); [reflexivity | discriminate]. Qed.

(** A transaction that fails leaves the database as it found it. *)
Lemma transaction_refused {A} (ops : list (Op A)) (st st' : Store) (x : Exn) :
  DB.transaction ops st = (Throw x, st') -> st' = st.
Proof.
  unfold DB.transaction. destruct (DB.run_all ops st) as [[l|y] s]; intros H.
  - discriminate H.
  - now injection H as _ <-.
Qed.

Lemma refused_for_other_types (r : OptionRequest) (w : World) (e : Exercices.t) :
  healthy w ->
  find_id Exercices.id (option_exercice r) (exercices (db w)) = Some e ->
  Exercices.typesExercice e <> QCM ->
  status (fst (serve (option_endpoint r) w)) = 400
  /\ db (snd (serve (option_endpoint r) w)) = db w.
Proof.
  intros Hw He Hty. world w. apply not_QCM in Hty.
  destruct r as [dt|dt]; cbn [option_endpoint option_exercice] in *.
  - unfold OptionsQCMRoutes.post_root, serve, try_catch.
    rewrite bind_read, He, Hty. split; reflexivity.
  - unfold OptionsQCMRoutes.post_bulk, serve, try_catch.
    rewrite bind_read, He, Hty. split; reflexivity.
Qed.

Lemma written_only_for_QCM (r : OptionRequest) (w : World) :
  optionsQCM (db (snd (serve (option_endpoint r) w))) <> optionsQCM (db w) ->
  exists e, find_id Exercices.id (option_exercice r) (exercices (db w)) = Some e
            /\ Exercices.typesExercice e = QCM.
Proof.
  intros H.
  destruct r as [dt|dt]; cbn [option_endpoint option_exercice] in *.
  - unfold OptionsQCMRoutes.post_root, serve, try_catch, bind, prisma, read, c_json,
      c_json_ok, ret, draw_cuid, now in H. cbn in H.
    destruct (hd false (faults w)); cbn in H; [contradiction|].
    destruct (find_id Exercices.id (OptionsQCMRoutes.create_exercicesId dt)
                      (exercices (db w))) as [e|] eqn:He; cbn in H; [|contradiction].
    destruct (negb (string_of_TypesExercice (Exercices.typesExercice e) =? "QCM"))
      eqn:Hty; cbn in H; [contradiction|].
    exists e. split; [reflexivity | now apply is_QCM].
  - unfold OptionsQCMRoutes.post_bulk, serve, try_catch, bind, prisma, read, c_json,
      c_json_ok, ret, now in H. cbn in H.
    destruct (hd false (faults w)); cbn in H; [contradiction|].
    destruct (find_id Exercices.id (OptionsQCMRoutes.bulk_exercicesId dt)
                      (exercices (db w))) as [e|] eqn:He; cbn in H; [|contradiction].
    destruct (negb (string_of_TypesExercice (Exercices.typesExercice e) =? "QCM"))
      eqn:Hty; cbn in H; [contradiction|].
    exists e. split; [reflexivity | now apply is_QCM].
Qed.

(** C9.  On both endpoints that create answer options: with the storage
    layer working, a request for an existing exercise whose type is not QCM
    is answered 400 and leaves the database as it was; and whatever the
    storage layer does, the table of options changes only when the exercise
    exists and has type QCM. *)
Theorem options_only_for_qcm (r : OptionRequest) (w : World) :
  (healthy w ->
   forall e, find_id Exercices.id (option_exercice r) (exercices (db w)) = Some e ->
             Exercices.typesExercice e <> QCM ->
             status (fst (serve (option_endpoint r) w)) = 400
             /\ db (snd (serve (option_endpoint r) w)) = db w)
  /\ (optionsQCM (db (snd (serve (option_endpoint r) w))) <> optionsQCM (db w) ->
      exists e, find_id Exercices.id (option_exercice r) (exercices (db w)) = Some e
                /\ Exercices.typesExercice e = QCM).
Proof.
  split.
  - intros Hw e He Hty. now apply refused_for_other_types with e.
  - apply written_only_for_QCM.
Qed.

(** One option, then two at once, for the numeric exercise "Calcul". *)
Lemma options_only_for_qcm_witness :
  (status (fst (serve (option_endpoint
                         (OneOption (OptionsQCMRoutes.Build_createOptionQCM
                                       "42" None "cexercice2" None true false)))
                      Sample.world)) = 400
   /\ db (snd (serve (option_endpoint
                        (OneOption (OptionsQCMRoutes.Build_createOptionQCM
                                      "42" None "cexercice2" None true false)))
                     Sample.world)) = db Sample.world)
  /\ (status (fst (serve (option_endpoint
                            (ManyOptions (OptionsQCMRoutes.Build_bulk "cexercice2"
                               [OptionsQCMRoutes.Build_bulkOption "41" None None false;
                                OptionsQCMRoutes.Build_bulkOption "42" None None true])))
                         Sample.world)) = 400
      /\ db (snd (serve (option_endpoint
                           (ManyOptions (OptionsQCMRoutes.Build_bulk "cexercice2"
                              [OptionsQCMRoutes.Build_bulkOption "41" None None false;
                               OptionsQCMRoutes.Build_bulkOption "42" None None true])))
                        Sample.world)) = db Sample.world).
Proof.
  split.
  - refine (proj1 (@options_only_for_qcm
                     (OneOption (OptionsQCMRoutes.Build_createOptionQCM
                                   "42" None "cexercice2" None true false))
                     Sample.world) eq_refl Sample.calcul eq_refl _).
    discriminate.
  - refine (proj1 (@options_only_for_qcm
                     (ManyOptions (OptionsQCMRoutes.Build_bulk "cexercice2"
                        [OptionsQCMRoutes.Build_bulkOption "41" None None false;
                         OptionsQCMRoutes.Build_bulkOption "42" None None true]))
                     Sample.world) eq_refl Sample.calcul eq_refl _).
    discriminate.
Defined.
(** ** Deleting an exercise *)

Lemma some_dependent (a b : nat) {R S} (p : R -> bool) (q : S -> bool)
    (l : list R) (m : list S) :
  a = length (filter p l) -> b = length (filter q m) ->
  0 < a + b -> existsb p l || existsb q m = true.
Proof.
  intros -> -> H. rewrite <- !some_matching. now apply some_positive2.
Qed.

(** C10, on the code.  With the storage layer working, DELETE
    /exercices/:id on an exercise that an answer option or a response
    still references is answered 500 and deletes nothing: the handler runs
    no guard, and the delete it issues is refused by the RESTRICT rule of
    the two foreign keys, where its comment expects a cascade. *)
Theorem exercice_delete_restricted (id : string) (w : World) :
  healthy w ->
  has_id Exercices.id id (exercices (db w)) = true ->
  0 < ExercicesRoutes.count_OptionsQCM (db w) id
      + ExercicesRoutes.count_Reponses (db w) id ->
  status (fst (serve (ExercicesRoutes.delete_id id) w)) = 500
  /\ db (snd (serve (ExercicesRoutes.delete_id id) w)) = db w.
Proof.
  intros Hw He Hdep. world w.
  pose proof (some_dependent _ _ _ _ eq_refl eq_refl Hdep) as Href.
  destruct (has_id_find _ _ _ He) as [x [Hx _]].
  assert (Hdel : DB.delete_exercices id st = (Throw ForeignKeyConstraintFailed, st)).
  { unfold DB.delete_exercices. rewrite He. cbn [negb]. now rewrite Href. }
  unfold ExercicesRoutes.delete_id, serve, try_catch.
  rewrite bind_read, Hx. erewrite bind_refused by exact Hdel. split; reflexivity.
Qed.

(** The exercise "Quiz" and its one option. *)
Lemma exercice_delete_restricted_witness :
  status (fst (serve (ExercicesRoutes.delete_id "cexercice1") Sample.world)) = 500
  /\ db (snd (serve (ExercicesRoutes.delete_id "cexercice1") Sample.world))
     = db Sample.world.
Proof.
  refine (@exercice_delete_restricted "cexercice1" Sample.world eq_refl eq_refl _).
  vm_compute. repeat constructor.
Defined.

(** X4.  DELETE /exercices/:id without dependents: with the storage layer
    working, the response reports the two counts, both zero; the exercise is
    gone, the table holds the exercises that bear another identifier, in
    their order, and every other table is as it was. *)
Lemma exercice_delete_unreferenced (id : string) (w : World) :
  healthy w ->
  has_id Exercices.id id (exercices (db w)) = true ->
  ExercicesRoutes.count_OptionsQCM (db w) id = 0 ->
  ExercicesRoutes.count_Reponses (db w) id = 0 ->
  fst (serve (ExercicesRoutes.delete_id id) w)
  = mkResponse 200
      (JObj [("message", JStr "Exercice supprimé avec succès");
             ("deletedRelations", JObj [("options", jnat 0); ("reponses", jnat 0)])])
  /\ has_id Exercices.id id
       (exercices (db (snd (serve (ExercicesRoutes.delete_id id) w)))) = false
  /\ exercices (db (snd (serve (ExercicesRoutes.delete_id id) w)))
     = filter (fun e => negb (Exercices.id e =? id)) (exercices (db w))
  /\ DB.set_exercices [] (db (snd (serve (ExercicesRoutes.delete_id id) w)))
     = DB.set_exercices [] (db w).
Proof.
  intros Hw He Ho Hr. world w.
  destruct (has_id_find _ _ _ He) as [x [Hx _]].
  assert (Hdel : DB.delete_exercices id st
                 = (Ok tt, DB.set_exercices (remove_id Exercices.id id (exercices st)) st)).
  { unfold DB.delete_exercices. rewrite He. cbn [negb].
    unfold ExercicesRoutes.count_OptionsQCM in Ho.
    unfold ExercicesRoutes.count_Reponses in Hr.
    rewrite (filter_nil_existsb _ _ (filter_nil_length _ _ Ho)),
      (filter_nil_existsb _ _ (filter_nil_length _ _ Hr)).
    reflexivity. }
  unfold ExercicesRoutes.delete_id, serve, try_catch.
  rewrite bind_read, Hx, Ho, Hr. erewrite bind_write by exact Hdel.
  cbn [c_json_ok c_json ret fst snd db exercices DB.set_exercices].
  split; [reflexivity|]. split; [apply has_id_remove_id|].
  split; reflexivity.
Qed.
(** ** hash_password.ts *)

Lemma hex_of_byte_shape (b : Byte.byte) :
  exists hi lo, hex_of_byte b = String hi (String lo EmptyString)
                /\ is_hex_lower hi = true /\ is_hex_lower lo = true
                /\ 16 * hex_value hi + hex_value lo = Byte.to_nat b.
Proof.
  destruct b; eexists; eexists; (split; [reflexivity|]); repeat split; reflexivity.
Qed.

Lemma concat_hex_cons (b : Byte.byte) (l : list Byte.byte) :
  exists hi lo,
    String.concat "" (map hex_of_byte (b :: l))
    = String hi (String lo (String.concat "" (map hex_of_byte l)))
    /\ is_hex_lower hi = true /\ is_hex_lower lo = true
    /\ 16 * hex_value hi + hex_value lo = Byte.to_nat b.
Proof.
  destruct (hex_of_byte_shape b) as [hi [lo [E H]]]. exists hi, lo.
  split; [|exact H]. cbn [map String.concat]. rewrite E.
  destruct (map hex_of_byte l); reflexivity.
Qed.

Lemma hex_length (l : list Byte.byte) :
  String.length (String.concat "" (map hex_of_byte l)) = 2 * length l.
Proof.
  induction l as [|b l IH]; [reflexivity|].
  destruct (concat_hex_cons b l) as [hi [lo [E _]]]. rewrite E.
  cbn [String.length length]. rewrite IH. lia.
Qed.

Lemma hex_chars (l : list Byte.byte) :
  all_chars is_hex_lower (String.concat "" (map hex_of_byte l)) = true.
Proof.
  induction l as [|b l IH]; [reflexivity|].
  destruct (concat_hex_cons b l) as [hi [lo [E [Hhi [Hlo _]]]]]. rewrite E.
  cbn [all_chars]. now rewrite Hhi, Hlo, IH.
Qed.

(** The bytes of a digest can be read back from its hexadecimal form. *)
Lemma bytes_of_hex_digest (l : list Byte.byte) :
  bytes_of_hex (String.concat "" (map hex_of_byte l)) = map Byte.to_nat l.
Proof.
  induction l as [|b l IH]; [reflexivity|].
  destruct (concat_hex_cons b l) as [hi [lo [E [_ [_ Hv]]]]]. rewrite E.
  cbn [bytes_of_hex map]. now rewrite IH, Hv.
Qed.

Lemma to_nat_injective (l l' : list Byte.byte) :
  map Byte.to_nat l = map Byte.to_nat l' -> l = l'.
Proof.
  revert l'. induction l as [|b l IH]; intros [|b' l'] H; try discriminate.
  - reflexivity.
  - cbn [map] in H. injection H as Hb Hl. f_equal; [|now apply IH].
    pose proof (Byte.of_to_nat b) as E. rewrite Hb, Byte.of_to_nat in E.
    now injection E.
Qed.

(** X13.  [hashPassword] returns two lower-case hexadecimal digits for
    every byte of the digest: the string has twice the digest's length and
    contains nothing but [0-9a-f]. *)
Theorem sha256_hex_shape (e : Env) (password : string) :
  String.length (sha256_hex e password)
  = 2 * length (digest_SHA256 e (list_byte_of_string password))
  /\ all_chars is_hex_lower (sha256_hex e password) = true.
Proof.
  unfold sha256_hex. split; [apply hex_length | apply hex_chars].
Qed.

(** X14.  [verifyPassword] accepts a password against the stored hash of
    another exactly when the two digests are the same: the hexadecimal
    form loses nothing of the digest. *)
Theorem verifyPassword_exact (password other : string) (w : World) :
  verifyPassword password (sha256_hex (env w) other) w = (Ok true, w)
  <-> digest_SHA256 (env w) (list_byte_of_string password)
      = digest_SHA256 (env w) (list_byte_of_string other).
Proof.
  unfold verifyPassword. rewrite bind_hashPassword. unfold ret. split.
  - intros H. injection H as H. apply String.eqb_eq in H. unfold sha256_hex in H.
    apply to_nat_injective. rewrite <- !bytes_of_hex_digest. now rewrite H.
  - intros H. unfold sha256_hex. rewrite H, String.eqb_refl. reflexivity.
Qed.
(** ** What a handler keeps, from what its storage calls keep *)

Section Keeps.
Variable R : Store -> Store -> Prop.
Hypothesis HR : stable R.

Let R_refl : forall st, R st st := proj1 HR.
Let R_trans : forall a b c, R a b -> R b c -> R a c := proj2 HR.

Lemma keeps_ret {A} (a : A) : keeps R (ret a).
Proof. intros w. apply R_refl. Qed.

Lemma keeps_throw {A} (x : Exn) : keeps R (@throw A x).
Proof. intros w. apply R_refl. Qed.

Lemma keeps_now : keeps R now.
Proof. intros w. apply R_refl. Qed.

Lemma keeps_ask : keeps R ask.
Proof. intros w. apply R_refl. Qed.

Lemma keeps_draw_cuid : keeps R draw_cuid.
Proof. intros w. apply R_refl. Qed.

Lemma keeps_c_json (j : Json) (s : nat) : keeps R (c_json j s).
Proof. apply keeps_ret. Qed.

Lemma keeps_c_json_ok (j : Json) : keeps R (c_json_ok j).
Proof. apply keeps_ret. Qed.

Lemma keeps_bind {A B} (m : M A) (k : A -> M B) :
  keeps R m -> (forall a, keeps R (k a)) -> keeps R (bind m k).
Proof.
  intros Hm Hk w. unfold bind. specialize (Hm w).
  destruct (m w) as [[a|x] w1]; [|exact Hm].
  apply R_trans with (db w1); [exact Hm | apply Hk].
Qed.

Lemma keeps_prisma {A} (q : Op A) : op_keeps R q -> keeps R (prisma q).
Proof.
  intros Hq w. unfold prisma. destruct (hd false (faults w)); [apply R_refl|].
  specialize (Hq (db w)). destruct (q (db w)) as [o d]. exact Hq.
Qed.

Lemma op_keeps_read {A} (f : Store -> A) : op_keeps R (read f).
Proof. intros st. apply R_refl. Qed.

Lemma keeps_read {A} (f : Store -> A) : keeps R (prisma (read f)).
Proof. apply keeps_prisma, op_keeps_read. Qed.

Lemma keeps_disconnect : keeps R disconnect.
Proof. apply keeps_read. Qed.

Lemma keeps_try_catch {A} (body : M A) (handler : Exn -> M A) :
  keeps R body -> (forall x, keeps R (handler x)) -> keeps R (try_catch body handler).
Proof.
  intros Hb Hh w. unfold try_catch. specialize (Hb w).
  destruct (body w) as [[a|x] w1]; [exact Hb|].
  apply R_trans with (db w1); [exact Hb | apply Hh].
Qed.

Lemma keeps_finally {A} (body : M A) (cleanup : M unit) :
  keeps R body -> keeps R cleanup -> keeps R (finally_ body cleanup).
Proof.
  intros Hb Hc w. unfold finally_. specialize (Hb w).
  destruct (body w) as [o w1]. specialize (Hc w1).
  destruct (cleanup w1) as [[u|x] w2]; apply R_trans with (db w1); assumption.
Qed.

Lemma keeps_draw_cuids (n : nat) : keeps R (draw_cuids n).
Proof.
  induction n as [|n IH]; cbn [draw_cuids]; [apply keeps_ret|].
  apply keeps_bind; [apply keeps_draw_cuid|]. intros i.
  apply keeps_bind; [exact IH|]. intros r. apply keeps_ret.
Qed.

Lemma keeps_hashPassword (p : string) : keeps R (hashPassword p).
Proof. apply keeps_bind; [apply keeps_ask | intros e; apply keeps_ret]. Qed.

Lemma keeps_verifyPassword (p h : string) : keeps R (verifyPassword p h).
Proof. apply keeps_bind; [apply keeps_hashPassword | intros x; apply keeps_ret]. Qed.

Lemma keeps_check_ref {T} (key : T -> string) (table : Store -> list T)
    (ref : option string) (msg : string) (k : M Response) :
  keeps R k -> keeps R (ExercicesRoutes.check_ref key table ref msg k).
Proof.
  intros Hk. unfold ExercicesRoutes.check_ref. destruct ref as [i|]; [|exact Hk].
  apply keeps_bind; [apply keeps_read|]. intros [x|]; [exact Hk | apply keeps_c_json].
Qed.

Lemma keeps_findUnique {T} (m : Include.Model) (include : list Include.t)
    (found : Store -> option T) (render : Store -> T -> Json) :
  keeps R (prisma (Include.findUnique m include found render)).
Proof.
  apply keeps_prisma. intros st. unfold Include.findUnique.
  destruct (forallb (Include.valid m) include); apply R_refl.
Qed.

(** The answer of the server leaves the database where the handler left
    it. *)
Lemma keeps_serve (h : M Response) (w : World) :
  keeps R h -> R (db w) (db (snd (serve h w))).
Proof using HR.
  intros Hh. specialize (Hh w). unfold serve.
  destruct (h w) as [[r|x] w1]; exact Hh.
Qed.

(** From a known database: what was read is what the writes start from. *)
Lemma keeps_at_of_keeps {A} (st : Store) (m : M A) : keeps R m -> keeps_at R st m.
Proof using HR. intros H w <-. apply H. Qed.

Lemma keeps_of_at {A} (m : M A) : (forall st, keeps_at R st m) -> keeps R m.
Proof using HR. intros H w. now apply (H (db w)). Qed.

Lemma keeps_at_read {A B} (st : Store) (f : Store -> A) (k : A -> M B) :
  keeps_at R st (k (f st)) -> keeps_at R st (bind (prisma (read f)) k).
Proof.
  intros Hk w <-. unfold bind, prisma, read.
  destruct (hd false (faults w)); [apply R_refl|]. now apply Hk.
Qed.

Lemma keeps_at_draw {B} (st : Store) (k : string -> M B) :
  (forall i, keeps_at R st (k i)) -> keeps_at R st (bind draw_cuid k).
Proof using HR. intros Hk w <-. unfold bind, draw_cuid. now apply Hk. Qed.

Lemma keeps_at_now {B} (st : Store) (k : Z -> M B) :
  (forall t, keeps_at R st (k t)) -> keeps_at R st (bind now k).
Proof using HR. intros Hk w <-. unfold bind, now. now apply Hk. Qed.

Lemma keeps_at_write {A B} (st : Store) (q : Op A) (k : A -> M B) :
  R st (snd (q st)) -> (forall a, keeps R (k a)) ->
  keeps_at R st (bind (prisma q) k).
Proof.
  intros Hq Hk w <-. unfold bind, prisma.
  destruct (hd false (faults w)); [apply R_refl|].
  destruct (q (db w)) as [[a|x] d] eqn:E; cbn [snd] in Hq; [|exact Hq].
  apply R_trans with d; [exact Hq|].
  exact (Hk a (mkWorld d (tl (faults w)) (clock w) (drawn w) (env w))).
Qed.

Lemma keeps_at_try_catch {A} (st : Store) (body : M A) (handler : Exn -> M A) :
  keeps_at R st body -> (forall x, keeps R (handler x)) ->
  keeps_at R st (try_catch body handler).
Proof.
  intros Hb Hh w E. unfold try_catch. specialize (Hb w E).
  destruct (body w) as [[a|x] w1]; [exact Hb|].
  apply R_trans with (db w1); [exact Hb | apply Hh].
Qed.

Lemma keeps_at_finally {A} (st : Store) (body : M A) (cleanup : M unit) :
  keeps_at R st body -> keeps R cleanup -> keeps_at R st (finally_ body cleanup).
Proof.
  intros Hb Hc w E. unfold finally_. specialize (Hb w E).
  destruct (body w) as [o w1]. specialize (Hc w1).
  destruct (cleanup w1) as [[u|x] w2]; apply R_trans with (db w1); assumption.
Qed.

End Keeps.

(** Decomposes a handler down to its writes. *)
Ltac keeps_step HR :=
  first
    [ apply (keeps_c_json HR) | apply (keeps_c_json_ok HR) | apply (keeps_ret HR)
    | apply (keeps_throw HR)
    | apply (keeps_now HR) | apply (keeps_ask HR) | apply (keeps_draw_cuid HR)
    | apply (keeps_draw_cuids HR)
    | apply (keeps_read HR) | apply (keeps_disconnect HR) | apply (keeps_findUnique HR)
    | apply (keeps_hashPassword HR) | apply (keeps_verifyPassword HR)
    | apply (keeps_check_ref HR)
    | apply (keeps_try_catch HR); [|intros ?]
    | apply (keeps_finally HR)
    | apply (keeps_bind HR); [|intros ?]
    | match goal with
      | |- keeps _ (match ?x with _ => _ end) => destruct x
      | |- keeps _ (if ?x then _ else _) => destruct x
      end ].

Ltac keeps_all HR := cbv zeta; repeat (keeps_step HR; try assumption).

Lemma stable_unchanged : stable unchanged.
Proof. split; [reflexivity | unfold unchanged; congruence]. Qed.
(** ** Which route answers *)

Ltac routing H :=
  repeat match type of H with
         | context [if ?c then _ else _] =>
             let E := fresh "E" in
             destruct c eqn:E;
             try (apply String.eqb_eq in E; subst);
             cbn in H
         end;
  try discriminate H;
  try match goal with
      | E : Str.truthy (String _ _) = false |- _ => vm_compute in E; discriminate E
      end.

(** X15.  In every route file the first registered route that fits the
    request answers it.  So the routes /search and /health of classes.ts,
    /search of lecons.ts, /search and /bulk-update of souslecons.ts never
    answer: a request for their path is taken by the route /:id registered
    before them, with the literal as the identifier.  Every other
    registered route answers some request. *)
Theorem shadowed_routes (a : Router.App) :
  (forall m path r ps,
     Router.answers (Router.routes a) m path = Some (r, ps) ->
     Router.is_shadowed a r = false)
  /\ (forall r, In r (Router.shadowed a) ->
        Router.answers (Router.routes a) (Router.method r)
                       (Router.instance "x" (Router.pattern r))
        = Some (Router.route (Router.method r) [Router.param "id"],
                [("id", hd "" (Router.instance "x" (Router.pattern r)))]))
  /\ (forall r, In r (Router.routes a) -> Router.is_shadowed a r = false ->
        exists ps,
          Router.answers (Router.routes a) (Router.method r)
                         (Router.instance "x" (Router.pattern r)) = Some (r, ps)).
Proof.
  split; [|split].
  - intros m path r ps H.
    destruct a, m; destruct path as [|x1 [|x2 [|x3 [|x4 rest]]]];
      cbn in H; try discriminate H; routing H;
      injection H as <- _; reflexivity.
  - intros r Hr. destruct a; cbn in Hr;
      repeat (destruct Hr as [<-|Hr]; [reflexivity|]); destruct Hr.
  - intros r Hr Hs. destruct a; cbn in Hr;
      repeat (destruct Hr as [<-|Hr];
              [first [discriminate Hs | eexists; reflexivity]|]);
      destruct Hr.
Qed.

(** GET /classes/search. *)
Lemma shadowed_routes_witness :
  Router.is_shadowed Router.classes1 (Router.route Router.GET [Router.param "id"])
  = false.
Proof.
  exact (proj1 (shadowed_routes Router.classes1) Router.GET ["search"]
               (Router.route Router.GET [Router.param "id"]) [("id", "search")]
               eq_refl).
Defined.
(** ** User accounts *)

(** X16.  GET /users/profile/me and PUT /users/profile/change-password
    always answer 500 and touch nothing: no middleware of the code base
    sets [jwtPayload], so [getCurrentUser] returns [undefined] and reading
    its [userId] throws before any query is sent. *)
Theorem profile_routes_fail (data : UserAccounts.changePassword) (w : World) :
  serve UserAccounts.get_profile_me w
  = (mkResponse 500 (ExercicesRoutes.error "Erreur serveur"), w)
  /\ serve (UserAccounts.put_change_password data) w
     = (mkResponse 500 (ExercicesRoutes.error "Erreur serveur"), w).
Proof. split; reflexivity. Qed.

Lemma delete_user_refused (id : string) (st : Store) :
  has_id User.id id (users st) = true -> has_progress id st = true ->
  DBMore.delete_user id st = (Throw ForeignKeyConstraintFailed, st).
Proof.
  intros Hu Hp. unfold DBMore.delete_user, has_progress in *. now rewrite Hu, Hp.
Qed.

Lemma delete_user_done (id : string) (st : Store) :
  has_id User.id id (users st) = true -> has_progress id st = false ->
  DBMore.delete_user id st
  = (Ok tt, DB.set_users (remove_id User.id id (users st)) st).
Proof.
  intros Hu Hp. unfold DBMore.delete_user, has_progress in *. now rewrite Hu, Hp.
Qed.

(** X17.  DELETE /users/:id runs no guard.  With the storage layer
    working, an existing user who has rows in LeconsUtilisateur or
    ReponsesUtilisateur is not deleted: the foreign keys refuse, the answer
    is 500 and the database stays as it was.  A user without such rows is
    removed, and only that row of the table goes. *)
Theorem user_delete_restricted (id : string) (w : World) :
  healthy w ->
  has_id User.id id (users (db w)) = true ->
  if has_progress id (db w)
  then status (fst (serve (UserAccounts.delete_id id) w)) = 500
       /\ db (snd (serve (UserAccounts.delete_id id) w)) = db w
  else status (fst (serve (UserAccounts.delete_id id) w)) = 200
       /\ db (snd (serve (UserAccounts.delete_id id) w))
          = DB.set_users (remove_id User.id id (users (db w))) (db w).
Proof.
  intros Hw Hu. world w. destruct (has_id_find _ _ _ Hu) as [u [Hfind _]].
  unfold UserAccounts.delete_id, serve, try_catch. rewrite bind_read, Hfind.
  destruct (has_progress id st) eqn:Hp.
  - erewrite bind_refused by (apply delete_user_refused; assumption).
    split; reflexivity.
  - erewrite bind_write by (apply delete_user_done; assumption).
    split; reflexivity.
Qed.

Lemma find_none_existsb {A} (p : A -> bool) (l : list A) :
  existsb p l = false -> find p l = None.
Proof.
  induction l as [|x l IH]; cbn; [reflexivity|].
  destruct (p x); [discriminate | exact IH].
Qed.

(** X18.  PUT /users/:id with [typesUtilisateur: "USER"] never changes
    anything: the validation schema accepts "USER", the enumeration of the
    data model does not, and the update is refused.  With the storage layer
    working, for an existing user and an email that is free, the answer is
    500. *)
Theorem user_update_role_USER (id : string) (data : UserAccounts.updateUser)
    (w : World) :
  UserAccounts.update_typesUtilisateur data = Some UserAccounts.rUSER ->
  db (snd (serve (UserAccounts.put_id id data) w)) = db w
  /\ (healthy w ->
      forall u, find_id User.id id (users (db w)) = Some u ->
                email_available data u (db w) = true ->
                status (fst (serve (UserAccounts.put_id id data) w)) = 500).
Proof.
  intros Hrole. split.
  - apply (keeps_serve stable_unchanged). unfold UserAccounts.put_id.
    keeps_all stable_unchanged.
    all: apply (keeps_prisma stable_unchanged); intros st;
      unfold UserAccounts.update; rewrite Hrole; reflexivity.
  - intros Hw u Hu Hfree. world w.
    assert (Hwrite : forall hashed t,
               UserAccounts.update id data hashed t st = (Throw InvalidArgument, st)).
    { intros hashed t. unfold UserAccounts.update. now rewrite Hrole. }
    unfold UserAccounts.put_id, serve, try_catch. rewrite bind_read, Hu.
    unfold email_available in Hfree.
    destruct (given1 (UserAccounts.update_email data)) as [em|].
    + destruct (em =? User.email u) eqn:Ee; cbn [negb].
      * destruct (given1 (UserAccounts.update_password data)).
        -- unfold bind at 1. rewrite bind_hashPassword. cbn [ret].
           rewrite bind_now. erewrite bind_refused by apply Hwrite. reflexivity.
        -- unfold bind at 1. cbn [ret].
           rewrite bind_now. erewrite bind_refused by apply Hwrite. reflexivity.
      * cbn [orb] in Hfree. apply negb_true_iff, find_none_existsb in Hfree.
        rewrite bind_read, Hfree.
        destruct (given1 (UserAccounts.update_password data)).
        -- unfold bind at 1. rewrite bind_hashPassword. cbn [ret].
           rewrite bind_now. erewrite bind_refused by apply Hwrite. reflexivity.
        -- unfold bind at 1. cbn [ret].
           rewrite bind_now. erewrite bind_refused by apply Hwrite. reflexivity.
    + destruct (given1 (UserAccounts.update_password data)).
      * unfold bind at 1. rewrite bind_hashPassword. cbn [ret].
        rewrite bind_now. erewrite bind_refused by apply Hwrite. reflexivity.
      * unfold bind at 1. cbn [ret].
        rewrite bind_now. erewrite bind_refused by apply Hwrite. reflexivity.
Qed.

Lemma find_amend_id {T} (key : T -> string) (p : T -> bool) (f : T -> T)
    (i : string) (l : list T) :
  (forall x, p (f x) = p x) ->
  find p (amend_id key i f l)
  = option_map (fun r => if key r =? i then f r else r) (find p l).
Proof.
  intros Hp. unfold amend_id. induction l as [|x l IH]; cbn; [reflexivity|].
  destruct (key x =? i) eqn:Ek; [rewrite Hp|]; destruct (p x); cbn;
    rewrite ?Ek; try reflexivity; exact IH.
Qed.

Lemma update_user_accepted (i : string) (f : User.t -> User.t) (st : Store)
    (u0 : User.t) :
  find_id User.id i (users st) = Some u0 ->
  User.email (f u0) = User.email u0 ->
  DB.update_user i f st
  = (Ok (f u0), DB.set_users (amend_id User.id i f (users st)) st).
Proof.
  intros H He. unfold DB.update_user. rewrite H. cbv zeta.
  now rewrite He, String.eqb_refl.
Qed.

(** X19.  A password set through PUT /users/:id takes effect: with the
    storage layer working, when the payload carries a non-empty password,
    no email and not the role "USER", the update of an existing user is
    answered 200, and a login with the user's email and the new password
    is answered 200 afterwards. *)
Theorem password_update_then_login (data : UserAccounts.updateUser) (p : string)
    (u : User.t) (w : World) :
  healthy w ->
  find (fun x => User.email x =? User.email u) (users (db w)) = Some u ->
  given1 (UserAccounts.update_password data) = Some p ->
  UserAccounts.update_email data = None ->
  UserAccounts.update_typesUtilisateur data <> Some UserAccounts.rUSER ->
  status (fst (serve (UserAccounts.put_id (User.id u) data) w)) = 200
  /\ status (fst (serve (UserRoutes.post_login
                           (UserRoutes.Build_login (User.email u) p))
                        (snd (serve (UserAccounts.put_id (User.id u) data) w))))
     = 200.
Proof.
  intros Hw Hu Hp He Hrole. world w.
  destruct (found_by_email_has_id _ _ Hu) as [u0 Hu0].
  assert (Hwrite : exists role,
             UserAccounts.update (User.id u) data (Some (sha256_hex e p)) clk st
             = (Ok (UserAccounts.columns
                      (UserAccounts.patch data (Some (sha256_hex e p)) role clk u0)),
                DB.set_users
                  (amend_id User.id (User.id u)
                     (UserAccounts.patch data (Some (sha256_hex e p)) role clk)
                     (users st)) st)).
  { unfold UserAccounts.update.
    destruct (UserAccounts.update_typesUtilisateur data) as [[|]|] eqn:Er.
    - now contradiction Hrole.
    - exists (Some ADMIN). cbn.
      erewrite update_user_accepted; [reflexivity | exact Hu0 |].
      unfold UserAccounts.patch. cbn [User.email]. now rewrite He.
    - exists None.
      erewrite update_user_accepted; [reflexivity | exact Hu0 |].
      unfold UserAccounts.patch. cbn [User.email]. now rewrite He. }
  destruct Hwrite as [role Hwrite].
  assert (Hput : UserAccounts.put_id (User.id u) data (mkWorld st [] clk n e)
                 = (Ok (mkResponse 200
                          (JObj [("message", JStr "Utilisateur mis à jour avec succès");
                                 ("user",
                                  UserAccounts.columns
                                    (UserAccounts.patch data (Some (sha256_hex e p))
                                                        role clk u0))])),
                    mkWorld (DB.set_users
                               (amend_id User.id (User.id u)
                                  (UserAccounts.patch data (Some (sha256_hex e p)) role clk)
                                  (users st)) st) [] clk n e)).
  { unfold UserAccounts.put_id, try_catch. rewrite bind_read, Hu0, He. cbn [given1].
    rewrite Hp. unfold bind at 1. rewrite bind_hashPassword. cbn [ret env].
    rewrite bind_now. cbn [clock]. erewrite bind_write by exact Hwrite. reflexivity. }
  unfold serve at 1 3. rewrite Hput. cbn [fst snd status]. split; [reflexivity|].
  set (f := UserAccounts.patch data (Some (sha256_hex e p)) role clk).
  assert (Hemail : forall x, User.email (f x) = User.email x).
  { intros x. unfold f, UserAccounts.patch. cbn [User.email]. now rewrite He. }
  assert (Hfound : find (fun x => User.email x =? User.email u)
                        (amend_id User.id (User.id u) f (users st)) = Some (f u)).
  { rewrite find_amend_id by (intros x; now rewrite Hemail).
    rewrite Hu. cbn [option_map]. now rewrite String.eqb_refl. }
  destruct (found_by_email_has_id _ _ Hfound) as [u1 Hu1].
  unfold UserRoutes.post_login, serve, try_catch. rewrite bind_read.
  cbn [UserRoutes.login_email UserRoutes.login_password users DB.set_users].
  rewrite Hfound, bind_verifyPassword. cbn [env].
  assert (Hpass : User.password (f u) = sha256_hex e p) by reflexivity.
  rewrite Hpass, String.eqb_refl. cbn [negb].
  rewrite bind_now. erewrite bind_write by (apply touch_login_accepted; exact Hu1).
  reflexivity.
Qed.

Lemma stable_same_but_logins : stable same_but_logins.
Proof. split; [reflexivity | unfold same_but_logins; congruence]. Qed.

Lemma touch_login_blind (i : string) (t : Z) :
  op_keeps same_but_logins (DB.update_user i (UserRoutes.touch_login t)).
Proof.
  intros st. unfold DB.update_user.
  destruct (find_id User.id i (users st)) as [u|]; [|reflexivity]. cbv zeta.
  destruct (negb (User.email (UserRoutes.touch_login t u) =? User.email u)
            && existsb (fun x => User.email x =? User.email (UserRoutes.touch_login t u))
                       (users st)); [reflexivity|].
  cbn [snd]. unfold same_but_logins, login_blind, beside_users. f_equal.
  cbn [users DB.set_users]. unfold amend_id. rewrite map_map. apply map_ext.
  intros x. destruct (User.id x =? i); reflexivity.
Qed.

(** X12.  Whatever the storage layer does, POST /users/login changes
    nothing in the database but [derniereConnexion] and [updatedAt] of user
    rows: identifiers, emails, names, password hashes, roles and every
    other table are the same after the request as before. *)
Theorem login_touches_only_dates (data : UserRoutes.login) (w : World) :
  login_blind (db (snd (serve (UserRoutes.post_login data) w))) = login_blind (db w).
Proof.
  apply (keeps_serve stable_same_but_logins). unfold UserRoutes.post_login.
  keeps_all stable_same_but_logins.
  apply (keeps_prisma stable_same_but_logins), touch_login_blind.
Qed.
(** ** Answer options, one at a time *)

Lemma stable_same_but_selection (id : string) : stable (same_but_selection id).
Proof. split; [reflexivity | unfold same_but_selection; congruence]. Qed.

Lemma find_id_amend_id {T} (key : T -> string) (f : T -> T) (i : string)
    (l : list T) :
  (forall x, key (f x) = key x) ->
  find_id key i (amend_id key i f l) = option_map f (find_id key i l).
Proof.
  intros Hk. unfold find_id, amend_id. induction l as [|x l IH]; cbn; [reflexivity|].
  destruct (key x =? i) eqn:Ek.
  - now rewrite Hk, Ek.
  - rewrite Ek. exact IH.
Qed.

Lemma select_accepted (id : string) (b : bool) (t : Z) (st : Store) (o : OptionsQCM.t) :
  find_id OptionsQCM.id id (optionsQCM st) = Some o ->
  DBMore.update_optionsQCM id (OptionsQCMItems.select b t) st
  = (Ok (OptionsQCMItems.select b t o),
     DB.set_optionsQCM
       (amend_id OptionsQCM.id id (OptionsQCMItems.select b t) (optionsQCM st)) st).
Proof.
  intros H. unfold DBMore.update_optionsQCM. rewrite H. cbv zeta.
  cbn [OptionsQCMItems.select OptionsQCM.exercicesId]. now rewrite String.eqb_refl.
Qed.

Lemma select_blind (view : Exercices.t -> Json) (id : string) (b : bool) (t : Z) :
  op_keeps (same_but_selection id)
           (OptionsQCMItems.update view id (OptionsQCMItems.select b t)).
Proof.
  intros st. unfold OptionsQCMItems.update.
  destruct (find_id OptionsQCM.id id (optionsQCM st)) as [o|] eqn:Ho.
  - rewrite (select_accepted _ _ _ _ Ho). cbn [snd].
    unfold same_but_selection, selection_blind. f_equal.
    cbn [optionsQCM DB.set_optionsQCM]. unfold amend_id. rewrite map_map.
    apply map_ext. intros x. unfold beside_selection.
    destruct (OptionsQCM.id x =? id) eqn:Ex; [|now rewrite Ex].
    cbn [OptionsQCMItems.select OptionsQCM.id OptionsQCM.nom OptionsQCM.description
         OptionsQCM.exercicesId OptionsQCM.points OptionsQCM.isCorrect
         OptionsQCM.createdAt]. now rewrite Ex.
  - unfold DBMore.update_optionsQCM. rewrite Ho. reflexivity.
Qed.

(** X20.  PATCH /options-qcm/:id/select changes one flag.  Whatever the
    storage layer does, every other option, every other table, and every
    column of the option itself but [isSelected] and [updatedAt] are the
    same after the request as before.  With the storage layer working and
    the option in place, the answer is 200 and the option then carries the
    requested value of [isSelected]. *)
Theorem option_select_one_flag (id : string) (isSelected : bool) (w : World) :
  selection_blind id (db (snd (serve (OptionsQCMItems.patch_select id isSelected) w)))
  = selection_blind id (db w)
  /\ (healthy w ->
      has_id OptionsQCM.id id (optionsQCM (db w)) = true ->
      status (fst (serve (OptionsQCMItems.patch_select id isSelected) w)) = 200
      /\ option_map OptionsQCM.isSelected
           (find_id OptionsQCM.id id
              (optionsQCM (db (snd (serve (OptionsQCMItems.patch_select id isSelected)
                                          w)))))
         = Some isSelected).
Proof.
  split.
  - apply (keeps_serve (stable_same_but_selection id)). unfold OptionsQCMItems.patch_select.
    keeps_all (stable_same_but_selection id).
    apply (keeps_prisma (stable_same_but_selection id)), select_blind.
  - intros Hw Ho. world w. destruct (has_id_find _ _ _ Ho) as [o [Hfind _]].
    unfold OptionsQCMItems.patch_select, serve, try_catch.
    rewrite bind_read, Hfind, bind_now. cbn [clock].
    erewrite bind_write
      by (unfold OptionsQCMItems.update; rewrite (select_accepted _ _ _ _ Hfind);
          reflexivity).
    cbn [c_json_ok c_json ret fst snd status db optionsQCM DB.set_optionsQCM].
    split; [reflexivity|].
    rewrite find_id_amend_id by reflexivity. now rewrite Hfind.
Qed.

Lemma remove_id_fresh {T} (key : T -> string) (i : string) (l : list T) :
  has_id key i l = false -> remove_id key i l = l.
Proof.
  unfold has_id, remove_id. induction l as [|x l IH]; cbn; [reflexivity|].
  destruct (key x =? i); cbn; [discriminate|]. intros H. now rewrite IH.
Qed.

Lemma remove_id_last {T} (key : T -> string) (x : T) (l : list T) :
  has_id key (key x) l = false -> remove_id key (key x) (l ++ [x]) = l.
Proof.
  intros H. unfold remove_id. rewrite filter_app. cbn.
  rewrite String.eqb_refl. cbn. rewrite app_nil_r. now apply remove_id_fresh.
Qed.

Lemma has_id_last {T} (key : T -> string) (x : T) (l : list T) :
  has_id key (key x) (l ++ [x]) = true.
Proof.
  unfold has_id. rewrite existsb_app. cbn. now rewrite String.eqb_refl, orb_true_r.
Qed.

Lemma set_optionsQCM_back (st : Store) : DB.set_optionsQCM (optionsQCM st) st = st.
Proof. now destruct st. Qed.

(** X21.  Creating an option and deleting it again restores the database:
    with the storage layer working, when POST /options-qcm is answered 201,
    the new option has the identifier the generator gave, and
    DELETE /options-qcm/:id with that identifier is answered 200 and leaves
    the database exactly as it was before the creation. *)
Theorem option_create_delete (data : OptionsQCMRoutes.createOptionQCM) (w : World) :
  healthy w ->
  status (fst (serve (OptionsQCMRoutes.post_root data) w)) = 201 ->
  let w' := snd (serve (OptionsQCMRoutes.post_root data) w) in
  optionsQCM (db w') = (optionsQCM (db w) ++ [new_option data w])%list
  /\ status (fst (serve (OptionsQCMItems.delete_id (cuid (env w) (drawn w))) w')) = 200
  /\ db (snd (serve (OptionsQCMItems.delete_id (cuid (env w) (drawn w))) w')) = db w.
Proof.
  intros Hw H. world w. cbv zeta.
  unfold OptionsQCMRoutes.post_root, serve, try_catch in H |- *.
  rewrite bind_read in H |- *.
  destruct (find_id Exercices.id (OptionsQCMRoutes.create_exercicesId data)
                    (exercices st)) as [ex|] eqn:Hex; [|discriminate H].
  destruct (negb (string_of_TypesExercice (Exercices.typesExercice ex) =? "QCM"));
    [discriminate H|].
  rewrite bind_draw, bind_now in H |- *. cbn [clock env] in *.
  unfold bind in H |- *. rewrite prisma_healthy in H |- *.
  unfold DB.insert_optionsQCM in H |- *. cbn [OptionsQCM.id OptionsQCM.exercicesId] in *.
  destruct (has_id OptionsQCM.id (cuid e n) (optionsQCM st)) eqn:Hfresh;
    [discriminate H|].
  rewrite (find_id_has _ _ _ Hex) in H |- *.
  cbn [fst snd db optionsQCM DB.set_optionsQCM c_json ret new_option env drawn clock].
  split; [reflexivity|].
  set (o := OptionsQCM.mk (cuid e n) (OptionsQCMRoutes.create_nom data)
                          (OptionsQCMRoutes.create_description data)
                          (OptionsQCMRoutes.create_exercicesId data)
                          (OptionsQCMRoutes.create_points data)
                          (OptionsQCMRoutes.create_isCorrect data)
                          (OptionsQCMRoutes.create_isSelected data) clk clk).
  assert (Hin : has_id OptionsQCM.id (cuid e n) (optionsQCM st ++ [o]) = true)
    by apply (has_id_last OptionsQCM.id o).
  destruct (has_id_find _ _ _ Hin) as [o' [Ho' _]].
  unfold OptionsQCMItems.delete_id, try_catch. rewrite bind_read.
  cbn [optionsQCM DB.set_optionsQCM]. rewrite Ho'.
  erewrite bind_write.
  2:{ unfold DBMore.delete_optionsQCM. cbn [optionsQCM DB.set_optionsQCM].
      rewrite Hin. cbn [negb]. reflexivity. }
  cbn [c_json_ok c_json ret fst snd status db].
  split; [reflexivity|].
  pose proof (remove_id_last OptionsQCM.id o (optionsQCM st) Hfresh) as Hr.
  change (OptionsQCM.id o) with (cuid e n) in Hr. rewrite Hr.
  unfold DB.set_optionsQCM. cbn. now destruct st.
Qed.

Lemma draw_cuids_run (k : nat) (st : Store) (fl : list bool) (c : Z) (n : nat)
    (e : Env) :
  draw_cuids k (mkWorld st fl c n e)
  = (Ok (map (cuid e) (seq n k)), mkWorld st fl c (n + k) e).
Proof.
  revert n. induction k as [|k IH]; intros n; cbn [draw_cuids seq map].
  - unfold ret. now rewrite Nat.add_0_r.
  - unfold bind at 1. unfold draw_cuid. cbn [env drawn db faults clock].
    unfold bind at 1. rewrite IH. unfold ret. now rewrite Nat.add_succ_r.
Qed.

Lemma set_optionsQCM_twice (a b : list OptionsQCM.t) (st : Store) :
  DB.set_optionsQCM a (DB.set_optionsQCM b st) = DB.set_optionsQCM a st.
Proof. reflexivity. Qed.

(** The inserts of a transaction that goes through, taken together. *)
Lemma run_all_inserts (rows : list OptionsQCM.t) (st st' : Store)
    (l : list OptionsQCM.t) :
  DB.run_all (map DB.insert_optionsQCM rows) st = (Ok l, st') ->
  l = rows
  /\ st' = DB.set_optionsQCM (optionsQCM st ++ rows) st.
Proof.
  revert st st' l. induction rows as [|o rows IH]; intros st st' l H; cbn in H.
  - injection H as <- <-. split; [reflexivity|].
    rewrite app_nil_r. now destruct st.
  - unfold DB.insert_optionsQCM at 1 in H.
    destruct (has_id OptionsQCM.id (OptionsQCM.id o) (optionsQCM st));
      [discriminate H|].
    destruct (has_id Exercices.id (OptionsQCM.exercicesId o) (exercices st));
      [|discriminate H].
    destruct (DB.run_all (map DB.insert_optionsQCM rows)
                         (DB.set_optionsQCM (optionsQCM st ++ [o]) st))
      as [[l'|x] s] eqn:E; [|discriminate H].
    injection H as <- <-. apply IH in E. destruct E as [-> ->].
    split; [reflexivity|].
    cbn [optionsQCM DB.set_optionsQCM]. rewrite <- app_assoc. reflexivity.
Qed.

(** X11.  What a 201 of POST /options-qcm/bulk means, whatever the
    storage layer does: the table of options has grown by exactly one row
    per entry of the payload, in the order of the payload, each attached
    to the exercise of the request and not selected; nothing else has
    changed, and the answer lists these rows. *)
Theorem bulk_created_rows (data : OptionsQCMRoutes.bulk) (w : World) :
  status (fst (serve (OptionsQCMRoutes.post_bulk data) w)) = 201 ->
  db (snd (serve (OptionsQCMRoutes.post_bulk data) w))
  = DB.set_optionsQCM (optionsQCM (db w) ++ new_options data w) (db w)
  /\ J.path ["options"] (body (fst (serve (OptionsQCMRoutes.post_bulk data) w)))
     = Some (JArr (map OptionsQCM.to_json (new_options data w))).
Proof.
  destruct w as [st fl clk n e].
  remember (serve (OptionsQCMRoutes.post_bulk data) (mkWorld st fl clk n e)) as X eqn:HX.
  intros H.
  unfold OptionsQCMRoutes.post_bulk, serve, try_catch in HX.
  unfold bind at 1 in HX. unfold prisma at 1 in HX.
  cbn [faults db clock drawn env read] in HX.
  destruct (hd false fl); [subst X; discriminate H|].
  destruct (find_id Exercices.id (OptionsQCMRoutes.bulk_exercicesId data)
                    (exercices st)) as [ex|]; [|subst X; discriminate H].
  destruct (negb (string_of_TypesExercice (Exercices.typesExercice ex) =? "QCM"));
    [subst X; discriminate H|].
  unfold bind at 1 in HX. rewrite draw_cuids_run, bind_now in HX. cbn [clock] in HX.
  unfold bind, prisma in HX. cbn [faults db clock drawn env] in HX.
  destruct (hd false (tl fl)); [subst X; discriminate H|].
  unfold DB.transaction in HX.
  destruct (DB.run_all _ st) as [[l|x] s] eqn:E; [|subst X; discriminate H].
  rewrite <- (map_map (OptionsQCMRoutes.bulk_row
                         (OptionsQCMRoutes.bulk_exercicesId data) clk)
                      DB.insert_optionsQCM) in E.
  apply run_all_inserts in E. destruct E as [-> ->].
  subst X. split; reflexivity.
Qed.
(** ** Reading one record *)

Lemma utilisateurs_refused (include : option string) :
  Include.asks include "utilisateurs" = true ->
  forallb (Include.valid Include.MLecons) (LeconsReads.buildIncludeOptions include)
  = false.
Proof.
  intros H. unfold LeconsReads.buildIncludeOptions. rewrite H.
  rewrite !forallb_app. cbn. now rewrite !andb_false_r.
Qed.

(** X22.  GET /lecons/:id with an [include] that lists "utilisateurs" is
    always answered 500, whether the lesson exists or not, and reads
    nothing: buildIncludeOptions asks for the relation [utilisateur] of
    LeconsUtilisateur, and the relation fields of that model are [lecons]
    and [user]. *)
Theorem lecon_include_utilisateurs (id : string) (q : LeconsRoutes.query) (w : World) :
  Include.asks (LeconsRoutes.include q) "utilisateurs" = true ->
  Str.truthy id = true ->
  status (fst (serve (LeconsReads.get_id id q) w)) = 500
  /\ db (snd (serve (LeconsReads.get_id id q) w)) = db w.
Proof.
  intros Hq Hid. unfold LeconsReads.get_id, serve, try_catch, bind, prisma.
  rewrite Hid. cbn [negb]. cbv zeta. unfold Include.findUnique.
  rewrite (utilisateurs_refused _ Hq).
  destruct (hd false (faults w)); split; reflexivity.
Qed.

Lemma insert_sorted_permutation {T} (le : T -> T -> bool) (x : T) (l : list T) :
  Permutation (insert_sorted le x l) (x :: l).
Proof.
  induction l as [|y l IH]; cbn; [reflexivity|].
  destruct (le x y); [reflexivity|].
  rewrite IH. apply perm_swap.
Qed.

(** [orderBy] returns the rows it is given, each once. *)
Lemma sort_by_permutation {T} (le : T -> T -> bool) (l : list T) :
  Permutation (sort_by le l) l.
Proof.
  induction l as [|x l IH]; cbn; [reflexivity|].
  rewrite insert_sorted_permutation. now constructor.
Qed.

(** X26.  GET /matieres/:id/lecons and GET /matieres/:id/exercices have
    no window: with the storage layer working and the subject in place,
    the answer is 200 and [data] holds every lesson, respectively every
    exercise, of the subject, each once. *)
Theorem subject_children_complete (id : string) (w : World) :
  healthy w ->
  has_id Matieres.id id (matieres (db w)) = true ->
  (exists rows,
     fst (serve (MatieresReads.get_id_lecons id) w)
     = mkResponse 200 (success_data (JArr (map Lecons.to_json rows)))
     /\ Permutation rows
          (filter (fun l => Lecons.matieresId l =? id) (lecons (db w))))
  /\ (exists rows,
        fst (serve (MatieresReads.get_id_exercices id) w)
        = mkResponse 200 (success_data (JArr (map Exercices.to_json rows)))
        /\ Permutation rows
             (filter (fun e => Exercices.matieresId e =? id) (exercices (db w)))).
Proof.
  intros Hw Hm. world w. destruct (has_id_find _ _ _ Hm) as [m [Hfind Hid]].
  split.
  - eexists. unfold MatieresReads.get_id_lecons, serve, try_catch.
    rewrite bind_read, Hfind. cbn [c_json_ok c_json ret fst]. split; [reflexivity|].
    rewrite Hid. apply sort_by_permutation.
  - eexists. unfold MatieresReads.get_id_exercices, serve, try_catch.
    rewrite bind_read, Hfind. cbn [c_json_ok c_json ret fst]. split; [reflexivity|].
    rewrite Hid. apply sort_by_permutation.
Qed.
(** ** Creating and reading back *)

Ltac run_handler H :=
  unfold serve, finally_, try_catch, bind, prisma, disconnect, read, c_json, c_json_ok,
    ret, draw_cuid, now in H |- *;
  cbn in H |- *.

Ltac outcomes H :=
  repeat match type of H with
         | context [match ?x with _ => _ end] =>
             lazymatch x with
             | context [match _ with _ => _ end] => fail
             | _ => destruct x eqn:?; cbn in H |- *
             end
         end;
  try discriminate H.

(** The outcome of a storage operation, once it is known. *)
Ltac settle :=
  repeat match goal with
         | Hx : (if ?c then _ else _) = (_, _) |- _ =>
             destruct c eqn:?; try discriminate Hx
         | Hx : (match ?c with _ => _ end) = (_, _) |- _ =>
             destruct c eqn:?; try discriminate Hx
         | Hx : (_, _) = (_, _) |- _ => injection Hx as ? ?; subst
         | Hx : Ok _ = Ok _ |- _ => injection Hx as ?; subst
         end.

Ltac known :=
  repeat match goal with
         | Hx : find_id _ _ _ = Some _ |- _ =>
             rewrite (find_id_has _ _ _ Hx); clear Hx
         end.

Ltac fresh_goal :=
  unfold fresh_id; cbn [db env drawn];
  match goal with Hx : has_id _ _ _ = false |- _ => now rewrite Hx end.

(** What a 201 of POST /classes/new or POST /matieres means for the
    database. *)
Lemma created_store (r : CreateRequest) (w : World) :
  healthy w ->
  create_with_mode r = false ->
  status (fst (serve (create_endpoint r) w)) = 201 ->
  snd (serve (create_endpoint r) w)
  = mkWorld (after_create r w) [] (clock w) (S (drawn w)) (env w)
  /\ parent_exists r (db w) = true
  /\ fresh_id r w = true.
Proof.
  intros Hw Hm H. world w.
  destruct r as [d|d|d|d|d]; try discriminate Hm;
    cbn [create_endpoint after_create parent_exists fresh_id db env drawn] in *.
  - unfold ClassesRoutes2.post_new in *. run_handler H. outcomes H.
    unfold DB.insert_classes in *. cbn in *. settle. repeat split; try reflexivity; fresh_goal.
  - unfold MatieresRoutes.post_root in *. run_handler H. outcomes H.
    unfold DB.insert_matieres in *. cbn in *. settle. known.
    repeat split; try reflexivity; fresh_goal.
Qed.

Lemma find_last {T} (p : T -> bool) (l : list T) (x : T) :
  p x = true -> exists y, find p (l ++ [x]) = Some y.
Proof.
  intros Hp. apply find_present with x; [|exact Hp].
  apply in_or_app. right. now left.
Qed.

Lemma find_id_last {T} (key : T -> string) (l : list T) (x : T) :
  has_id key (key x) l = false -> find_id key (key x) (l ++ [x]) = Some x.
Proof.
  intros H. unfold find_id, has_id in *. induction l as [|y l IH]; cbn in *.
  - now rewrite String.eqb_refl.
  - destruct (key y =? key x); [discriminate | now apply IH].
Qed.

Lemma has_id_app {T} (key : T -> string) (i : string) (l l' : list T) :
  has_id key i l = true -> has_id key i (l ++ l') = true.
Proof. unfold has_id. intros H. now rewrite existsb_app, H. Qed.

(** X5.  The same create request cannot succeed twice in a row: with the
    storage layer working, when POST /classes/new or POST /matieres has
    been answered 201, the same request sent again is answered 400 and
    writes nothing.  (The other create endpoints of these resources never
    answer 201.) *)
Theorem create_twice_refused (r : CreateRequest) (w : World) :
  healthy w ->
  create_with_mode r = false ->
  status (fst (serve (create_endpoint r) w)) = 201 ->
  let w' := snd (serve (create_endpoint r) w) in
  status (fst (serve (create_endpoint r) w')) = 400
  /\ db (snd (serve (create_endpoint r) w')) = db w'.
Proof.
  intros Hw Hm H. cbv zeta.
  destruct (created_store r Hw Hm H) as [-> [Hp _]]. clear H. world w.
  destruct r as [d|d|d|d|d]; try discriminate Hm;
    cbn [create_endpoint after_create parent_exists db env drawn clock] in *.
  - destruct (find_last (fun c => Classes.nom c =? ClassesRoutes.create_nom d)
                        (classes st)
                        (Classes.mk (cuid e n) (ClassesRoutes.create_nom d) clk clk)
                        (String.eqb_refl _)) as [y Hy].
    unfold ClassesRoutes2.post_new, serve, try_catch, bind.
    rewrite prisma_read. cbn [classes DB.set_classes]. rewrite Hy.
    split; reflexivity.
  - destruct (has_id_find _ _ _ Hp) as [c [Hc _]].
    destruct (find_last (fun m => (Matieres.nom m =? MatieresRoutes.create_nom d)
                                  && (Matieres.classesId m
                                      =? MatieresRoutes.create_classesId d))
                        (matieres st)
                        (new_matiere d (mkWorld st [] clk n e))) as [y Hy].
    { cbn. now rewrite !String.eqb_refl. }
    unfold MatieresRoutes.post_root, serve, try_catch, bind.
    rewrite prisma_read. cbn [classes matieres DB.set_matieres]. rewrite Hc.
    rewrite prisma_read. cbn [classes matieres DB.set_matieres]. rewrite Hy.
    split; reflexivity.
Qed.

Lemma truthy_nonempty' (s : string) : s <> "" -> Str.truthy s = true.
Proof.
  intros H. unfold Str.truthy. apply negb_true_iff. now apply String.eqb_neq.
Qed.

(** X23.  What has been created can be read back: with the storage layer
    working, when POST /classes/new or POST /matieres has been answered
    201, GET /:id of the same resource with the new identifier and no query
    parameter is answered 200 with exactly the new row: the requested name,
    description and parent, the identifier, and the time of the request as
    both dates. *)
Theorem create_then_read (r : CreateRequest) (w : World) :
  healthy w ->
  create_with_mode r = false ->
  status (fst (serve (create_endpoint r) w)) = 201 ->
  cuid (env w) (drawn w) <> "" ->
  fst (serve (read_back r (cuid (env w) (drawn w)))
             (snd (serve (create_endpoint r) w)))
  = mkResponse 200 (success_data (created r w)).
Proof.
  intros Hw Hm H Hid.
  destruct (created_store r Hw Hm H) as [-> [_ Hf]]. clear H. world w.
  apply truthy_nonempty' in Hid. unfold fresh_id in Hf. apply negb_true_iff in Hf.
  destruct r as [d|d|d|d|d]; try discriminate Hm;
    cbn [read_back after_create created db env drawn clock] in *.
  - unfold ClassesReads.get_id2, ClassesReads.get_id_body, serve, try_catch.
    rewrite Hid. cbn [negb]. cbv zeta.
    erewrite bind_write.
    2:{ unfold Include.findUnique. cbn [ClassesReads.includeOptions forallb
          ClassesRoutes.include Include.asks classes DB.set_classes].
        rewrite (find_id_last Classes.id _ (Classes.mk _ _ _ _) Hf). reflexivity. }
    reflexivity.
  - unfold MatieresReads.get_id, serve, try_catch. cbv zeta.
    erewrite bind_write.
    2:{ unfold Include.findUnique. cbn [MatieresReads.includeOptions forallb app
          MatieresRoutes.include Include.asks matieres DB.set_matieres].
        pose proof (find_id_last Matieres.id (matieres st)
                      (new_matiere d (mkWorld st [] clk n e)) Hf) as Hl.
        change (Matieres.id (new_matiere d (mkWorld st [] clk n e)))
          with (cuid e n) in Hl.
        rewrite Hl. reflexivity. }
    reflexivity.
Qed.
(** ** Queries the client refuses *)

(** A step whose query carries [mode]: it throws, whatever the storage
    layer does, and the database is as it was. *)
Lemma prisma_with_mode {A} (q : Op A) (w : World) :
  exists x, prisma (with_mode q) w
            = (Throw x, mkWorld (db w) (tl (faults w)) (clock w) (drawn w) (env w)).
Proof.
  unfold prisma. destruct (hd false (faults w)); eexists; reflexivity.
Qed.

Lemma bind_with_mode_any {A B} (q : Op A) (k : A -> M B) (w : World) :
  exists x, bind (prisma (with_mode q)) k w
            = (Throw x, mkWorld (db w) (tl (faults w)) (clock w) (drawn w) (env w)).
Proof.
  unfold bind. destruct (prisma_with_mode q w) as [x ->]. now exists x.
Qed.

(** A read, whatever the storage layer does. *)
Lemma prisma_read_any {A} (f : Store -> A) (w : World) :
  prisma (read f) w
  = (if hd false (faults w) then Throw StorageFailure else Ok (f (db w)),
     mkWorld (db w) (tl (faults w)) (clock w) (drawn w) (env w)).
Proof. unfold prisma, read. now destruct (hd false (faults w)). Qed.

Lemma bind_read_any {A B} (f : Store -> A) (k : A -> M B) (w : World) :
  bind (prisma (read f)) k w
  = if hd false (faults w)
    then (Throw StorageFailure,
          mkWorld (db w) (tl (faults w)) (clock w) (drawn w) (env w))
    else k (f (db w)) (mkWorld (db w) (tl (faults w)) (clock w) (drawn w) (env w)).
Proof. unfold bind, prisma, read. now destruct (hd false (faults w)). Qed.

(** X3.  POST /classes, POST /lecons/new and POST /souslecons/new never
    create anything.  Their duplicate lookup carries [mode: "insensitive"],
    which the client of a sqlite datasource refuses: whatever the storage
    layer does, the database is left as it was and the answer is never 201;
    with the storage layer working and the parent of the payload in place,
    the answer is 500. *)
Theorem create_with_mode_fails (r : CreateRequest) (w : World) :
  create_with_mode r = true ->
  db (snd (serve (create_endpoint r) w)) = db w
  /\ status (fst (serve (create_endpoint r) w)) <> 201
  /\ (healthy w -> parent_exists r (db w) = true ->
      status (fst (serve (create_endpoint r) w)) = 500).
Proof.
  intros Hm. destruct r as [d|d|d|d|d]; try discriminate Hm; clear Hm;
    cbn [create_endpoint parent_exists].
  - (* POST /classes *)
    unfold ClassesRoutes.post_root, serve, finally_, try_catch.
    match goal with
    | |- context [bind (prisma (with_mode ?q)) ?k w] =>
        destruct (bind_with_mode_any q k w) as [x ->]
    end.
    cbn [c_json ret]. unfold disconnect. rewrite prisma_read_any.
    cbn [faults db]. destruct (hd false (tl (faults w)));
      (split; [reflexivity|]); (split; [intros Hs; cbn in Hs; discriminate Hs|]); reflexivity.
  - (* POST /lecons/new *)
    unfold LeconsRoutes.post_new, serve, try_catch.
    rewrite bind_read_any.
    destruct (hd false (faults w)) eqn:Hf.
    + split; [reflexivity|]. split; [intros Hs; cbn in Hs; discriminate Hs|].
      intros Hw. unfold healthy in Hw. rewrite Hw in Hf. discriminate Hf.
    + destruct (find_id Matieres.id (LeconsRoutes.create_matieresId d)
                        (matieres (db w))) as [m|] eqn:Hfind.
      * match goal with
        | |- context [bind (prisma (with_mode ?q)) ?k ?w'] =>
            destruct (bind_with_mode_any q k w') as [x ->]
        end.
        split; [reflexivity|]. split; [intros Hs; cbn in Hs; discriminate Hs|]. reflexivity.
      * split; [reflexivity|]. split; [intros Hs; cbn in Hs; discriminate Hs|].
        intros _ Hp. apply find_id_none in Hfind. congruence.
  - (* POST /souslecons/new *)
    unfold SousLeconsRoutes.post_new, serve, try_catch.
    rewrite bind_read_any.
    destruct (hd false (faults w)) eqn:Hf.
    + split; [reflexivity|]. split; [intros Hs; cbn in Hs; discriminate Hs|].
      intros Hw. unfold healthy in Hw. rewrite Hw in Hf. discriminate Hf.
    + destruct (find_id Lecons.id (SousLeconsRoutes.create_leconsId d)
                        (lecons (db w))) as [l|] eqn:Hfind.
      * match goal with
        | |- context [bind (prisma (with_mode ?q)) ?k ?w'] =>
            destruct (bind_with_mode_any q k w') as [x ->]
        end.
        split; [reflexivity|]. split; [intros Hs; cbn in Hs; discriminate Hs|]. reflexivity.
      * split; [reflexivity|]. split; [intros Hs; cbn in Hs; discriminate Hs|].
        intros _ Hp. apply find_id_none in Hfind. congruence.
Qed.

(** A query the client refuses, whatever the storage layer does. *)
Lemma prisma_refused_any {A} (q : Op A) (w : World) :
  (forall st, q st = (Throw InvalidArgument, st)) ->
  exists x, prisma q w
            = (Throw x, mkWorld (db w) (tl (faults w)) (clock w) (drawn w) (env w)).
Proof.
  intros H. unfold prisma. destruct (hd false (faults w)); [eexists; reflexivity|].
  rewrite H. eexists. reflexivity.
Qed.

Lemma bind_refused_any {A B} (q : Op A) (k : A -> M B) (w : World) :
  (forall st, q st = (Throw InvalidArgument, st)) ->
  exists x, bind (prisma q) k w
            = (Throw x, mkWorld (db w) (tl (faults w)) (clock w) (drawn w) (env w)).
Proof.
  intros H. unfold bind. destruct (prisma_refused_any q w H) as [x ->]. now exists x.
Qed.

Lemma searching_refused {A} (s : option string) (q : Op A) :
  truthy_opt s = true -> forall st, searching s q st = (Throw InvalidArgument, st).
Proof. intros H st. now apply searching_some. Qed.

Lemma lecons_refused {A} (s include : option string) (q : Op A) :
  negb (truthy_opt s)
  && forallb (Include.valid Include.MLecons) (LeconsRoutes.buildIncludeOptions include)
  = false ->
  forall st,
    searching s (Include.checked Include.MLecons
                   (LeconsRoutes.buildIncludeOptions include) q) st
    = (Throw InvalidArgument, st).
Proof.
  intros H st. unfold searching. destruct (truthy_opt s); [reflexivity|].
  cbn [negb andb] in H. unfold Include.checked, validated. now rewrite H.
Qed.

Lemma exercices_refused {A} (q : ExercicesRoutes.query) (op : Op A) :
  negb (truthy_opt (ExercicesRoutes.search q)) && ExercicesRoutes.where_typed q = false ->
  forall st, ExercicesRoutes.filtering q op st = (Throw InvalidArgument, st).
Proof.
  intros H st. unfold ExercicesRoutes.filtering, searching.
  destruct (truthy_opt (ExercicesRoutes.search q)); [reflexivity|].
  cbn [negb andb] in H. unfold validated. now rewrite H.
Qed.

(** X6.  A list request the client refuses is answered 500, whatever the
    storage layer does, and nothing is written: a non-empty [search] on
    GET /classes (second revision), /classes/:id/matieres, /lecons,
    /lecons/matieres/:matieresId/lecons, /souslecons,
    /souslecons/lecons/:leconsId/souslecons, /exercices and /users, whose
    filter then carries [mode: "insensitive"]; an [include] that lists
    "utilisateurs" on the two lesson lists; a [typesExercice] outside the
    enumeration on GET /exercices. *)
Theorem list_refused (r : ListRequest) (w : World) :
  addressed r (db w) = true ->
  accepted r = false ->
  status (fst (serve (list_endpoint r) w)) = 500
  /\ db (snd (serve (list_endpoint r) w)) = db w.
Proof.
  intros Ha Hq. destruct r; cbn [accepted] in Hq; try discriminate Hq;
    cbn [addressed] in Ha; cbn [list_endpoint].
  - (* GET /classes *)
    apply negb_false_iff in Hq.
    unfold ClassesRoutes2.get_root.
    unfold serve, try_catch; cbv zeta.
    match goal with
    | |- context [bind (prisma (searching ?s ?q0)) ?k ?w'] =>
        destruct (bind_refused_any (searching s q0) k w'
                    (searching_refused s q0 Hq)) as [x ->]
    end.
    split; reflexivity.
  - (* GET /classes/:id/matieres *)
    apply negb_false_iff in Hq.
    apply addressed_parent in Ha. destruct Ha as [Hid [c Hc]].
    unfold ClassesRoutes.get_id_matieres, serve, finally_, try_catch.
    rewrite Hid. cbn [negb]. rewrite bind_read_any.
    unfold disconnect.
    destruct (hd false (faults w)).
    + cbn [c_json ret]. rewrite prisma_read_any. cbn [faults db].
      destruct (hd false (tl (faults w))); split; reflexivity.
    + rewrite Hc. cbv zeta.
      match goal with
      | |- context [bind (prisma (searching ?s ?q0)) ?k ?w'] =>
          destruct (bind_refused_any (searching s q0) k w'
                      (searching_refused s q0 Hq)) as [x ->]
      end.
      cbn [c_json ret]. rewrite prisma_read_any. cbn [faults db].
      destruct (hd false (tl (tl (faults w)))); split; reflexivity.
  - (* GET /lecons *)
    unfold LeconsRoutes.get_root, serve, try_catch. cbv zeta.
    match goal with
    | |- context [bind (prisma (searching ?s (Include.checked _ _ ?q0))) ?k ?w'] =>
        destruct (bind_refused_any _ k w' (lecons_refused s _ q0 Hq)) as [x ->]
    end.
    split; reflexivity.
  - (* GET /lecons/matieres/:matieresId/lecons *)
    apply addressed_parent in Ha. destruct Ha as [Hid [c Hc]].
    unfold LeconsRoutes.get_matieres_lecons, serve, try_catch.
    rewrite Hid. cbn [negb]. rewrite bind_read_any.
    destruct (hd false (faults w)); [split; reflexivity|].
    rewrite Hc. cbv zeta.
    match goal with
    | |- context [bind (prisma (searching ?s (Include.checked _ _ ?q0))) ?k ?w'] =>
        destruct (bind_refused_any _ k w' (lecons_refused s _ q0 Hq)) as [x ->]
    end.
    split; reflexivity.
  - (* GET /souslecons *)
    apply negb_false_iff in Hq.
    unfold SousLeconsRoutes.get_root, serve, try_catch. cbv zeta.
    match goal with
    | |- context [bind (prisma (searching ?s ?q0)) ?k ?w'] =>
        destruct (bind_refused_any (searching s q0) k w'
                    (searching_refused s q0 Hq)) as [x ->]
    end.
    split; reflexivity.
  - (* GET /souslecons/lecons/:leconsId/souslecons *)
    apply negb_false_iff in Hq.
    apply addressed_parent in Ha. destruct Ha as [Hid [c Hc]].
    unfold SousLeconsRoutes.get_lecons_souslecons, serve, try_catch.
    rewrite Hid. cbn [negb]. rewrite bind_read_any.
    destruct (hd false (faults w)); [split; reflexivity|].
    rewrite Hc. cbv zeta.
    match goal with
    | |- context [bind (prisma (searching ?s ?q0)) ?k ?w'] =>
        destruct (bind_refused_any (searching s q0) k w'
                    (searching_refused s q0 Hq)) as [x ->]
    end.
    split; reflexivity.
  - (* GET /exercices *)
    unfold ExercicesRoutes.get_root, serve, try_catch. cbv zeta.
    match goal with
    | |- context [bind (prisma (ExercicesRoutes.filtering ?q1 ?q0)) ?k ?w'] =>
        destruct (bind_refused_any _ k w' (exercices_refused q1 q0 Hq)) as [x ->]
    end.
    split; reflexivity.
  - (* GET /users *)
    apply negb_false_iff in Hq.
    unfold UserRoutes.get_root, serve, try_catch. cbv zeta.
    match goal with
    | |- context [bind (prisma (searching ?s ?q0)) ?k ?w'] =>
        destruct (bind_refused_any (searching s q0) k w'
                    (searching_refused s q0 Hq)) as [x ->]
    end.
    split; reflexivity.
Qed.
(** ** Moving a record to another parent *)

Lemma stored_after_amend {T} (key : T -> string) (view : T -> string * string)
    (f : T -> T) (i : string) (l : list T) (x : T) :
  (forall y, key (f y) = key y) ->
  find_id key i l = Some x ->
  option_map view (find_id key i (amend_id key i f l)) = Some (view (f x)).
Proof.
  intros Hk Hx. rewrite find_id_amend_id by exact Hk. now rewrite Hx.
Qed.

(** X7.  A move is not checked against the names of the new parent.  With
    the storage layer working, PUT /matieres/:id, PUT /lecons/lecons/:id
    and PUT /souslecons/:id with a payload that names an existing parent
    and no name are answered 200 and move the record, whatever the rows of
    the new parent are called: the duplicate check runs only when the
    payload carries a name. *)
Theorem move_without_rename (r : RenameRequest) (w : World) (own parent p : string) :
  healthy w ->
  target r <> "" ->
  stored r (db w) = Some (own, parent) ->
  requested_nom r = None ->
  requested_parent r = Some p ->
  p <> "" ->
  new_parent_exists r p (db w) = true ->
  status (fst (serve (rename_endpoint r) w)) = 200
  /\ stored r (db (snd (serve (rename_endpoint r) w))) = Some (own, p).
Proof.
  intros Hw Hid Hs Hn Hp Hp' He. world w.
  apply truthy_nonempty' in Hid. apply truthy_nonempty' in Hp'.
  destruct r as [id d|id d|id d|id d|id d];
    cbn [rename_endpoint target stored requested_nom requested_parent
         new_parent_exists] in *; try discriminate Hp.
  - destruct (find_id Matieres.id id (matieres st)) as [m|] eqn:Hm;
      [|discriminate Hs].
    injection Hs as <- <-.
    destruct (has_id_find _ _ _ He) as [c [Hc _]].
    assert (Hwrite : DB.update_matieres id (MatieresRoutes.patch d clk) st
                     = (Ok (MatieresRoutes.patch d clk m),
                        DB.set_matieres
                          (amend_id Matieres.id id (MatieresRoutes.patch d clk)
                                    (matieres st)) st)).
    { unfold DB.update_matieres. rewrite Hm. cbv zeta.
      unfold MatieresRoutes.patch at 1 2. cbn [Matieres.classesId].
      rewrite Hp. cbn [keep]. now rewrite He, orb_true_r. }
    unfold MatieresRoutes.put_id, serve, try_catch.
    rewrite bind_read, Hm, Hp, Hp', bind_read, Hc, Hn, bind_now.
    erewrite bind_write by exact Hwrite.
    cbn [c_json_ok c_json ret fst snd status db matieres DB.set_matieres].
    split; [reflexivity|].
    rewrite (@stored_after_amend _ Matieres.id
               (fun x => (Matieres.nom x, Matieres.classesId x)) (MatieresRoutes.patch d clk) id (matieres st) m
               (fun _ => eq_refl) Hm).
    unfold MatieresRoutes.patch. cbn [Matieres.nom Matieres.classesId].
    now rewrite Hn, Hp.
  - destruct (find_id Lecons.id id (lecons st)) as [l|] eqn:Hl; [|discriminate Hs].
    injection Hs as <- <-.
    destruct (has_id_find _ _ _ He) as [c [Hc _]].
    assert (Hwrite : DB.update_lecons id (LeconsRoutes.patch d clk) st
                     = (Ok (LeconsRoutes.patch d clk l),
                        DB.set_lecons
                          (amend_id Lecons.id id (LeconsRoutes.patch d clk)
                                    (lecons st)) st)).
    { unfold DB.update_lecons. rewrite Hl. cbv zeta.
      unfold LeconsRoutes.patch at 1 2. cbn [Lecons.matieresId].
      rewrite Hp. cbn [keep]. now rewrite He, orb_true_r. }
    unfold LeconsRoutes.put_id, serve, try_catch.
    rewrite Hid. cbn [negb]. rewrite bind_read, Hl, Hp, Hp', Hn.
    destruct (negb (p =? Lecons.matieresId l)); cbn [andb].
    + rewrite bind_read, Hc, bind_now. erewrite bind_write by exact Hwrite.
      cbn [c_json_ok c_json ret fst snd status db lecons DB.set_lecons].
      split; [reflexivity|].
      rewrite (@stored_after_amend _ Lecons.id
                 (fun x => (Lecons.nom x, Lecons.matieresId x)) (LeconsRoutes.patch d clk) id (lecons st) l
                 (fun _ => eq_refl) Hl).
      unfold LeconsRoutes.patch. cbn [Lecons.nom Lecons.matieresId].
      now rewrite Hn, Hp.
    + rewrite bind_now. erewrite bind_write by exact Hwrite.
      cbn [c_json_ok c_json ret fst snd status db lecons DB.set_lecons].
      split; [reflexivity|].
      rewrite (@stored_after_amend _ Lecons.id
                 (fun x => (Lecons.nom x, Lecons.matieresId x)) (LeconsRoutes.patch d clk) id (lecons st) l
                 (fun _ => eq_refl) Hl).
      unfold LeconsRoutes.patch. cbn [Lecons.nom Lecons.matieresId].
      now rewrite Hn, Hp.
  - destruct (find_id SousLecons.id id (sousLecons st)) as [l|] eqn:Hl;
      [|discriminate Hs].
    injection Hs as <- <-.
    destruct (has_id_find _ _ _ He) as [c [Hc _]].
    assert (Hwrite : DB.update_sousLecons id (SousLeconsRoutes.patch d clk) st
                     = (Ok (SousLeconsRoutes.patch d clk l),
                        DB.set_sousLecons
                          (amend_id SousLecons.id id (SousLeconsRoutes.patch d clk)
                                    (sousLecons st)) st)).
    { unfold DB.update_sousLecons. rewrite Hl. cbv zeta.
      unfold SousLeconsRoutes.patch at 1 2. cbn [SousLecons.leconsId].
      rewrite Hp. cbn [keep]. now rewrite He, orb_true_r. }
    unfold SousLeconsRoutes.put_id, serve, try_catch.
    rewrite Hid. cbn [negb]. rewrite bind_read, Hl, Hp, Hp', Hn.
    destruct (negb (p =? SousLecons.leconsId l)); cbn [andb].
    + rewrite bind_read, Hc, bind_now. erewrite bind_write by exact Hwrite.
      cbn [c_json_ok c_json ret fst snd status db sousLecons DB.set_sousLecons].
      split; [reflexivity|].
      rewrite (@stored_after_amend _ SousLecons.id
                 (fun x => (SousLecons.nom x, SousLecons.leconsId x)) (SousLeconsRoutes.patch d clk) id (sousLecons st) l
                 (fun _ => eq_refl) Hl).
      unfold SousLeconsRoutes.patch. cbn [SousLecons.nom SousLecons.leconsId].
      now rewrite Hn, Hp.
    + rewrite bind_now. erewrite bind_write by exact Hwrite.
      cbn [c_json_ok c_json ret fst snd status db sousLecons DB.set_sousLecons].
      split; [reflexivity|].
      rewrite (@stored_after_amend _ SousLecons.id
                 (fun x => (SousLecons.nom x, SousLecons.leconsId x)) (SousLeconsRoutes.patch d clk) id (sousLecons st) l
                 (fun _ => eq_refl) Hl).
      unfold SousLeconsRoutes.patch. cbn [SousLecons.nom SousLecons.leconsId].
      now rewrite Hn, Hp.
Qed.
(** ** Renaming, where no lookup is refused *)

Lemma keep_same (o : option string) (p : string) :
  o = None \/ o = Some p -> keep o p = p.
Proof. now intros [->| ->]. Qed.

(** X28.  On the four update endpoints whose duplicate lookup carries
    [mode: "insensitive"], an update that sends the stored spelling of the
    name runs no lookup: with the storage layer working and the parent
    kept, it is answered 200, and the record keeps its name and its
    parent. *)
Theorem rename_same_spelling (r : RenameRequest) (w : World) (own parent : string) :
  healthy w ->
  lookup_with_mode r = true ->
  target r <> "" ->
  stored r (db w) = Some (own, parent) ->
  requested_nom r = Some own ->
  (requested_parent r = None \/ requested_parent r = Some parent) ->
  status (fst (serve (rename_endpoint r) w)) = 200
  /\ stored r (db (snd (serve (rename_endpoint r) w))) = Some (own, parent).
Proof.
  intros Hw Hm Hid Hst Hn Hp. world w. apply truthy_nonempty in Hid.
  destruct r as [id dt|id dt|id dt|id dt|id dt]; try discriminate Hm;
    cbn [target rename_endpoint requested_nom requested_parent] in *;
    cbn [stored] in Hst |- *.
  - destruct (find_id Classes.id id (classes st)) as [c|] eqn:Hc; [|discriminate].
    injection Hst as <- <-.
    unfold ClassesRoutes.put_id, serve, finally_, try_catch, disconnect.
    unfold ClassesRoutes.put_body. rewrite Hid. cbn [negb].
    rewrite bind_read, Hc, Hn. cbv zeta.
    rewrite String.eqb_refl, andb_false_r, bind_now.
    erewrite bind_write by (unfold DB.update_classes; now rewrite Hc).
    cbn [c_json_ok c_json ret clock]. unfold prisma, read.
    cbn [faults hd tl clock drawn env fst snd status db classes DB.set_classes].
    split; [reflexivity|].
    rewrite (@stored_after_amend _ Classes.id (fun x => (Classes.nom x, ""))
               (ClassesRoutes.patch dt clk) id (classes st) c (fun _ => eq_refl) Hc).
    unfold ClassesRoutes.patch. cbn [Classes.nom]. now rewrite Hn.
  - destruct (find_id Classes.id id (classes st)) as [c|] eqn:Hc; [|discriminate].
    injection Hst as <- <-.
    unfold ClassesRoutes2.put_id_update, serve, try_catch.
    unfold ClassesRoutes.put_body. rewrite Hid. cbn [negb].
    rewrite bind_read, Hc, Hn. cbv zeta.
    rewrite String.eqb_refl, andb_false_r, bind_now.
    erewrite bind_write by (unfold DB.update_classes; now rewrite Hc).
    cbn [c_json_ok c_json ret clock fst snd status db classes DB.set_classes].
    split; [reflexivity|].
    rewrite (@stored_after_amend _ Classes.id (fun x => (Classes.nom x, ""))
               (ClassesRoutes.patch dt clk) id (classes st) c (fun _ => eq_refl) Hc).
    unfold ClassesRoutes.patch. cbn [Classes.nom]. now rewrite Hn.
  - destruct (find_id Lecons.id id (lecons st)) as [l|] eqn:Hl; [|discriminate].
    injection Hst as <- <-.
    assert (Hwrite : forall t,
      DB.update_lecons id (LeconsRoutes.patch dt t) st
      = (Ok (LeconsRoutes.patch dt t l),
         DB.set_lecons (amend_id Lecons.id id (LeconsRoutes.patch dt t) (lecons st)) st)).
    { intros t. unfold DB.update_lecons. rewrite Hl. cbv zeta.
      unfold LeconsRoutes.patch at 1 2. cbn [Lecons.matieresId].
      now rewrite (keep_same Hp), String.eqb_refl. }
    unfold LeconsRoutes.put_id, serve, try_catch. rewrite Hid. cbn [negb].
    rewrite bind_read, Hl. cbv zeta. rewrite Hn, String.eqb_refl, andb_false_r.
    pose proof (same_parent Hp) as Hsame.
    assert (Hrun :
      (t <- now ;;
       lecon <- prisma (DB.update_lecons id (LeconsRoutes.patch dt t)) ;;
       c_json_ok (success_with (Lecons.to_json lecon) "Leçon mise à jour avec succès"))
        (mkWorld st [] clk n e)
      = (Ok (mkResponse 200 (success_with
                               (Lecons.to_json (LeconsRoutes.patch dt clk l))
                               "Leçon mise à jour avec succès")),
         mkWorld (DB.set_lecons
                    (amend_id Lecons.id id (LeconsRoutes.patch dt clk) (lecons st))
                    st) [] clk n e)).
    { rewrite bind_now. erewrite bind_write by apply Hwrite. reflexivity. }
    assert (Hafter :
      option_map (fun l0 => (Lecons.nom l0, Lecons.matieresId l0))
        (find_id Lecons.id id
           (amend_id Lecons.id id (LeconsRoutes.patch dt clk) (lecons st)))
      = Some (Lecons.nom l, Lecons.matieresId l)).
    { rewrite (@stored_after_amend _ Lecons.id
                 (fun x => (Lecons.nom x, Lecons.matieresId x))
                 (LeconsRoutes.patch dt clk) id (lecons st) l (fun _ => eq_refl) Hl).
      unfold LeconsRoutes.patch. cbn [Lecons.nom Lecons.matieresId].
      rewrite Hn, (keep_same Hp). reflexivity. }
    destruct (LeconsRoutes.update_matieresId dt) as [m|].
    + rewrite Hsame, Hrun. split; [reflexivity | exact Hafter].
    + rewrite Hrun. split; [reflexivity | exact Hafter].
  - destruct (find_id SousLecons.id id (sousLecons st)) as [s|] eqn:Hs; [|discriminate].
    injection Hst as <- <-.
    assert (Hwrite : forall t,
      DB.update_sousLecons id (SousLeconsRoutes.patch dt t) st
      = (Ok (SousLeconsRoutes.patch dt t s),
         DB.set_sousLecons
           (amend_id SousLecons.id id (SousLeconsRoutes.patch dt t) (sousLecons st)) st)).
    { intros t. unfold DB.update_sousLecons. rewrite Hs. cbv zeta.
      unfold SousLeconsRoutes.patch at 1 2. cbn [SousLecons.leconsId].
      now rewrite (keep_same Hp), String.eqb_refl. }
    unfold SousLeconsRoutes.put_id, serve, try_catch. rewrite Hid. cbn [negb].
    rewrite bind_read, Hs. cbv zeta. rewrite Hn, String.eqb_refl, andb_false_r.
    pose proof (same_parent Hp) as Hsame.
    assert (Hrun :
      (t <- now ;;
       sousLecon <- prisma (DB.update_sousLecons id (SousLeconsRoutes.patch dt t)) ;;
       c_json_ok (success_with (SousLecons.to_json sousLecon)
                               "Sous-leçon mise à jour avec succès"))
        (mkWorld st [] clk n e)
      = (Ok (mkResponse 200 (success_with
                               (SousLecons.to_json (SousLeconsRoutes.patch dt clk s))
                               "Sous-leçon mise à jour avec succès")),
         mkWorld (DB.set_sousLecons
                    (amend_id SousLecons.id id (SousLeconsRoutes.patch dt clk)
                              (sousLecons st))
                    st) [] clk n e)).
    { rewrite bind_now. erewrite bind_write by apply Hwrite. reflexivity. }
    assert (Hafter :
      option_map (fun s0 => (SousLecons.nom s0, SousLecons.leconsId s0))
        (find_id SousLecons.id id
           (amend_id SousLecons.id id (SousLeconsRoutes.patch dt clk) (sousLecons st)))
      = Some (SousLecons.nom s, SousLecons.leconsId s)).
    { rewrite (@stored_after_amend _ SousLecons.id
                 (fun x => (SousLecons.nom x, SousLecons.leconsId x))
                 (SousLeconsRoutes.patch dt clk) id (sousLecons st) s
                 (fun _ => eq_refl) Hs).
      unfold SousLeconsRoutes.patch. cbn [SousLecons.nom SousLecons.leconsId].
      rewrite Hn, (keep_same Hp). reflexivity. }
    destruct (SousLeconsRoutes.update_leconsId dt) as [l|].
    + rewrite Hsame, Hrun. split; [reflexivity | exact Hafter].
    + rewrite Hrun. split; [reflexivity | exact Hafter].
Qed.

(** X29.  PUT /matieres/:id compares names letter for letter and leaves
    the record itself out of the comparison: with the storage layer
    working, a subject that keeps its class takes any name that no other
    subject of the class bears letter for letter, its own name in another
    letter case included.  The answer is 200 and the new name is stored. *)
Theorem matiere_rename_accepted (id : string) (d : MatieresRoutes.updateMatiere)
    (w : World) (m : Matieres.t) (name : string) :
  healthy w ->
  find_id Matieres.id id (matieres (db w)) = Some m ->
  MatieresRoutes.update_nom d = Some name ->
  name <> "" ->
  MatieresRoutes.update_classesId d = None ->
  (forall x, In x (matieres (db w)) ->
             Matieres.classesId x = Matieres.classesId m ->
             Matieres.id x <> id ->
             Matieres.nom x <> name) ->
  status (fst (serve (MatieresRoutes.put_id id d) w)) = 200
  /\ option_map Matieres.nom
       (find_id Matieres.id id
          (matieres (db (snd (serve (MatieresRoutes.put_id id d) w)))))
     = Some name
  /\ map Matieres.id (matieres (db (snd (serve (MatieresRoutes.put_id id d) w))))
     = map Matieres.id (matieres (db w)).
Proof.
  intros Hw Hm Hn Hne Hc Hfree. world w. apply truthy_nonempty in Hne.
  assert (Hdup : find (fun x => (Matieres.nom x =? name)
                                && (Matieres.classesId x =? Matieres.classesId m)
                                && negb (Matieres.id x =? id)) (matieres st) = None).
  { apply find_absent. intros x Hx.
    destruct (Matieres.classesId x =? Matieres.classesId m) eqn:E1;
      [|now rewrite andb_false_r].
    destruct (Matieres.id x =? id) eqn:E2; [now rewrite andb_false_r|].
    apply String.eqb_eq in E1. apply String.eqb_neq in E2.
    pose proof (Hfree x Hx E1 E2) as Hx'. apply String.eqb_neq in Hx'.
    now rewrite Hx'. }
  assert (Hwrite : DB.update_matieres id (MatieresRoutes.patch d clk) st
                   = (Ok (MatieresRoutes.patch d clk m),
                      DB.set_matieres
                        (amend_id Matieres.id id (MatieresRoutes.patch d clk)
                                  (matieres st)) st)).
  { unfold DB.update_matieres. rewrite Hm. cbv zeta.
    unfold MatieresRoutes.patch at 1 2. cbn [Matieres.classesId].
    rewrite Hc. cbn [keep]. now rewrite String.eqb_refl. }
  unfold MatieresRoutes.put_id, serve, try_catch.
  rewrite bind_read, Hm. cbv zeta. rewrite Hc, Hn, Hne. cbn [or_else].
  rewrite bind_read, Hdup, bind_now. erewrite bind_write by exact Hwrite.
  cbn [c_json_ok c_json ret fst snd status db matieres DB.set_matieres].
  split; [reflexivity|]. split.
  - rewrite (find_id_amend_id Matieres.id (MatieresRoutes.patch d clk) id
               (matieres st) (fun _ => eq_refl)), Hm.
    unfold MatieresRoutes.patch. cbn [option_map Matieres.nom]. now rewrite Hn.
  - unfold amend_id. rewrite map_map. apply map_ext. intros x.
    now destruct (Matieres.id x =? id).
Qed.
(** ** Exercises *)

Lemma create_exercice_refused (i nom : string) (description : option string)
    (matieresId : string) (sousLeconsId leconId : option string)
    (ty : ExercicesRoutes.createType) (t : Z) (st : Store) :
  ty <> ExercicesRoutes.cQCM ->
  DB.create_exercice i nom description matieresId sousLeconsId leconId
                     (ExercicesRoutes.string_of_createType ty) t st
  = (Throw InvalidArgument, st).
Proof. destruct ty; [contradiction | reflexivity ..]. Qed.

Lemma check_ref_passed {T} (key : T -> string) (table : Store -> list T)
    (ref : option string) (msg : string) (k : M Response)
    (st : Store) (c : Z) (n : nat) (e : Env) :
  exists_if_given key ref (table st) = true ->
  ExercicesRoutes.check_ref key table ref msg k (mkWorld st [] c n e)
  = k (mkWorld st [] c n e).
Proof.
  intros H. rewrite check_ref_healthy. destruct ref as [i|]; [|reflexivity].
  cbn in H. destruct (has_id_find _ _ _ H) as [x [Hx _]]. now rewrite Hx.
Qed.

(** X8.  POST /exercices creates QCM exercises and nothing else.  The
    validation schema lets "VRAI_FAUX", "COMPLETION" and "REDACTION"
    through, the enumeration of the data model has none of them: such a
    request never writes, whatever the storage layer does, a 201 is only
    ever the answer to a QCM, and with the storage layer working and all
    the parents in place the answer to another type is 500. *)
Theorem exercice_create_only_QCM (data : ExercicesRoutes.createExercice) (w : World) :
  (status (fst (serve (ExercicesRoutes.post_root data) w)) = 201 ->
   ExercicesRoutes.create_typesExercice data = ExercicesRoutes.cQCM)
  /\ (ExercicesRoutes.create_typesExercice data <> ExercicesRoutes.cQCM ->
      db (snd (serve (ExercicesRoutes.post_root data) w)) = db w
      /\ (healthy w -> create_parents_exist data (db w) = true ->
          status (fst (serve (ExercicesRoutes.post_root data) w)) = 500)).
Proof.
  split; [|intros Hty; split].
  - intros H.
    destruct (ExercicesRoutes.create_typesExercice data) eqn:Ety; [reflexivity | ..].
    all: exfalso; unfold ExercicesRoutes.post_root, ExercicesRoutes.check_ref in H;
      run_handler H; outcomes H;
      rewrite Ety in *; cbn in *; settle; discriminate.
  - apply (keeps_serve stable_unchanged). unfold ExercicesRoutes.post_root.
    keeps_all stable_unchanged.
    all: apply (keeps_prisma stable_unchanged); intros st;
      rewrite create_exercice_refused by exact Hty; reflexivity.
  - intros Hw Hp. world w. unfold create_parents_exist in Hp.
    apply andb_prop in Hp. destruct Hp as [Hp Hl].
    apply andb_prop in Hp. destruct Hp as [Hm Hs].
    destruct (has_id_find _ _ _ Hm) as [m [Hfind _]].
    unfold ExercicesRoutes.post_root, serve, try_catch. rewrite bind_read, Hfind.
    rewrite (check_ref_passed SousLecons.id sousLecons _ _ _ _ _ _ _ Hs).
    rewrite (check_ref_passed Lecons.id lecons _ _ _ _ _ _ _ Hl).
    rewrite bind_draw, bind_now.
    erewrite bind_refused
      by (rewrite create_exercice_refused by exact Hty; reflexivity).
    reflexivity.
Qed.

Lemma update_exercice_refused (id : string) (data : ExercicesRoutes.updateExercice)
    (u : ExercicesRoutes.updateType) (t : Z) (st : Store) :
  ExercicesRoutes.update_typesExercice data = Some u ->
  u <> ExercicesRoutes.uQCM ->
  ExercicesRoutes.update id data t st = (Throw InvalidArgument, st).
Proof.
  intros Hu Hne. unfold ExercicesRoutes.update. rewrite Hu.
  destruct u; [contradiction | reflexivity ..].
Qed.

(** X9.  PUT /exercices/:id cannot change the type of an exercise to
    anything but QCM: the validation schema lets "VRAI_FAUX" and
    "COMPLETION" through, the enumeration of the data model has neither.
    Such a request never writes, whatever the storage layer does, and with
    the storage layer working, the exercise and the parents of the payload
    in place, it is answered 500. *)
Theorem exercice_update_type_refused (id : string)
    (data : ExercicesRoutes.updateExercice) (u : ExercicesRoutes.updateType)
    (w : World) :
  ExercicesRoutes.update_typesExercice data = Some u ->
  u <> ExercicesRoutes.uQCM ->
  db (snd (serve (ExercicesRoutes.put_id id data) w)) = db w
  /\ (healthy w ->
      has_id Exercices.id id (exercices (db w)) = true ->
      update_parents_exist data (db w) = true ->
      status (fst (serve (ExercicesRoutes.put_id id data) w)) = 500).
Proof.
  intros Hu Hne. split.
  - apply (keeps_serve stable_unchanged). unfold ExercicesRoutes.put_id.
    keeps_all stable_unchanged.
    all: apply (keeps_prisma stable_unchanged); intros st;
      rewrite (update_exercice_refused _ _ _ _ Hu Hne); reflexivity.
  - intros Hw He Hp. world w. unfold update_parents_exist in Hp.
    apply andb_prop in Hp. destruct Hp as [Hp Hl].
    apply andb_prop in Hp. destruct Hp as [Hm Hs].
    destruct (has_id_find _ _ _ He) as [x [Hfind _]].
    unfold ExercicesRoutes.put_id, serve, try_catch. rewrite bind_read, Hfind.
    rewrite (check_ref_passed Matieres.id matieres _ _ _ _ _ _ _ Hm).
    rewrite (check_ref_passed SousLecons.id sousLecons _ _ _ _ _ _ _ Hs).
    rewrite (check_ref_passed Lecons.id lecons _ _ _ _ _ _ _ Hl).
    rewrite bind_now.
    erewrite bind_refused by (apply (update_exercice_refused _ _ _ _ Hu Hne)).
    reflexivity.
Qed.
(** ** Records that are not there *)

Lemma classes_include_valid (include : option string) :
  forallb (Include.valid Include.MClasses) (ClassesReads.includeOptions include) = true.
Proof.
  unfold ClassesReads.includeOptions.
  destruct (Include.asks include "matieres"); reflexivity.
Qed.

Lemma matieres_include_valid (include : option string) :
  forallb (Include.valid Include.MMatieres) (MatieresReads.includeOptions include) = true.
Proof.
  unfold MatieresReads.includeOptions.
  destruct (Include.asks include "classes"), (Include.asks include "lecons"),
    (Include.asks include "exercices"); reflexivity.
Qed.

Lemma lecons_include_valid (include : option string) :
  Include.asks include "utilisateurs" = false ->
  forallb (Include.valid Include.MLecons) (LeconsReads.buildIncludeOptions include) = true.
Proof.
  intros H. unfold LeconsReads.buildIncludeOptions. rewrite H.
  destruct (Include.asks include "matieres"), (Include.asks include "souslecons"),
    (Include.asks include "exercices"); reflexivity.
Qed.

Lemma sousLecons_include_valid (include : option string) :
  forallb (Include.valid Include.MSousLecons)
          (SousLeconsReads.buildIncludeOptions include) = true.
Proof.
  unfold SousLeconsReads.buildIncludeOptions.
  destruct (Include.asks include "lecons"), (Include.asks include "exercices");
    reflexivity.
Qed.

(** Reading one record with an [include] the data model accepts. *)
Lemma findUnique_accepted {T} (m : Include.Model) (include : list Include.t)
    (found : Store -> option T) (render : Store -> T -> Json) (st : Store) :
  forallb (Include.valid m) include = true ->
  Include.findUnique m include found render st
  = (Ok (option_map (render st) (found st)), st).
Proof. intros H. unfold Include.findUnique. now rewrite H. Qed.

Ltac absent Hid :=
  unfold serve, finally_, try_catch, disconnect;
  rewrite ?Hid; cbn [negb];
  rewrite bind_read;
  match goal with
  | Hf : find_id _ _ _ = None |- _ => rewrite Hf
  end;
  split; reflexivity.

Ltac absent_included Hid Hvalid :=
  unfold serve, finally_, try_catch, disconnect;
  rewrite ?Hid; cbn [negb]; cbv zeta;
  erewrite bind_write by (apply findUnique_accepted, Hvalid);
  cbv beta;
  match goal with
  | Hf : find_id _ _ _ = None |- _ => rewrite Hf
  end;
  split; reflexivity.

(** The answer to a record that is not there, endpoint by endpoint. *)
Lemma absent_record_answer (r : Addressed) (id : string) (w : World) :
  healthy w ->
  id <> "" ->
  include_accepted r = true ->
  present r id (db w) = false ->
  status (fst (serve (addressed_endpoint r id) w)) = status_if_missing r
  /\ db (snd (serve (addressed_endpoint r id) w)) = db w.
Proof.
  intros Hw Hid Hinc Hp. world w. apply truthy_nonempty' in Hid.
  destruct r as [q|q|q|q|q|o| | |q| | |q|q|q|q|q| |d|d|d|d|d|d|d|d|b|g| | | ];
    try destruct g;
    cbn [addressed_endpoint present status_if_missing include_accepted
         delete_endpoint] in *;
    apply has_id_false_find in Hp.
  - unfold ClassesReads.get_id, ClassesReads.get_id_body.
    absent_included Hid (classes_include_valid (ClassesRoutes.include q)).
  - unfold ClassesReads.get_id2, ClassesReads.get_id_body.
    absent_included Hid (classes_include_valid (ClassesRoutes.include q)).
  - unfold MatieresReads.get_id.
    absent_included Hid (matieres_include_valid (MatieresRoutes.include q)).
  - apply negb_true_iff in Hinc. unfold LeconsReads.get_id.
    absent_included Hid (lecons_include_valid _ Hinc).
  - unfold SousLeconsReads.get_id.
    absent_included Hid (sousLecons_include_valid (SousLeconsRoutes.include q)).
  - unfold ExercicesReads.get_id. cbv zeta. absent Hid.
  - unfold OptionsQCMItems.get_id. absent Hid.
  - unfold UserAccounts.get_id. absent Hid.
  - unfold ClassesRoutes.get_id_matieres. absent Hid.
  - unfold MatieresReads.get_id_lecons. absent Hid.
  - unfold MatieresReads.get_id_exercices. absent Hid.
  - unfold LeconsRoutes.get_id_souslecons. absent Hid.
  - unfold LeconsRoutes.get_id_exercices. absent Hid.
  - unfold LeconsRoutes.get_matieres_lecons. absent Hid.
  - unfold SousLeconsRoutes.get_id_exercices. absent Hid.
  - unfold SousLeconsRoutes.get_lecons_souslecons. absent Hid.
  - unfold OptionsQCMItems.get_exercice. absent Hid.
  - unfold ClassesRoutes.put_id, ClassesRoutes.put_body. absent Hid.
  - unfold ClassesRoutes2.put_id_update, ClassesRoutes.put_body. absent Hid.
  - unfold MatieresRoutes.put_id. absent Hid.
  - unfold LeconsRoutes.put_id. absent Hid.
  - unfold SousLeconsRoutes.put_id. absent Hid.
  - unfold ExercicesRoutes.put_id. absent Hid.
  - unfold OptionsQCMItems.put_id. absent Hid.
  - unfold UserAccounts.put_id. absent Hid.
  - unfold OptionsQCMItems.patch_select. absent Hid.
  - unfold ClassesRoutes.delete_id, ClassesRoutes.delete_body. absent Hid.
  - unfold ClassesRoutes2.delete_id_delete, ClassesRoutes.delete_body. absent Hid.
  - unfold MatieresRoutes.delete_id. absent Hid.
  - unfold LeconsRoutes.delete_id. absent Hid.
  - unfold SousLeconsRoutes.delete_id. absent Hid.
  - unfold ExercicesRoutes.delete_id. absent Hid.
  - unfold OptionsQCMItems.delete_id. absent Hid.
  - unfold UserAccounts.delete_id. absent Hid.
Qed.

(** X25.  A record that is not there is answered 404 and nothing is
    written: with the storage layer working, for every endpoint that names
    one record in its path, reads, updates and deletes alike, when the
    identifier is not empty and no row bears it.  The one exception is
    PUT /classes/:id/update, which is answered 500: its not-found branch
    calls [c.json] in a handler that binds no [c]. *)
Theorem missing_record (r : Addressed) (id : string) (w : World) :
  healthy w ->
  id <> "" ->
  include_accepted r = true ->
  present r id (db w) = false ->
  status (fst (serve (addressed_endpoint r id) w)) = status_if_missing r
  /\ db (snd (serve (addressed_endpoint r id) w)) = db w.
Proof. apply absent_record_answer. Qed.

(** What a 200 of a delete endpoint means for the database. *)
Lemma deleted_store (r : Addressed) (id : string) (w : World) :
  healthy w ->
  is_delete r = true ->
  status (fst (serve (addressed_endpoint r id) w)) = 200 ->
  healthy (snd (serve (addressed_endpoint r id) w))
  /\ present r id (db (snd (serve (addressed_endpoint r id) w))) = false.
Proof.
  intros Hw Hr H. world w.
  destruct r as [q|q|q|q|q|o| | |q| | |q|q|q|q|q| |d|d|d|d|d|d|d|d|b|g| | | ];
    try discriminate Hr; clear Hr; try destruct g;
    cbn [addressed_endpoint present delete_endpoint] in *.
  - unfold ClassesRoutes.delete_id, ClassesRoutes.delete_body in *.
    run_handler H. outcomes H. unfold DB.delete_classes in *. cbn in *. settle.
    split; [reflexivity | apply has_id_remove_id].
  - unfold ClassesRoutes2.delete_id_delete, ClassesRoutes.delete_body in *.
    run_handler H. outcomes H. unfold DB.delete_classes in *. cbn in *. settle.
    split; [reflexivity | apply has_id_remove_id].
  - unfold MatieresRoutes.delete_id in *.
    run_handler H. outcomes H. unfold DB.delete_matieres in *. cbn in *. settle.
    split; [reflexivity | apply has_id_remove_id].
  - unfold LeconsRoutes.delete_id in *.
    run_handler H. outcomes H. unfold DB.delete_lecons in *. cbn in *. settle.
    split; [reflexivity | apply has_id_remove_id].
  - unfold SousLeconsRoutes.delete_id in *.
    run_handler H. outcomes H. unfold DB.delete_sousLecons in *. cbn in *. settle.
    split; [reflexivity | apply has_id_remove_id].
  - unfold ExercicesRoutes.delete_id in *.
    run_handler H. outcomes H. unfold DB.delete_exercices in *. cbn in *. settle.
    split; [reflexivity | apply has_id_remove_id].
  - unfold OptionsQCMItems.delete_id in *.
    run_handler H. outcomes H. unfold DBMore.delete_optionsQCM in *. cbn in *. settle.
    split; [reflexivity | apply has_id_remove_id].
  - unfold UserAccounts.delete_id in *.
    run_handler H. outcomes H. unfold DBMore.delete_user in *. cbn in *. settle.
    split; [reflexivity | apply has_id_remove_id].
Qed.

(** X24.  What has been deleted is gone for every endpoint: with the
    storage layer working, once a delete endpoint has answered 200, the
    same delete sent again is answered 404, and so is every read, update or
    delete that names the same record (500 on PUT /classes/:id/update);
    none of them writes. *)
Theorem deleted_is_gone (r r' : Addressed) (id : string) (w : World) :
  healthy w ->
  id <> "" ->
  is_delete r = true ->
  status (fst (serve (addressed_endpoint r id) w)) = 200 ->
  include_accepted r' = true ->
  (forall st, present r' id st = present r id st) ->
  let w' := snd (serve (addressed_endpoint r id) w) in
  status (fst (serve (addressed_endpoint r' id) w')) = status_if_missing r'
  /\ db (snd (serve (addressed_endpoint r' id) w')) = db w'.
Proof.
  intros Hw Hid Hr H Hinc Hsame. cbv zeta.
  destruct (deleted_store r id Hw Hr H) as [Hw' Hgone].
  apply absent_record_answer; try assumption. now rewrite Hsame.
Qed.
(** ** Page numbers *)

Lemma find_page_negative {T} (rows : Store -> list T) (skip : Z) (take : nat)
    (st : Store) :
  (skip < 0)%Z -> ExercicesRoutes.find_page rows skip take st = (Throw InvalidArgument, st).
Proof.
  intros H. unfold ExercicesRoutes.find_page.
  now rewrite (proj2 (Z.ltb_lt skip 0) H).
Qed.

(** X10.  The page-based lists have no page 0: GET /exercices and
    GET /users with [page=0] and a limit of at least 1 compute a negative
    [skip], which the storage client refuses, and the answer is 500,
    whatever the tables hold. *)
Theorem page_zero_refused (w : World) :
  (forall q : ExercicesRoutes.query,
     ExercicesRoutes.page q = Some 0 ->
     1 <= default_nat 10 (ExercicesRoutes.limit q) ->
     status (fst (serve (ExercicesRoutes.get_root q) w)) = 500
     /\ db (snd (serve (ExercicesRoutes.get_root q) w)) = db w)
  /\ (forall q : UserRoutes.query,
        UserRoutes.page q = Some 0 ->
        1 <= default_nat 10 (UserRoutes.limit q) ->
        status (fst (serve (UserRoutes.get_root q) w)) = 500
        /\ db (snd (serve (UserRoutes.get_root q) w)) = db w).
Proof.
  split; intros q Hp Hl.
  - unfold ExercicesRoutes.get_root, serve, try_catch, bind, prisma.
    rewrite Hp. cbn [default_nat]. cbv zeta.
    destruct (hd false (faults w)); [split; reflexivity|].
    unfold ExercicesRoutes.filtering, searching, with_mode, validated.
    cbn [has_mode provider].
    destruct (truthy_opt (ExercicesRoutes.search q)); [split; reflexivity|].
    destruct (ExercicesRoutes.where_typed q); [|split; reflexivity].
    rewrite find_page_negative by lia. split; reflexivity.
  - unfold UserRoutes.get_root, serve, try_catch, bind, prisma.
    rewrite Hp. cbn [default_nat]. cbv zeta.
    destruct (hd false (faults w)); [split; reflexivity|].
    unfold searching, with_mode, validated. cbn [has_mode provider].
    destruct (truthy_opt (UserRoutes.search q)); [split; reflexivity|].
    rewrite find_page_negative by lia. split; reflexivity.
Qed.
(** ** What the user endpoints answer *)

Section Answers.

Variable P : Json -> Prop.

Lemma aw_c_json (j : Json) (s : nat) : P j -> answers_with P (c_json j s).
Proof. intros H w r w' E. injection E as <- _. exact H. Qed.

Lemma aw_throw (x : Exn) : answers_with P (throw x).
Proof. intros w r w' E. discriminate E. Qed.

Lemma aw_bind {A} (Q : A -> Prop) (m : M A) (f : A -> M Response) :
  produces Q m -> (forall a, Q a -> answers_with P (f a)) ->
  answers_with P (bind m f).
Proof.
  intros Hm Hf w r w' E. unfold bind in E.
  destruct (m w) as [[a|x] w1] eqn:Em; [|discriminate E].
  exact (Hf a (Hm _ _ _ Em) _ _ _ E).
Qed.

Lemma aw_try_catch (m : M Response) (h : Exn -> M Response) :
  answers_with P m -> (forall x, answers_with P (h x)) ->
  answers_with P (try_catch m h).
Proof.
  intros Hm Hh w r w' E. unfold try_catch in E.
  destruct (m w) as [[a|x] w1] eqn:Em.
  - injection E as <- _. exact (Hm _ _ _ Em).
  - exact (Hh x _ _ _ E).
Qed.

Lemma aw_serve (h : M Response) (w : World) :
  P (JStr "Internal Server Error") -> answers_with P h ->
  P (body (fst (serve h w))).
Proof.
  intros H0 Hh. unfold serve. destruct (h w) as [[r|x] w1] eqn:E; cbn.
  - exact (Hh _ _ _ E).
  - exact H0.
Qed.

End Answers.

Lemma produces_any {A} (m : M A) : produces (fun _ => True) m.
Proof. intros w a w' _. exact I. Qed.

Lemma produces_prisma {A} (Q : A -> Prop) (q : Op A) :
  (forall st a st', q st = (Ok a, st') -> Q a) -> produces Q (prisma q).
Proof.
  intros H w a w' E. unfold prisma in E.
  destruct (hd false (faults w)); [discriminate E|].
  destruct (q (db w)) as [o d] eqn:Eq. injection E as -> _. exact (H _ _ _ Eq).
Qed.

Lemma mentions_fields (k : string) (fs : list (string * Json)) :
  mentions k (JObj fs)
  = existsb (fun kv => (fst kv =? k) || mentions k (snd kv)) fs.
Proof.
  induction fs as [|[k' v] fs IH]; [reflexivity|].
  cbn [existsb fst snd]. rewrite <- IH. reflexivity.
Qed.

Lemma mentions_with_fields (k : string) (fs fs' : list (string * Json)) :
  mentions k (JObj fs) = false -> mentions k (JObj fs') = false ->
  mentions k (with_fields (JObj fs) fs') = false.
Proof.
  intros H H'. cbn [with_fields]. rewrite mentions_fields in *.
  now rewrite existsb_app, H, H'.
Qed.

Lemma mentions_rows {T} (k : string) (f : T -> Json) (l : list T) :
  (forall x, mentions k (f x) = false) -> mentions k (JArr (map f l)) = false.
Proof.
  intros H. cbn [mentions]. induction l as [|x l IH]; [reflexivity|].
  cbn [map existsb]. now rewrite H, IH.
Qed.

Lemma hidden_error (msg : string) : mentions "password" (ExercicesRoutes.error msg) = false.
Proof. reflexivity. Qed.

Lemma hidden_opt_str (o : option string) : mentions "password" (J.opt_str o) = false.
Proof. now destruct o. Qed.

Lemma hidden_opt_num (o : option Z) : mentions "password" (J.opt_num o) = false.
Proof. now destruct o. Qed.

Lemma hidden_selected (u : User.t) : mentions "password" (UserRoutes.selected u) = false.
Proof.
  unfold UserRoutes.selected. rewrite mentions_fields. cbn [existsb fst snd].
  now rewrite !hidden_opt_str.
Qed.

Lemma hidden_profile (u : User.t) : mentions "password" (UserRoutes.profile u) = false.
Proof.
  unfold UserRoutes.profile. rewrite mentions_fields. cbn [existsb fst snd].
  now rewrite !hidden_opt_str.
Qed.

Lemma hidden_listed (st : Store) (u : User.t) :
  mentions "password" (UserRoutes.listed st u) = false.
Proof.
  unfold UserRoutes.listed. rewrite mentions_fields. cbn [existsb fst snd].
  now rewrite !hidden_opt_str, !hidden_opt_num.
Qed.

Lemma hidden_columns (u : User.t) : mentions "password" (UserAccounts.columns u) = false.
Proof.
  unfold UserAccounts.columns. rewrite mentions_fields. cbn [existsb fst snd].
  now rewrite !hidden_opt_str, !hidden_opt_num.
Qed.

Lemma hidden_with_progress (st : Store) (u : User.t) :
  mentions "password" (UserAccounts.with_progress st u) = false.
Proof.
  unfold UserAccounts.with_progress.
  apply mentions_with_fields; [apply hidden_columns|].
  rewrite mentions_fields. cbn [existsb fst snd].
  rewrite !mentions_rows; [reflexivity | reflexivity | reflexivity].
Qed.

Lemma hidden_paging (page limit total : nat) :
  mentions "password" (ExercicesRoutes.paging page limit total) = false.
Proof.
  unfold ExercicesRoutes.paging, ExercicesRoutes.pages.
  rewrite mentions_fields. cbn [existsb fst snd].
  destruct limit; reflexivity.
Qed.

Ltac hidden :=
  repeat first
    [ apply hidden_error | apply hidden_selected | apply hidden_profile
    | apply hidden_listed | apply hidden_columns | apply hidden_with_progress
    | apply hidden_paging | reflexivity ].

(** X27.  No endpoint of utilisateurs.ts answers with a field called
    [password], at any depth of the body, whatever the request, the
    database and the storage layer: every answer that carries user rows is
    built from a [select] that leaves the column out. *)
Theorem user_answers_hide_password (r : UserRequest) (w : World) :
  mentions "password" (body (fst (serve (user_endpoint r) w))) = false.
Proof.
  apply (@aw_serve (fun j => mentions "password" j = false)); [reflexivity|].
  destruct r as [data|data|q|id|id data|id| |data| ]; cbn [user_endpoint].
  - apply aw_try_catch; [|intros x; apply aw_c_json; hidden].
    apply aw_bind with (Q := fun _ => True); [apply produces_any|].
    intros [u|] _; [apply aw_c_json; hidden|].
    apply aw_bind with (Q := fun _ => True); [apply produces_any|]. intros h _.
    apply aw_bind with (Q := fun _ => True); [apply produces_any|]. intros i _.
    apply aw_bind with (Q := fun _ => True); [apply produces_any|]. intros t _.
    apply aw_bind with (Q := fun _ => True); [apply produces_any|]. intros u _.
    apply aw_c_json. rewrite mentions_fields. cbn [existsb fst snd].
    now rewrite hidden_selected.
  - apply aw_try_catch; [|intros x; apply aw_c_json; hidden].
    apply aw_bind with (Q := fun _ => True); [apply produces_any|].
    intros [u|] _; [|apply aw_c_json; hidden].
    apply aw_bind with (Q := fun _ => True); [apply produces_any|].
    intros [|] _; cbn [negb]; [|apply aw_c_json; hidden].
    apply aw_bind with (Q := fun _ => True); [apply produces_any|]. intros t _.
    apply aw_bind with (Q := fun _ => True); [apply produces_any|]. intros _ _.
    apply aw_bind with (Q := fun _ => True); [apply produces_any|]. intros d _.
    apply aw_bind with (Q := fun _ => True); [apply produces_any|]. intros e _.
    apply aw_c_json. rewrite mentions_fields. cbn [existsb fst snd].
    now rewrite hidden_profile.
  - apply aw_try_catch; [|intros x; apply aw_c_json; hidden]. cbv zeta.
    apply aw_bind
      with (Q := fun rows => mentions "password" (JArr rows) = false).
    + apply produces_prisma. intros st rows st' E.
      unfold searching, with_mode, validated in E. cbn [has_mode provider] in E.
      destruct (truthy_opt (UserRoutes.search q)); [discriminate E|].
      unfold ExercicesRoutes.find_page in E.
      destruct (_ <? 0)%Z; [discriminate E|]. injection E as <- <-.
      apply mentions_rows. apply hidden_listed.
    + intros rows Hrows.
      apply aw_bind with (Q := fun _ => True); [apply produces_any|]. intros n _.
      apply aw_c_json. rewrite mentions_fields. cbn [existsb fst snd].
      now rewrite Hrows, hidden_paging.
  - apply aw_try_catch; [|intros x; apply aw_c_json; hidden].
    apply aw_bind
      with (Q := fun o => forall j, o = Some j -> mentions "password" j = false).
    + apply produces_prisma. intros st o st' E. injection E as <- _.
      intros j Hj. destruct (find_id _ _ _); [|discriminate Hj].
      injection Hj as <-. apply hidden_with_progress.
    + intros [j|] Hj; apply aw_c_json; [now apply Hj | hidden].
  - apply aw_try_catch; [|intros x; apply aw_c_json; hidden].
    apply aw_bind with (Q := fun _ => True); [apply produces_any|].
    intros [u|] _; [|apply aw_c_json; hidden]. cbv zeta.
    assert (Hwrite : answers_with (fun j => mentions "password" j = false)
              (hashed <- match given1 (UserAccounts.update_password data) with
                         | Some password =>
                             h <- hashPassword password ;; ret (Some h)
                         | None => ret None
                         end ;;
               t <- now ;;
               updatedUser <- prisma (UserAccounts.update id data hashed t) ;;
               c_json_ok (JObj [("message", JStr "Utilisateur mis à jour avec succès");
                                ("user", updatedUser)]))).
    { apply aw_bind with (Q := fun _ => True); [apply produces_any|]. intros h _.
      apply aw_bind with (Q := fun _ => True); [apply produces_any|]. intros t _.
      apply aw_bind with (Q := fun j => mentions "password" j = false).
      - apply produces_prisma. intros st j st' E. unfold UserAccounts.update in E.
        destruct (UserAccounts.update_typesUtilisateur data) as [role|].
        + destruct (TypesUtilisateur_of_string _); [|discriminate E].
          destruct (DB.update_user _ _ _) as [[u'|x] st1]; [|discriminate E].
          injection E as <- _. apply hidden_columns.
        + destruct (DB.update_user _ _ _) as [[u'|x] st1]; [|discriminate E].
          injection E as <- _. apply hidden_columns.
      - intros j Hj. apply aw_c_json. rewrite mentions_fields.
        cbn [existsb fst snd]. now rewrite Hj. }
    destruct (given1 (UserAccounts.update_email data)) as [email|]; [|exact Hwrite].
    destruct (negb (email =? User.email u)); [|exact Hwrite].
    apply aw_bind with (Q := fun _ => True); [apply produces_any|].
    intros [u'|] _; [apply aw_c_json; hidden | exact Hwrite].
  - apply aw_try_catch; [|intros x; apply aw_c_json; hidden].
    apply aw_bind with (Q := fun _ => True); [apply produces_any|].
    intros [u|] _; [|apply aw_c_json; hidden].
    apply aw_bind with (Q := fun _ => True); [apply produces_any|]. intros _ _.
    apply aw_c_json; hidden.
  - apply aw_try_catch; [|intros x; apply aw_c_json; hidden].
    apply aw_bind with (Q := fun _ => True); [apply produces_any|]. intros c _.
    apply aw_bind with (Q := fun _ => True); [apply produces_any|]. intros i _.
    apply aw_bind
      with (Q := fun o => forall j, o = Some j -> mentions "password" j = false).
    + apply produces_prisma. intros st o st' E. injection E as <- _.
      intros j Hj. destruct (find_id _ _ _); [|discriminate Hj].
      injection Hj as <-. apply hidden_with_progress.
    + intros [j|] Hj; apply aw_c_json; [now apply Hj | hidden].
  - apply aw_try_catch; [|intros x; apply aw_c_json; hidden].
    apply aw_bind with (Q := fun _ => True); [apply produces_any|]. intros c _.
    apply aw_bind with (Q := fun _ => True); [apply produces_any|]. intros i _.
    apply aw_bind with (Q := fun _ => True); [apply produces_any|].
    intros [u|] _; [|apply aw_c_json; hidden].
    apply aw_bind with (Q := fun _ => True); [apply produces_any|].
    intros [|] _; cbn [negb]; [|apply aw_c_json; hidden].
    apply aw_bind with (Q := fun _ => True); [apply produces_any|]. intros h _.
    apply aw_bind with (Q := fun _ => True); [apply produces_any|]. intros i' _.
    apply aw_bind with (Q := fun _ => True); [apply produces_any|]. intros t _.
    apply aw_bind with (Q := fun _ => True); [apply produces_any|]. intros _ _.
    apply aw_c_json; hidden.
  - apply aw_try_catch; [|intros x; apply aw_c_json; hidden].
    apply aw_c_json; hidden.
Qed.
(** ** Storage failures, every handler *)

Lemma ru_userId_of (currentUser : option JWTPayload) :
  returns_undisturbed (UserAccounts.userId_of currentUser).
Proof. destruct currentUser; [apply ru_ret | apply ru_throw]. Qed.

Lemma ru_getCurrentUser (vars : UserAccounts.Vars) :
  returns_undisturbed (UserAccounts.getCurrentUser vars).
Proof. apply ru_ret. Qed.

Ltac undisturbed_more :=
  cbv zeta;
  repeat first
    [ apply ru_userId_of | apply ru_getCurrentUser | progress undisturbed ].

(** X1.  A storage call that fails is answered 500.  For every handler of
    the embedding but POST /classes/new, and every schedule of storage
    failures: either the answer is 500, or every storage call the handler
    made went through.  (POST /classes/new answers 501.) *)
Theorem storage_failure_answer (r : AnyRequest) : failure_is_500 (any_endpoint r).
Proof.
  destruct r as [r|r id| |d| ]; cbn [any_endpoint].
  - apply storage_failure_is_500.
  - destruct r as [q|q|q|q|q|o| | |q| | |q|q|q|q|q| |d|d|d|d|d|d|d|d|b|g| | | ];
      cbn [addressed_endpoint].
    all: try (apply (storage_failure_is_500 (List (ListMatieresOfClasse id q)))).
    all: try (apply (storage_failure_is_500 (List (ListSousLeconsOfLecon id q)))).
    all: try (apply (storage_failure_is_500 (List (ListExercicesOfLecon id q)))).
    all: try (apply (storage_failure_is_500 (List (ListLeconsOfMatiere id q)))).
    all: try (apply (storage_failure_is_500 (List (ListExercicesOfSousLecon id q)))).
    all: try (apply (storage_failure_is_500 (List (ListSousLeconsByLecon id q)))).
    all: try (apply (storage_failure_is_500 (Rename (RenameClasse id d)))).
    all: try (apply (storage_failure_is_500 (Rename (RenameClasse2 id d)))).
    all: try (apply (storage_failure_is_500 (Rename (RenameMatiere id d)))).
    all: try (apply (storage_failure_is_500 (Rename (RenameLecon id d)))).
    all: try (apply (storage_failure_is_500 (Rename (RenameSousLecon id d)))).
    all: try (apply (storage_failure_is_500 (Write (UpdateExercice id d)))).
    all: try (apply (storage_failure_is_500 (Delete g id))).
    all: try (apply (storage_failure_is_500 (DeleteExercice id))).
    all: try (apply catch_500_finally; unfold ClassesReads.get_id_body;
              undisturbed_more).
    all: try (apply catch_500; unfold ClassesReads.get_id_body; undisturbed_more).
  - apply catch_500; undisturbed_more.
  - apply catch_500; undisturbed_more.
  - apply catch_500; undisturbed_more.
Qed.
(** ** The same facts on the sample school *)

(** GET /classes?limit=1 in the first revision: two classes, one returned,
    and [hasMore] is false. *)
Lemma classes_first_list_hasMore_witness :
  J.path ["pagination"; "hasMore"]
         (body (fst (serve (ClassesRoutes.get_root
                              (ClassesRoutes.Build_query None 1 0 None))
                           Sample.world))) = Some (JBool false)
  /\ J.path ["pagination"; "total"]
            (body (fst (serve (ClassesRoutes.get_root
                                 (ClassesRoutes.Build_query None 1 0 None))
                              Sample.world))) = None.
Proof.
  exact (@classes_first_list_hasMore (ClassesRoutes.Build_query None 1 0 None)
                                     Sample.world eq_refl).
Defined.

(** The exercise "Calcul" has neither option nor response: it goes, and
    "Quiz" is the one exercise left. *)
Lemma exercice_delete_unreferenced_witness :
  fst (serve (ExercicesRoutes.delete_id "cexercice2") Sample.world)
  = mkResponse 200
      (JObj [("message", JStr "Exercice supprimé avec succès");
             ("deletedRelations", JObj [("options", jnat 0); ("reponses", jnat 0)])])
  /\ exercices (db (snd (serve (ExercicesRoutes.delete_id "cexercice2") Sample.world)))
     = [Sample.quiz]
  /\ DB.set_exercices [Sample.quiz; Sample.calcul]
       (db (snd (serve (ExercicesRoutes.delete_id "cexercice2") Sample.world)))
     = Sample.school.
Proof.
  destruct (@exercice_delete_unreferenced "cexercice2" Sample.world
                                          eq_refl eq_refl eq_refl eq_refl)
    as [Hanswer [_ [Hrows Hrest]]].
  split; [exact Hanswer|]. split; [now rewrite Hrows|].
  change (DB.set_exercices [Sample.quiz; Sample.calcul]
            (DB.set_exercices []
               (db (snd (serve (ExercicesRoutes.delete_id "cexercice2") Sample.world))))
          = Sample.school).
  now rewrite Hrest.
Defined.
(** ** The further facts on the sample schools *)

(** The lesson "Angles" for the subject "Math", which has no lesson of
    that name. *)
Lemma create_with_mode_fails_witness :
  db (snd (serve (create_endpoint
                    (NewLecon (LeconsRoutes.Build_createLecon
                                 "Angles" None "cmatiere01")))
                 Sample.world)) = db Sample.world
  /\ status (fst (serve (create_endpoint
                           (NewLecon (LeconsRoutes.Build_createLecon
                                        "Angles" None "cmatiere01")))
                        Sample.world)) = 500.
Proof.
  destruct (@create_with_mode_fails
              (NewLecon (LeconsRoutes.Build_createLecon "Angles" None "cmatiere01"))
              Sample.world eq_refl) as [Hdb [_ Hstatus]].
  split; [exact Hdb | exact (Hstatus eq_refl eq_refl)].
Defined.

(** The subject "Sciences" of the class CM2, created and asked for once
    more. *)
Lemma create_twice_refused_witness :
  status (fst (serve (create_endpoint
                        (NewMatiere (MatieresRoutes.Build_createMatiere
                                       "Sciences" None "cclasse001" None None)))
                     (snd (serve (create_endpoint
                                    (NewMatiere (MatieresRoutes.Build_createMatiere
                                                   "Sciences" None "cclasse001"
                                                   None None)))
                                 Sample.world)))) = 400
  /\ db (snd (serve (create_endpoint
                       (NewMatiere (MatieresRoutes.Build_createMatiere
                                      "Sciences" None "cclasse001" None None)))
                    (snd (serve (create_endpoint
                                   (NewMatiere (MatieresRoutes.Build_createMatiere
                                                  "Sciences" None "cclasse001"
                                                  None None)))
                                Sample.world))))
     = db (snd (serve (create_endpoint
                         (NewMatiere (MatieresRoutes.Build_createMatiere
                                        "Sciences" None "cclasse001" None None)))
                      Sample.world)).
Proof.
  exact (@create_twice_refused
           (NewMatiere (MatieresRoutes.Build_createMatiere
                          "Sciences" None "cclasse001" None None))
           Sample.world eq_refl eq_refl eq_refl).
Defined.

(** GET /lecons?search=frac and GET /users?search=alice. *)
Lemma list_refused_witness :
  status (fst (serve (list_endpoint
                        (ListLecons (LeconsRoutes.Build_query
                                       None 50 0 (Some "frac") None by_createdAt desc)))
                     Sample.world)) = 500
  /\ status (fst (serve (list_endpoint
                           (ListUsers 0 (UserRoutes.Build_query
                                           None None (Some "alice"))))
                        Sample.world)) = 500.
Proof.
  split.
  - exact (proj1 (@list_refused
                    (ListLecons (LeconsRoutes.Build_query
                                   None 50 0 (Some "frac") None by_createdAt desc))
                    Sample.world eq_refl eq_refl)).
  - exact (proj1 (@list_refused
                    (ListUsers 0 (UserRoutes.Build_query None None (Some "alice")))
                    Sample.world eq_refl eq_refl)).
Defined.

(** The lesson "Fractions" of "Histoire" moves to "Math", which has a
    lesson "Fractions". *)
Lemma move_without_rename_witness :
  status (fst (serve (rename_endpoint
                        (RenameLecon "clecon0003"
                           (LeconsRoutes.Build_updateLecon None None (Some "cmatiere01"))))
                     Campus.world)) = 200
  /\ stored (RenameLecon "clecon0003"
               (LeconsRoutes.Build_updateLecon None None (Some "cmatiere01")))
            (db (snd (serve (rename_endpoint
                               (RenameLecon "clecon0003"
                                  (LeconsRoutes.Build_updateLecon
                                     None None (Some "cmatiere01"))))
                            Campus.world)))
     = Some ("Fractions", "cmatiere01").
Proof.
  refine (@move_without_rename
            (RenameLecon "clecon0003"
               (LeconsRoutes.Build_updateLecon None None (Some "cmatiere01")))
            Campus.world "Fractions" "cmatiere02" "cmatiere01"
            eq_refl _ eq_refl eq_refl eq_refl _ eq_refl); discriminate.
Defined.

(** A true-or-false exercise in "Math". *)
Lemma exercice_create_only_QCM_witness :
  db (snd (serve (ExercicesRoutes.post_root
                    (ExercicesRoutes.Build_createExercice
                       "Vrai ou faux" None "cmatiere01" None None
                       ExercicesRoutes.cVRAI_FAUX))
                 Sample.world)) = db Sample.world
  /\ status (fst (serve (ExercicesRoutes.post_root
                           (ExercicesRoutes.Build_createExercice
                              "Vrai ou faux" None "cmatiere01" None None
                              ExercicesRoutes.cVRAI_FAUX))
                        Sample.world)) = 500.
Proof.
  refine (match proj2 (@exercice_create_only_QCM
                         (ExercicesRoutes.Build_createExercice
                            "Vrai ou faux" None "cmatiere01" None None
                            ExercicesRoutes.cVRAI_FAUX)
                         Sample.world) _ with
          | conj Hdb Hstatus => conj Hdb (Hstatus eq_refl eq_refl)
          end).
  discriminate.
Defined.

(** The exercise "Quiz" asked to become a completion exercise. *)
Lemma exercice_update_type_refused_witness :
  db (snd (serve (ExercicesRoutes.put_id "cexercice1"
                    (ExercicesRoutes.Build_updateExercice
                       None None None None None (Some ExercicesRoutes.uCOMPLETION)))
                 Sample.world)) = db Sample.world
  /\ status (fst (serve (ExercicesRoutes.put_id "cexercice1"
                           (ExercicesRoutes.Build_updateExercice
                              None None None None None
                              (Some ExercicesRoutes.uCOMPLETION)))
                        Sample.world)) = 500.
Proof.
  refine (match @exercice_update_type_refused "cexercice1"
                  (ExercicesRoutes.Build_updateExercice
                     None None None None None (Some ExercicesRoutes.uCOMPLETION))
                  ExercicesRoutes.uCOMPLETION Sample.world eq_refl _ with
          | conj Hdb Hstatus => conj Hdb (Hstatus eq_refl eq_refl eq_refl)
          end).
  discriminate.
Defined.

(** GET /exercices?page=0 and GET /users?page=0&limit=5. *)
Lemma page_zero_refused_witness :
  status (fst (serve (ExercicesRoutes.get_root
                        (ExercicesRoutes.Build_query (Some 0) None None None None None
                                                     None))
                     Sample.world)) = 500
  /\ status (fst (serve (UserRoutes.get_root
                           (UserRoutes.Build_query (Some 0) (Some 5) None))
                        Sample.world)) = 500.
Proof.
  split.
  - refine (proj1 (proj1 (page_zero_refused Sample.world)
                     (ExercicesRoutes.Build_query (Some 0) None None None None None None)
                     eq_refl _)).
    cbn. lia.
  - refine (proj1 (proj2 (page_zero_refused Sample.world)
                     (UserRoutes.Build_query (Some 0) (Some 5) None) eq_refl _)).
    cbn. lia.
Defined.

(** Bob, who has started a lesson, and Alice, who has not. *)
Lemma user_delete_restricted_witness :
  (status (fst (serve (UserAccounts.delete_id "cuser00002") Campus.world)) = 500
   /\ db (snd (serve (UserAccounts.delete_id "cuser00002") Campus.world))
      = db Campus.world)
  /\ (status (fst (serve (UserAccounts.delete_id "cuser00001") Campus.world)) = 200
      /\ users (db (snd (serve (UserAccounts.delete_id "cuser00001") Campus.world)))
         = [Campus.bob]).
Proof.
  split.
  - exact (@user_delete_restricted "cuser00002" Campus.world eq_refl eq_refl).
  - destruct (@user_delete_restricted "cuser00001" Campus.world eq_refl eq_refl)
      as [Hs Hd].
    split; [exact Hs | now rewrite Hd].
Defined.

(** Alice asked to become a "USER". *)
Lemma user_update_role_USER_witness :
  db (snd (serve (UserAccounts.put_id "cuser00001"
                    (UserAccounts.Build_updateUser None None None None None
                                                   (Some UserAccounts.rUSER)))
                 Sample.world)) = db Sample.world
  /\ status (fst (serve (UserAccounts.put_id "cuser00001"
                           (UserAccounts.Build_updateUser None None None None None
                                                          (Some UserAccounts.rUSER)))
                        Sample.world)) = 500.
Proof.
  exact (match @user_update_role_USER "cuser00001"
                 (UserAccounts.Build_updateUser None None None None None
                                                (Some UserAccounts.rUSER))
                 Sample.world eq_refl with
         | conj Hdb Hstatus => conj Hdb (Hstatus eq_refl Sample.alice eq_refl eq_refl)
         end).
Defined.

(** Alice takes the password "secret2" and logs in with it. *)
Lemma password_update_then_login_witness :
  status (fst (serve (UserAccounts.put_id "cuser00001"
                        (UserAccounts.Build_updateUser None None None (Some "secret2")
                                                       None None))
                     Sample.world)) = 200
  /\ status (fst (serve (UserRoutes.post_login
                           (UserRoutes.Build_login "alice@studly.app" "secret2"))
                        (snd (serve (UserAccounts.put_id "cuser00001"
                                       (UserAccounts.Build_updateUser
                                          None None None (Some "secret2") None None))
                                    Sample.world)))) = 200.
Proof.
  refine (@password_update_then_login
            (UserAccounts.Build_updateUser None None None (Some "secret2") None None)
            "secret2" Sample.alice Sample.world eq_refl eq_refl eq_refl eq_refl _).
  discriminate.
Defined.

(** The option "1/2" of the exercise "Quiz" is selected. *)
Lemma option_select_one_flag_witness :
  status (fst (serve (OptionsQCMItems.patch_select "coption001" true) Sample.world))
  = 200
  /\ option_map OptionsQCM.isSelected
       (find_id OptionsQCM.id "coption001"
          (optionsQCM (db (snd (serve (OptionsQCMItems.patch_select "coption001" true)
                                      Sample.world)))))
     = Some true.
Proof.
  exact (proj2 (@option_select_one_flag "coption001" true Sample.world)
               eq_refl eq_refl).
Defined.

(** The option "1/3" of the exercise "Quiz", created and deleted. *)
Lemma option_create_delete_witness :
  optionsQCM (db (snd (serve (OptionsQCMRoutes.post_root
                                (OptionsQCMRoutes.Build_createOptionQCM
                                   "1/3" None "cexercice1" None false false))
                             Sample.world)))
  = [Sample.choix;
     OptionsQCM.mk "cnew000000" "1/3" None "cexercice1" None false false
                   1700000123456 1700000123456]
  /\ status (fst (serve (OptionsQCMItems.delete_id "cnew000000")
                        (snd (serve (OptionsQCMRoutes.post_root
                                       (OptionsQCMRoutes.Build_createOptionQCM
                                          "1/3" None "cexercice1" None false false))
                                    Sample.world)))) = 200
  /\ db (snd (serve (OptionsQCMItems.delete_id "cnew000000")
                    (snd (serve (OptionsQCMRoutes.post_root
                                   (OptionsQCMRoutes.Build_createOptionQCM
                                      "1/3" None "cexercice1" None false false))
                                Sample.world)))) = db Sample.world.
Proof.
  exact (@option_create_delete
           (OptionsQCMRoutes.Build_createOptionQCM "1/3" None "cexercice1" None
                                                   false false)
           Sample.world eq_refl eq_refl).
Defined.

(** GET /lecons/clecon0001?include=matieres,utilisateurs. *)
Lemma lecon_include_utilisateurs_witness :
  status (fst (serve (LeconsReads.get_id "clecon0001"
                        (LeconsRoutes.Build_query (Some "matieres,utilisateurs")
                                                  50 0 None None by_createdAt desc))
                     Sample.world)) = 500
  /\ db (snd (serve (LeconsReads.get_id "clecon0001"
                       (LeconsRoutes.Build_query (Some "matieres,utilisateurs")
                                                 50 0 None None by_createdAt desc))
                    Sample.world)) = db Sample.world.
Proof.
  exact (@lecon_include_utilisateurs "clecon0001"
           (LeconsRoutes.Build_query (Some "matieres,utilisateurs")
                                     50 0 None None by_createdAt desc)
           Sample.world eq_refl eq_refl).
Defined.

(** The subject "Sciences" of the class CM2, created and read back. *)
Lemma create_then_read_witness :
  fst (serve (read_back (NewMatiere (MatieresRoutes.Build_createMatiere
                                       "Sciences" None "cclasse001" None None))
                        "cnew000000")
             (snd (serve (create_endpoint
                            (NewMatiere (MatieresRoutes.Build_createMatiere
                                           "Sciences" None "cclasse001" None None)))
                         Sample.world)))
  = mkResponse 200
      (success_data
         (Matieres.to_json
            (Matieres.mk "cnew000000" "Sciences" None "cclasse001" None None
                         1700000123456 1700000123456))).
Proof.
  refine (@create_then_read
            (NewMatiere (MatieresRoutes.Build_createMatiere
                           "Sciences" None "cclasse001" None None))
            Sample.world eq_refl eq_refl eq_refl _).
  discriminate.
Defined.

(** The option "1/2" is deleted; reading it afterwards. *)
Lemma deleted_is_gone_witness :
  status (fst (serve (addressed_endpoint ReadOption "coption001")
                     (snd (serve (addressed_endpoint RemoveOption "coption001")
                                 Sample.world)))) = 404
  /\ db (snd (serve (addressed_endpoint ReadOption "coption001")
                    (snd (serve (addressed_endpoint RemoveOption "coption001")
                                Sample.world))))
     = db (snd (serve (addressed_endpoint RemoveOption "coption001") Sample.world)).
Proof.
  refine (@deleted_is_gone RemoveOption ReadOption "coption001" Sample.world
                           eq_refl _ eq_refl eq_refl eq_refl (fun _ => eq_refl)).
  discriminate.
Defined.

(** A class that does not exist, read on /classes/:id and written on
    /classes/:id/update. *)
Lemma missing_record_witness :
  (status (fst (serve (addressed_endpoint
                         (ReadClasse (ClassesRoutes.Build_query None 50 0 None))
                         "cclasse999")
                      Sample.world)) = 404
   /\ db (snd (serve (addressed_endpoint
                        (ReadClasse (ClassesRoutes.Build_query None 50 0 None))
                        "cclasse999")
                     Sample.world)) = db Sample.world)
  /\ (status (fst (serve (addressed_endpoint
                            (WriteClasse2 (ClassesRoutes.Build_updateClasse (Some "CM1")))
                            "cclasse999")
                         Sample.world)) = 500
      /\ db (snd (serve (addressed_endpoint
                           (WriteClasse2 (ClassesRoutes.Build_updateClasse (Some "CM1")))
                           "cclasse999")
                        Sample.world)) = db Sample.world).
Proof.
  split.
  - refine (@missing_record (ReadClasse (ClassesRoutes.Build_query None 50 0 None))
                            "cclasse999" Sample.world eq_refl _ eq_refl eq_refl).
    discriminate.
  - refine (@missing_record
              (WriteClasse2 (ClassesRoutes.Build_updateClasse (Some "CM1")))
              "cclasse999" Sample.world eq_refl _ eq_refl eq_refl).
    discriminate.
Defined.

(** The lessons and the exercises of "Math". *)
Lemma subject_children_complete_witness :
  (exists rows,
     fst (serve (MatieresReads.get_id_lecons "cmatiere01") Sample.world)
     = mkResponse 200 (success_data (JArr (map Lecons.to_json rows)))
     /\ Permutation rows [Sample.fractions; Sample.decimaux])
  /\ (exists rows,
        fst (serve (MatieresReads.get_id_exercices "cmatiere01") Sample.world)
        = mkResponse 200 (success_data (JArr (map Exercices.to_json rows)))
        /\ Permutation rows [Sample.quiz; Sample.calcul]).
Proof.
  exact (@subject_children_complete "cmatiere01" Sample.world eq_refl eq_refl).
Defined.

(** Two more options for the exercise "Quiz", in one request. *)
Lemma bulk_created_rows_witness :
  optionsQCM (db (snd (serve (OptionsQCMRoutes.post_bulk
                                (OptionsQCMRoutes.Build_bulk "cexercice1"
                                   [OptionsQCMRoutes.Build_bulkOption
                                      "1/3" None None false;
                                    OptionsQCMRoutes.Build_bulkOption
                                      "1/4" None (Some 2%Z) true]))
                             Sample.world)))
  = [Sample.choix;
     OptionsQCM.mk "cnew000000" "1/3" None "cexercice1" None false false
                   1700000123456 1700000123456;
     OptionsQCM.mk "cnew000001" "1/4" None "cexercice1" (Some 2%Z) true false
                   1700000123456 1700000123456].
Proof.
  destruct (@bulk_created_rows
              (OptionsQCMRoutes.Build_bulk "cexercice1"
                 [OptionsQCMRoutes.Build_bulkOption "1/3" None None false;
                  OptionsQCMRoutes.Build_bulkOption "1/4" None (Some 2%Z) true])
              Sample.world eq_refl) as [Hdb _].
  now rewrite Hdb.
Defined.

(** The lesson "Fractions" sent its own name, letter for letter. *)
Lemma rename_same_spelling_witness :
  status (fst (serve (rename_endpoint
                        (RenameLecon "clecon0001"
                           (LeconsRoutes.Build_updateLecon (Some "Fractions") None None)))
                     Sample.world)) = 200
  /\ stored (RenameLecon "clecon0001"
               (LeconsRoutes.Build_updateLecon (Some "Fractions") None None))
            (db (snd (serve (rename_endpoint
                               (RenameLecon "clecon0001"
                                  (LeconsRoutes.Build_updateLecon
                                     (Some "Fractions") None None)))
                            Sample.world)))
     = Some ("Fractions", "cmatiere01").
Proof.
  refine (@rename_same_spelling
            (RenameLecon "clecon0001"
               (LeconsRoutes.Build_updateLecon (Some "Fractions") None None))
            Sample.world "Fractions" "cmatiere01" eq_refl eq_refl _ eq_refl eq_refl
            (or_introl eq_refl)).
  discriminate.
Defined.

(** The subject "Math" renamed "MATH". *)
Lemma matiere_rename_accepted_witness :
  status (fst (serve (MatieresRoutes.put_id "cmatiere01"
                        (MatieresRoutes.Build_updateMatiere
                           (Some "MATH") None None None None))
                     Sample.world)) = 200
  /\ map Matieres.nom
         (matieres (db (snd (serve (MatieresRoutes.put_id "cmatiere01"
                                      (MatieresRoutes.Build_updateMatiere
                                         (Some "MATH") None None None None))
                                   Sample.world))))
     = ["MATH"; "Histoire"].
Proof.
  refine (match @matiere_rename_accepted "cmatiere01"
                  (MatieresRoutes.Build_updateMatiere (Some "MATH") None None None None)
                  Sample.world Sample.math "MATH" eq_refl eq_refl eq_refl _ eq_refl _
          with
          | conj Hs _ => conj Hs eq_refl
          end).
  - discriminate.
  - intros x [<-|[<-|[]]] _ Hx; [now elim Hx | discriminate].
Defined.
